(** * Area weights for the tax microdata file

    A shallow embedding of [tmd/areas/create_area_weights.py] and the
    properties its specification states about it, followed by further
    properties of that file and by [adjust_qbi.py],
    [utils/taxcalc_utils.py] and [tests/test_basic_flat_file.py].

    - Numbers.  Python and numpy floats are read as rationals [Q],
      compared with [==]: the exact-arithmetic reading of the numerical
      code.  A division by zero that numpy answers with [inf] or [nan] is
      [0] here, and the properties that divide assume a divisor that is
      not zero.  Where a property is about the rounding of binary64
      itself, the same lines are also read over the kernel's IEEE 754
      floats, in [Binary64]; the totals test, whose outcome hangs on a
      comparison of doubles, is read over these floats throughout.
    - Exceptions are values of [exn], carried by the [result] monad; the
      text of an assertion is kept without the values it interpolates.
    - Strings are strings of ASCII characters.
    - A [pandas.DataFrame] is its column names and its records, a record
      giving a number for every name; the codes [count], [scope] and
      [fstatus] of a target are integers.
    - One- and two-dimensional arrays are lists, the latter with their
      shape; operations on arrays refuse the shapes numpy and jax refuse.
    - The Tax-Calculator run, [scipy.optimize.minimize] and
      [scipy.optimize.bisect] are functions given to the definitions that
      call them; files are arguments and results; of the log the trials
      of the loop and the lines of the two distributions are kept.
    - A run of the script ends with the status of its process: that of
      [sys.exit], or 1 after an exception nothing caught.
    - The value [target_rmse] returns, a square root, is a real number. *)

From Stdlib Require Import ZArith QArith Qfield Lqa Lia List Bool Ascii String.
From Stdlib Require Import DecimalString DecimalPos DecimalZ.
From Stdlib Require Import PrimFloat FloatOps SpecFloat.
From Stdlib Require Import Reals Qreals Qround Qabs.
Import ListNotations.

Local Open Scope Z_scope.

(* ================================================================= *)
(** ** Exceptions *)

Inductive exn : Type :=
| AssertionError (msg : string)
| KeyError
| ValueError
| AttributeError
| ZeroDivisionError
| UnboundLocalError
| TypeError.

Inductive result (A : Type) : Type :=
| Ok (a : A)
| Raise (e : exn).
Arguments Ok {A} a.
Arguments Raise {A} e.

Definition bind {A B} (m : result A) (k : A -> result B) : result B :=
  match m with
  | Ok a => k a
  | Raise e => Raise e
  end.

Notation "x <- m ;; k" := (bind m (fun x => k))
  (at level 61, m at next level, right associativity).
Notation "' pat <- m ;; k" := (bind m (fun x => match x with pat => k end))
  (at level 61, pat pattern, m at next level, right associativity).

(** [assert cond, msg] *)
Definition assert (cond : bool) (msg : string) : result unit :=
  if cond then Ok tt else Raise (AssertionError msg).

Definition raises {A} (m : result A) : Prop := exists e, m = Raise e.
Definition returns {A} (m : result A) : Prop := exists a, m = Ok a.

(* ================================================================= *)
(** ** Python strings and dictionaries, as far as [valid_area] uses them *)

Module Py.

Local Open Scope char_scope.

Definition code (c : ascii) : nat := nat_of_ascii c.

Definition is_lower_char (c : ascii) : bool :=
  (97 <=? code c)%nat && (code c <=? 122)%nat.
Definition is_upper_char (c : ascii) : bool :=
  (65 <=? code c)%nat && (code c <=? 90)%nat.
Definition is_digit_char (c : ascii) : bool :=
  (48 <=? code c)%nat && (code c <=? 57)%nat.
(** The characters [int()] strips from a string of ASCII characters: tab
    to carriage return, and the space. *)
Definition is_space_char (c : ascii) : bool :=
  ((9 <=? code c)%nat && (code c <=? 13)%nat) || (code c =? 32)%nat.

Definition upper_char (c : ascii) : ascii :=
  if is_lower_char c then ascii_of_nat (code c - 32) else c.

Definition chars (s : string) : list ascii := list_ascii_of_string s.

(** [len(s)] *)
Definition len (s : string) : Z := Z.of_nat (String.length s).

(** [s[lo:hi]] for [0 <= lo <= hi] *)
Definition slice (lo hi : nat) (s : string) : string :=
  substring lo (hi - lo) s.

(** [s.islower()]: some cased character, and no upper-case one. *)
Definition islower (s : string) : bool :=
  existsb is_lower_char (chars s) && negb (existsb is_upper_char (chars s)).

(** [s.upper()] *)
Definition upper (s : string) : string :=
  string_of_list_ascii (map upper_char (chars s)).

Fixpoint lstrip (l : list ascii) : list ascii :=
  match l with
  | c :: t => if is_space_char c then lstrip t else l
  | [] => []
  end.

Definition strip (l : list ascii) : list ascii :=
  rev (lstrip (rev (lstrip l))).

(** Decimal digits, single underscores allowed between two digits. *)
Fixpoint digits (acc : Z) (after_digit : bool) (l : list ascii) : option Z :=
  match l with
  | [] => if after_digit then Some acc else None
  | c :: t =>
      if is_digit_char c
      then digits (10 * acc + Z.of_nat (code c - 48)) true t
      else if Ascii.eqb c "_"
           then (if after_digit then digits acc false t else None)
           else None
  end.

(** [int(s)] in base ten. *)
Definition int (s : string) : result Z :=
  let body := strip (chars s) in
  let signed :=
    match body with
    | "-" :: t => option_map Z.opp (digits 0 false t)
    | "+" :: t => digits 0 false t
    | _ => digits 0 false body
    end in
  match signed with
  | Some z => Ok z
  | None => Raise ValueError
  end.

(** A dictionary literal, in source order. *)
Definition dict (K V : Type) : Type := list (K * V).

Fixpoint get {K V} (eqb : K -> K -> bool) (d : dict K V) (k : K) : option V :=
  match d with
  | [] => None
  | (k', v) :: t => if eqb k k' then Some v else get eqb t k
  end.

(** [d[k]] *)
Definition getitem {K V} (eqb : K -> K -> bool) (d : dict K V) (k : K)
  : result V :=
  match get eqb d k with
  | Some v => Ok v
  | None => Raise KeyError
  end.

(** [k in d] *)
Definition contains {K V} (eqb : K -> K -> bool) (d : dict K V) (k : K) : bool :=
  match get eqb d k with
  | Some _ => true
  | None => false
  end.

End Py.

(* ================================================================= *)
(** ** [valid_area] *)

Module Area.

Local Open Scope string_scope.
Local Open Scope Z_scope.

(** Seats in the House by state: [{2020: a, 2010: b}]. *)
Definition seats (a b : Z) : Py.dict Z Z := [(2020, a); (2010, b)].

Definition state_info : Py.dict string (Py.dict Z Z) :=
  [ ("AL", seats 7 7);   ("AK", seats 1 1);   ("AZ", seats 9 9);
    ("AR", seats 4 4);   ("CA", seats 52 53); ("CO", seats 8 7);
    ("CT", seats 5 5);   ("DE", seats 1 1);   ("FL", seats 28 27);
    ("GA", seats 14 14); ("HI", seats 2 2);   ("ID", seats 2 2);
    ("IL", seats 17 18); ("IN", seats 9 9);   ("IA", seats 4 4);
    ("KS", seats 4 4);   ("KY", seats 6 6);   ("LA", seats 6 6);
    ("ME", seats 2 2);   ("MD", seats 8 8);   ("MA", seats 9 9);
    ("MI", seats 13 14); ("MN", seats 8 8);   ("MS", seats 4 4);
    ("MO", seats 8 8);   ("MT", seats 2 1);   ("NE", seats 3 3);
    ("NV", seats 4 4);   ("NH", seats 2 2);   ("NJ", seats 12 12);
    ("NM", seats 3 3);   ("NY", seats 26 27); ("NC", seats 14 13);
    ("ND", seats 1 1);   ("OH", seats 15 16); ("OK", seats 5 5);
    ("OR", seats 6 5);   ("PA", seats 17 18); ("RI", seats 2 2);
    ("SC", seats 7 7);   ("SD", seats 1 1);   ("TN", seats 9 9);
    ("TX", seats 38 36); ("UT", seats 4 4);   ("VT", seats 1 1);
    ("VA", seats 11 11); ("WA", seats 10 10); ("WV", seats 2 3);
    ("WI", seats 8 8);   ("WY", seats 1 1);
    ("XX", seats 1 1);   ("YY", seats 1 1);   ("ZZ", seats 1 1) ].

(** What [valid_area] writes to standard error, one constructor per
    message. *)
Inductive complaint : Type :=
| NotTwoOrFour
| NotLowerCase
| UnknownState
| OneDistrictState
| NonPositiveCd (cdn : Z)
| CdExceeds (cdn max_cdn : Z).

(** The loop that totals the seats of both censuses. *)
Fixpoint seat_totals (items : Py.dict string (Py.dict Z Z)) (t2010 t2020 : Z)
  : result (Z * Z) :=
  match items with
  | [] => Ok (t2010, t2020)
  | (_, s) :: rest =>
      a <- Py.getitem Z.eqb s 2010 ;;
      b <- Py.getitem Z.eqb s 2020 ;;
      seat_totals rest (t2010 + a) (t2020 + b)
  end.

(** The district branch, entered when [len(area) == 4]. *)
Definition check_district (area scode : string) (all_ok : bool)
  : list complaint * result bool :=
  match (s <- Py.getitem String.eqb state_info scode ;;
         Py.getitem Z.eqb s 2010) with
  | Raise e => ([], Raise e)
  | Ok max_cdn =>
      if max_cdn <=? 1 then ([OneDistrictState], Ok false)
      else
        match Py.int (Py.slice 2 4 area) with
        | Raise e => ([], Raise e)
        | Ok cdn =>
            let '(err1, ok1) :=
              if cdn <=? 0 then ([NonPositiveCd cdn], false)
              else ([], all_ok) in
            let '(err2, ok2) :=
              if max_cdn <? cdn then ([CdExceeds cdn max_cdn], false)
              else ([], ok1) in
            ((err1 ++ err2)%list, Ok ok2)
        end
  end.

(** [valid_area(area)]: the messages written, and the value returned or
    the exception raised. *)
Definition valid_area (area : string) : list complaint * result bool :=
  match (_ <- assert (Z.of_nat (List.length state_info) =? 50 + 3) "" ;;
         ' (t2010, t2020) <- seat_totals state_info 0 0 ;;
         _ <- assert (t2010 =? 435 + 3) "" ;;
         assert (t2020 =? 435 + 3) "") with
  | Raise e => ([], Raise e)
  | Ok _ =>
      let all_ok := true in
      let ok_length := (Py.len area =? 2) || (Py.len area =? 4) in
      let '(err1, all_ok) :=
        if negb ok_length then ([NotTwoOrFour], false) else ([], all_ok) in
      let s_c := Py.slice 0 2 area in
      let '(err2, all_ok) :=
        if negb (Py.islower s_c) then ([NotLowerCase], false)
        else ([], all_ok) in
      let scode := Py.upper s_c in
      let '(err3, all_ok) :=
        if negb (Py.contains String.eqb state_info scode)
        then ([UnknownState], false) else ([], all_ok) in
      if Py.len area =? 4
      then let '(err4, r) := check_district area scode all_ok in
           ((err1 ++ err2 ++ err3 ++ err4)%list, r)
      else ((err1 ++ err2 ++ err3)%list, Ok all_ok)
  end.

End Area.

(* ================================================================= *)
(** ** Numbers and arrays *)

Local Open Scope Q_scope.

Definition qeqb (x y : Q) : bool := Qeq_bool x y.
Definition qleb (x y : Q) : bool := Qle_bool x y.
Definition qltb (x y : Q) : bool := negb (Qle_bool y x).

(** A boolean as a number: [True] is 1 and [False] is 0. *)
Definition b2q (b : bool) : Q := if b then 1 else 0.

(** [numpy.sum] of a one-dimensional array. *)
Definition qsum (l : list Q) : Q := fold_right Qplus 0 l.

(** The sum of [f 0 .. f (n-1)], for stating properties by index. *)
Fixpoint bigsum (n : nat) (f : nat -> Q) : Q :=
  match n with
  | O => 0
  | S n' => bigsum n' f + f n'
  end.

(** How many [i < n] satisfy [p]. *)
Fixpoint bigcount (n : nat) (p : nat -> bool) : nat :=
  match n with
  | O => O
  | S n' => (bigcount n' p + (if p n' then 1 else 0))%nat
  end.

(** An elementwise operation on two arrays of one length. *)
Fixpoint zipWith {A B C} (f : A -> B -> C) (a : list A) (b : list B) : list C :=
  match a, b with
  | x :: a', y :: b' => f x y :: zipWith f a' b'
  | _, _ => []
  end.

(** Two one-dimensional operands under the broadcasting rule: equal
    lengths, or one operand of length one; anything else is refused, by
    numpy with a [ValueError] and by jax with a [TypeError]. *)
Definition broadcast2 (refusal : exn) (f : Q -> Q -> Q) (a b : list Q)
  : result (list Q) :=
  if (List.length a =? List.length b)%nat then Ok (zipWith f a b)
  else match a, b with
       | [x], _ => Ok (map (f x) b)
       | _, [y] => Ok (map (fun x => f x y) a)
       | _, _ => Raise refusal
       end.

(** A two-dimensional array: its shape and its rows. *)
Record ndarray2 : Type := mk_ndarray2 {
  nrow : nat;
  ncol : nat;
  cells : list (list Q)
}.

Definition get2 (M : ndarray2) (i j : nat) : Q := nth j (nth i (cells M) []) 0.

Definition well_shaped (M : ndarray2) : Prop :=
  List.length (cells M) = nrow M /\
  Forall (fun r => List.length r = ncol M) (cells M).

(** [numpy.vstack] of a tuple of one-dimensional arrays. *)
Definition vstack (arrs : list (list Q)) : result ndarray2 :=
  match arrs with
  | [] => Raise ValueError
  | a :: rest =>
      if forallb (fun r => (List.length r =? List.length a)%nat) rest
      then Ok (mk_ndarray2 (List.length arrs) (List.length a) arrs)
      else Raise ValueError
  end.

(** [M.T] *)
Definition transpose (M : ndarray2) : ndarray2 :=
  mk_ndarray2 (ncol M) (nrow M)
    (map (fun j => map (fun r => nth j r 0) (cells M)) (seq 0 (ncol M))).

(** [M * c] for a scalar [c]. *)
Definition scale2 (M : ndarray2) (c : Q) : ndarray2 :=
  mk_ndarray2 (nrow M) (ncol M) (map (map (fun v => v * c)) (cells M)).

(** [M * w[:, numpy.newaxis]]: row [i] multiplied by [w[i]]; a single
    weight or a single row is broadcast, other lengths are refused. *)
Definition scale_rows (M : ndarray2) (w : list Q) : result ndarray2 :=
  let times (r : list Q) (wi : Q) := map (fun v => v * wi) r in
  if (List.length w =? nrow M)%nat
  then Ok (mk_ndarray2 (nrow M) (ncol M) (zipWith times (cells M) w))
  else match w, cells M with
       | [w0], _ =>
           Ok (mk_ndarray2 (nrow M) (ncol M)
                 (map (fun r => times r w0) (cells M)))
       | _, [r0] =>
           Ok (mk_ndarray2 (List.length w) (ncol M) (map (times r0) w))
       | _, _ => Raise ValueError
       end.

(** Column [j] of [M]. *)
Definition column2 (M : ndarray2) (j : nat) : list Q :=
  map (fun r => nth j r 0) (cells M).

(** [numpy.dot(w, M)] for a vector [w] and a matrix [M]. *)
Definition dot_vm (w : list Q) (M : ndarray2) : result (list Q) :=
  if (List.length w =? nrow M)%nat
  then Ok (map (fun j => qsum (zipWith Qmult w (column2 M j))) (seq 0 (ncol M)))
  else Raise ValueError.

(** [A @ x] for a jax matrix [A] and a vector [x]. *)
Definition matvec (A : ndarray2) (x : list Q) : result (list Q) :=
  if (List.length x =? ncol A)%nat
  then Ok (map (fun r => qsum (zipWith Qmult r x)) (cells A))
  else Raise TypeError.

(* ================================================================= *)
(** ** Tables *)

(** A [pandas.DataFrame] of numbers: the column names and the records,
    each record giving its value in every column. *)
Record DataFrame : Type := mk_DataFrame {
  columns : list string;
  records : list (string -> Q)
}.

Module DF.

Definition has_column (df : DataFrame) (name : string) : bool :=
  existsb (String.eqb name) (columns df).

Definition column (df : DataFrame) (name : string) : list Q :=
  map (fun r => r name) (records df).

(** [len(df)] *)
Definition len (df : DataFrame) : nat := List.length (records df).

(** [df[name]] *)
Definition getitem (df : DataFrame) (name : string) : result (list Q) :=
  if has_column df name then Ok (column df name) else Raise KeyError.

(** [df.name] *)
Definition getattr (df : DataFrame) (name : string) : result (list Q) :=
  if has_column df name then Ok (column df name) else Raise AttributeError.

(** [df[name] = values] for an array [values]. *)
Definition setitem (df : DataFrame) (name : string) (values : list Q)
  : result DataFrame :=
  if (List.length values =? len df)%nat
  then Ok (mk_DataFrame
             (if has_column df name then columns df
              else (columns df ++ [name])%list)
             (zipWith (fun r v => fun k => if String.eqb k name then v else r k)
                (records df) values))
  else Raise ValueError.

End DF.

(* ================================================================= *)
(** ** [all_taxcalc_variables] *)

Local Open Scope string_scope.

Section AllTaxcalcVariables.

(** Tax-Calculator's [c00100] for the records of the input file (the
    [tc.Records] / [tc.Calculator] / [calc_all] run), which may fail. *)
Variable taxcalc_agi : DataFrame -> result (list Q).

(** The assertion on the weights and the return. *)
Definition checked_weights (vdf : DataFrame) : result DataFrame :=
  s006 <- DF.getattr vdf "s006" ;;
  _ <- assert (forallb (fun w => qltb 0 w) s006) "Not all weights are positive" ;;
  Ok vdf.

(** [all_taxcalc_variables(write_cache)], from the table read from
    [INFILE_PATH] and the content of the cache file when there is one;
    gives the cache file's content afterwards and the outcome. *)
Definition all_taxcalc_variables
    (infile : DataFrame) (cache : option (list Q)) (write_cache : bool)
  : option (list Q) * result DataFrame :=
  match cache with
  | Some agi =>
      (cache, vdf <- DF.setitem infile "c00100" agi ;; checked_weights vdf)
  | None =>
      match taxcalc_agi infile with
      | Raise e => (None, Raise e)
      | Ok agi =>
          match DF.setitem infile "c00100" agi with
          | Raise e => (None, Raise e)
          | Ok vdf => (if write_cache then Some agi else None,
                       checked_weights vdf)
          end
      end
  end.

End AllTaxcalcVariables.

(* ================================================================= *)
(** ** [prepared_data] *)

(** One row of [AREA_targets.csv]. *)
Record TargetRow : Type := mk_TargetRow {
  varname : string;
  count : Z;
  scope : Z;
  agilo : Q;
  agihi : Q;
  fstatus : Z;
  target : Q
}.

(** Lines 203-207, over any arithmetic: the target with the unit floor, its
    reciprocal scale, and the scaled target. *)
Section TargetAmount.

Variable num : Type.
Variable one : num.
Variable is_zero : num -> bool.
Variables mul div : num -> num -> num.

Definition unscaled_target_of (t : num) : num :=
  if is_zero t then one else t.

Definition scale_of (t : num) : num := div one (unscaled_target_of t).

Definition scaled_target_of (t : num) : num :=
  mul (unscaled_target_of t) (scale_of t).

End TargetAmount.

Definition unscaled_target (t : Q) : Q :=
  unscaled_target_of Q 1 (fun x => qeqb x 0) t.
Definition scale (t : Q) : Q :=
  scale_of Q 1 (fun x => qeqb x 0) Qdiv t.
Definition scaled_target (t : Q) : Q :=
  scaled_target_of Q 1 (fun x => qeqb x 0) Qmult Qdiv t.

(** The same lines over binary64. *)
Module Binary64.

Definition unscaled_target (t : float) : float :=
  unscaled_target_of float 1%float (fun x => PrimFloat.eqb x 0%float) t.
Definition scale (t : float) : float :=
  scale_of float 1%float (fun x => PrimFloat.eqb x 0%float) PrimFloat.div t.
Definition scaled_target (t : float) : float :=
  scaled_target_of float 1%float (fun x => PrimFloat.eqb x 0%float)
    PrimFloat.mul PrimFloat.div t.

(** An entry of [np.array(ta_list) * scale_factor]. *)
Definition target_array_entry (t : float) : float :=
  PrimFloat.mul (scaled_target t) 1%float.

(** The deltas of the regularization loop: 1.0e-9, its quarter, and the
    floor 1e-20, as the doubles Python reads them. *)
Definition DELTA_INIT_VALUE : float := 0x1.12e0be826d695p-30%float.
Definition DELTA_LOOP_DECREMENT : float :=
  PrimFloat.div DELTA_INIT_VALUE 4%float.
Definition delta_floor : float := 0x1.79ca10c924223p-67%float.

(** Lines 518-520. *)
Definition next_delta (delta : float) : float :=
  let delta := PrimFloat.sub delta DELTA_LOOP_DECREMENT in
  if PrimFloat.ltb delta delta_floor then 0%float else delta.

(** The deltas of [n] successive trials, from [delta]. *)
Fixpoint deltas (n : nat) (delta : float) : list float :=
  match n with
  | O => []
  | S n' => delta :: deltas n' (next_delta delta)
  end.

End Binary64.

(** The checks on the row of line 2 of the targets file. *)
Definition population_row (row : TargetRow) : bool :=
  forallb (fun b => b)
    [ String.eqb (varname row) "XTOT";
      (count row =? 0)%Z;
      (scope row =? 0)%Z;
      qltb (agilo row) (-8e99);
      qltb 8e99 (agihi row);
      (fstatus row =? 0)%Z ].

(** [mask *= cond] *)
Definition mask_times (mask : list Z) (cond : list bool) : list Z :=
  zipWith (fun m b => (m * Z.b2z b)%Z) mask cond.

(** Lines 224-246: the scaled, masked variable array of one target. *)
Definition scaled_masked_varray (vardf : DataFrame) (row : TargetRow)
  : result (list Q) :=
  let numobs := DF.len vardf in
  _ <- assert ((0 <=? count row)%Z && (count row <=? 1)%Z)
         "count value not in [0,1] range" ;;
  v <- DF.getitem vardf (varname row) ;;
  let unmasked_varray :=
    if (count row =? 0)%Z then v
    else map (fun x => b2q (qltb 0 x)) v in
  let mask := repeat 1%Z numobs in
  _ <- assert ((0 <=? scope row)%Z && (scope row <=? 2)%Z)
         "scope value not in [0,2] range" ;;
  mask <- (if (scope row =? 1)%Z
           then ds <- DF.getattr vardf "data_source" ;;
                Ok (mask_times mask (map (fun x => qeqb x 1) ds))
           else if (scope row =? 2)%Z
           then ds <- DF.getattr vardf "data_source" ;;
                Ok (mask_times mask (map (fun x => qeqb x 0) ds))
           else Ok mask) ;;
  c00100 <- DF.getattr vardf "c00100" ;;
  let in_bin :=
    zipWith andb (map (fun x => qleb (agilo row) x) c00100)
                 (map (fun x => qltb x (agihi row)) c00100) in
  let mask := mask_times mask in_bin in
  _ <- assert ((0 <=? fstatus row)%Z && (fstatus row <=? 5)%Z)
         "fstatus value not in [0,5] range" ;;
  mask <- (if (0 <? fstatus row)%Z
           then mars <- DF.getattr vardf "MARS" ;;
                Ok (mask_times mask
                      (map (fun x => qeqb x (inject_Z (fstatus row))) mars))
           else Ok mask) ;;
  Ok (map (fun x => x * scale (target row))
        (zipWith (fun m x => inject_Z m * x) mask unmasked_varray)).

(** The variables the loop over the target rows updates. *)
Record LoopState : Type := mk_LoopState {
  row_num : Z;
  tm_tuple : list (list Q);
  ta_list : list Q;
  initial_weights_scale : option Q
}.

(** [row.target / national_population] (line 222).  The sum over a table
    without records is the Python integer 0, and a Python number divided
    by it raises; over a table with records the sum is a numpy number,
    which divides without raising. *)
Definition target_over_population (vardf : DataFrame)
    (t national_population : Q) : result Q :=
  if (DF.len vardf =? 0)%nat then Raise ZeroDivisionError
  else Ok (t / national_population).

(** One pass through the body of the loop (lines 200-247). *)
Definition row_body (vardf : DataFrame) (national_population : Q)
    (st : LoopState) (row : TargetRow) : result LoopState :=
  let row_num := (row_num st + 1)%Z in
  let ta_list := (ta_list st ++ [scaled_target (target row)])%list in
  iws <- (if (row_num =? 2)%Z
          then _ <- assert (population_row row)
                      "does not contain the area population target" ;;
               iws <- target_over_population vardf (target row)
                        national_population ;;
               Ok (Some iws)
          else Ok (initial_weights_scale st)) ;;
  col <- scaled_masked_varray vardf row ;;
  Ok (mk_LoopState row_num (tm_tuple st ++ [col])%list ta_list iws).

Fixpoint rows_loop (vardf : DataFrame) (national_population : Q)
    (st : LoopState) (tdf : list TargetRow) : result LoopState :=
  match tdf with
  | [] => Ok st
  | row :: rest =>
      st' <- row_body vardf national_population st row ;;
      rows_loop vardf national_population st' rest
  end.

Definition national_population_of (vardf : DataFrame) : result Q :=
  s006 <- DF.getattr vardf "s006" ;;
  xtot <- DF.getattr vardf "XTOT" ;;
  Ok (qsum (zipWith Qmult s006 xtot)).

(** [prepared_data(area, vardf)], from the table [tdf] read from the
    targets file of the area. *)
Definition prepared_data (vardf : DataFrame) (tdf : list TargetRow)
  : result (ndarray2 * list Q * Q) :=
  national_population <- national_population_of vardf ;;
  st <- rows_loop vardf national_population (mk_LoopState 1 [] [] None) tdf ;;
  let scale_factor := 1 in
  stacked <- vstack (tm_tuple st) ;;
  let target_matrix := scale2 (transpose stacked) scale_factor in
  let target_array := map (fun v => v * scale_factor) (ta_list st) in
  match initial_weights_scale st with
  | None => Raise UnboundLocalError
  | Some iws => Ok (target_matrix, target_array, iws)
  end.

(* ================================================================= *)
(** ** [target_misses] *)

Definition TARGET_RATIO_TOLERANCE : Q := 0.0005.

(** One line of the miss report: the target number (from 1), its
    actual/expected ratio and the two bounds. *)
Record MissLine : Type := mk_MissLine {
  miss_tnum : Z;
  miss_ratio : Q;
  miss_lob : Q;
  miss_hib : Q
}.

(** [ratio < lob or ratio >= hib] *)
Definition outside_band (lob hib ratio : Q) : bool :=
  qltb ratio lob || qleb hib ratio.

(** [.sum()] of an array of booleans. *)
Definition count_true (l : list bool) : nat :=
  fold_right (fun (b : bool) (n : nat) => ((if b then 1 else 0) + n)%nat) O l.

(** The loop over [enumerate(tratio)], from index [tnum]. *)
Fixpoint miss_lines (lob hib : Q) (tnum : Z) (tratio : list Q) : list MissLine :=
  match tratio with
  | [] => []
  | ratio :: rest =>
      if outside_band lob hib ratio
      then mk_MissLine (tnum + 1) ratio lob hib
             :: miss_lines lob hib (tnum + 1) rest
      else miss_lines lob hib (tnum + 1) rest
  end.

(** [target_misses], with the tolerance (the module constant
    [TARGET_RATIO_TOLERANCE]) as a parameter.  The ratios are those of
    nonzero targets, as are the targets [prepared_data] makes; of a
    target that is zero numpy makes an infinity or a [nan], which no
    rational stands for, and the properties of the ratios below are
    stated for nonzero targets. *)
Definition target_misses_tol (tol : Q)
    (wght : list Q) (target_matrix : ndarray2) (target_array : list Q)
  : result (nat * list MissLine) :=
  actual <- dot_vm wght target_matrix ;;
  tratio <- broadcast2 ValueError Qdiv actual target_array ;;
  let lob := 1 - tol in
  let hib := 1 + tol in
  let num := count_true (map (outside_band lob hib) tratio) in
  let mstr := if (0 <? num)%nat then miss_lines lob hib 0 tratio else [] in
  Ok (num, mstr).

Definition target_misses := target_misses_tol TARGET_RATIO_TOLERANCE.

(* ================================================================= *)
(** ** [objective_function] *)

Definition square (v : Q) : Q := v * v.

(** [objective_function(x, A, b, delta)] *)
Definition objective_function (x : list Q) (args : ndarray2 * list Q * Q)
  : result Q :=
  let '(A, b, delta) := args in
  Ax <- matvec A x ;;
  dev <- broadcast2 TypeError Qminus Ax b ;;
  let ssq_target_deviations := qsum (map square dev) in
  let ssq_weight_deviations := qsum (map square (map (fun xi => xi - 1) x)) in
  Ok (ssq_target_deviations + delta * ssq_weight_deviations).

(* ================================================================= *)
(** ** The regularization loop of [create_area_weights_file] *)

Definition DELTA_INIT_VALUE : Q := 1.0e-9.
Definition DELTA_MAX_LOOPS : Z := 5.
Definition DELTA_LOOP_DECREMENT : Q :=
  DELTA_INIT_VALUE / inject_Z (DELTA_MAX_LOOPS - 1).

(** What the loop reads of [scipy.optimize.OptimizeResult]. *)
Record OptimizeResult : Type := mk_OptimizeResult {
  res_x : list Q;
  res_success : bool
}.

(** One pass through the loop: the loop counter, the delta and the initial
    guess handed to the solver, what the solver returned, and the miss
    count of the weights it gave. *)
Record Trial : Type := mk_Trial {
  trial_loop : Z;
  trial_delta : Q;
  trial_x0 : list Q;
  trial_res : OptimizeResult;
  trial_misses : nat
}.

(** The variables alive after the loop. *)
Record LoopExit : Type := mk_LoopExit {
  exit_loop : Z;
  exit_delta : Q;
  exit_res : option OptimizeResult
}.

Section Calibration.

(** [scipy.optimize.minimize] with method L-BFGS-B and the options of the
    source, as a function of the objective, the initial guess and the
    fixed arguments; it may raise what the objective raises. *)
Variable minimize :
  (list Q -> ndarray2 * list Q * Q -> result Q) ->
  list Q -> ndarray2 * list Q * Q -> result OptimizeResult.

Section Loop.

Variables (A : ndarray2) (b : list Q).
Variables (wght_us : list Q) (target_matrix : ndarray2) (target_array : list Q).
Variable wght0 : list Q.

(** [while loop <= DELTA_MAX_LOOPS: ...], at most [fuel] passes; [None]
    when the passes allowed did not reach the end of the loop. *)
Fixpoint delta_loop (fuel : nat) (loop : Z) (delta : Q)
    (res : option OptimizeResult) (done : list Trial)
  : option (list Trial * result LoopExit) :=
  if (loop <=? DELTA_MAX_LOOPS)%Z then
    match fuel with
    | O => None
    | S fuel' =>
        match (res <- minimize objective_function wght0 (A, b, delta) ;;
               wght_area <- broadcast2 ValueError Qmult (res_x res) wght_us ;;
               ' (misses, minfo) <-
                 target_misses wght_area target_matrix target_array ;;
               Ok (res, misses, minfo)) with
        | Raise e => Some (done, Raise e)
        | Ok (res, misses, minfo) =>
            let done := (done ++ [mk_Trial loop delta wght0 res misses])%list in
            if (misses =? 0)%nat || negb (res_success res)
            then Some (done, Ok (mk_LoopExit loop delta (Some res)))
            else
              let loop := (loop + 1)%Z in
              let delta := delta - DELTA_LOOP_DECREMENT in
              let delta := if qltb delta 1e-20 then 0 else delta in
              delta_loop fuel' loop delta (Some res) done
        end
    end
  else Some (done, Ok (mk_LoopExit loop delta res)).

End Loop.

(** Lines 471-520: the matrix of the problem, the neutral initial guess
    and the loop. *)
Definition regularization_loop (fuel : nat)
    (wght_us : list Q) (target_matrix : ndarray2) (target_array : list Q)
  : option (list Trial * result LoopExit) :=
  match scale_rows target_matrix wght_us with
  | Raise e => Some ([], Raise e)
  | Ok scaled =>
      let A := transpose scaled in
      let b := target_array in
      let num_weights := List.length wght_us in
      let wght0 := repeat 1 num_weights in
      delta_loop A b wght_us target_matrix target_array wght0
        fuel 1%Z DELTA_INIT_VALUE None []
  end.

End Calibration.

(* ================================================================= *)
(** ** The yearly weights of [create_area_weights_file] *)

Definition FIRST_YEAR : Z := 2021.
Definition LAST_YEAR : Z := 2034.

(** [n] consecutive integers from [lo]. *)
Fixpoint range_from (lo : Z) (n : nat) : list Z :=
  match n with
  | O => []
  | S n' => lo :: range_from (lo + 1)%Z n'
  end.

(** [range(lo, hi)] *)
Definition range (lo hi : Z) : list Z := range_from lo (Z.to_nat (hi - lo)).

(** The column name ["WT" + str(year)]. *)
Definition wt_key (year : Z) : string :=
  "WT" ++ NilZero.string_of_int (Z.to_int year).

(** [d[k] = v] on a dictionary that keeps insertion order. *)
Fixpoint dict_set {V} (d : Py.dict string V) (k : string) (v : V)
  : Py.dict string V :=
  match d with
  | [] => [(k, v)]
  | (k', v') :: rest =>
      if String.eqb k k' then (k', v) :: rest
      else (k', v') :: dict_set rest k v
  end.

(** [p / q] on Python numbers. *)
Definition truediv (p q : Q) : result Q :=
  if qeqb q 0 then Raise ZeroDivisionError else Ok (p / q).

(** The loop over the years after the first. *)
Fixpoint years_loop (pop : Py.dict Z Q) (weights : list Q)
    (years : list Z) (cum_pop_growth : Q) (wdict : Py.dict string (list Q))
  : result (Py.dict string (list Q)) :=
  match years with
  | [] => Ok wdict
  | year :: rest =>
      p1 <- Py.getitem Z.eqb pop year ;;
      p0 <- Py.getitem Z.eqb pop (year - 1)%Z ;;
      annual_pop_growth <- truediv p1 p0 ;;
      let cum_pop_growth := cum_pop_growth * annual_pop_growth in
      let wght := map (fun w => w * cum_pop_growth) weights in
      years_loop pop weights rest cum_pop_growth
        (dict_set wdict (wt_key year) wght)
  end.

(** Lines 558-566 for the years [first .. last]. *)
Definition yearly_weights (first last : Z) (pop : Py.dict Z Q)
    (wght_area : list Q) : result (Py.dict string (list Q)) :=
  let weights := map (fun w => w * 100) wght_area in
  let wdict := [(wt_key first, weights)] in
  years_loop pop weights (range (first + 1) (last + 1)) 1 wdict.

(* ================================================================= *)
(** ** [create_area_weights_file] *)

Section CreateAreaWeightsFile.

Variable taxcalc_agi : DataFrame -> result (list Q).
Variable minimize :
  (list Q -> ndarray2 * list Q * Q -> result Q) ->
  list Q -> ndarray2 * list Q * Q -> result OptimizeResult.

(** [np.count_nonzero(target_matrix) / target_matrix.size], a division of
    two integers: of the ratio only its failure on an empty matrix is
    kept. *)
Definition density_defined (target_matrix : ndarray2) : result unit :=
  if (nrow target_matrix * ncol target_matrix =? 0)%nat
  then Raise ZeroDivisionError else Ok tt.

(** What a run leaves behind: the cache file and, when the run wrote one,
    the columns of the weights file before they are rounded. *)
Record Outcome : Type := mk_Outcome {
  out_cache : option (list Q);
  out_trials : list Trial;
  out_weights : result (option (Py.dict string (list Q)))
}.

(** The calculations of [create_area_weights_file]; the text of the log
    and the diagnostics that only feed it are left out.  [None] when the
    regularization loop did not finish within [DELTA_MAX_LOOPS] passes. *)
Definition create_area_weights_file
    (infile : DataFrame) (cache : option (list Q))
    (tdf : list TargetRow) (pop : Py.dict Z Q)
    (write_file write_cache : bool) : option Outcome :=
  let '(cache', loaded) :=
    all_taxcalc_variables taxcalc_agi infile cache write_cache in
  match (vdf <- loaded ;;
         prepared <- prepared_data vdf tdf ;;
         s006 <- DF.getattr vdf "s006" ;;
         _ <- density_defined (fst (fst prepared)) ;;
         Ok (prepared, s006)) with
  | Raise e => Some (mk_Outcome cache' [] (Raise e))
  | Ok (target_matrix, target_array, weights_scale, s006) =>
      let wght_us := map (fun w => w * weights_scale) s006 in
      match regularization_loop minimize (Z.to_nat DELTA_MAX_LOOPS)
              wght_us target_matrix target_array with
      | None => None
      | Some (trials, Raise e) => Some (mk_Outcome cache' trials (Raise e))
      | Some (trials, Ok ex) =>
          Some (mk_Outcome cache' trials
            (match exit_res ex with
             | None => Raise UnboundLocalError
             | Some res =>
                 wght_area <- broadcast2 ValueError Qmult (res_x res) wght_us ;;
                 if negb write_file then Ok None
                 else wdict <- yearly_weights FIRST_YEAR LAST_YEAR pop wght_area ;;
                      Ok (Some wdict)
             end))
      end
  end.

End CreateAreaWeightsFile.

(* ================================================================= *)
(** ** The distributions [target_rmse] and [weight_ratio_distribution] write *)

(** An edge of a bin: a number, or [np.inf]. *)
Inductive edge : Type :=
| Finite (q : Q)
| Infinity.

Definition edge_ltb (a b : edge) : bool :=
  match a, b with
  | Finite x, Finite y => qltb x y
  | Finite _, Infinity => true
  | Infinity, _ => false
  end.

(** [lo <= v] and [v < hi] for a number [v]. *)
Definition edge_le_value (lo : edge) (v : Q) : bool :=
  match lo with
  | Finite q => qleb q v
  | Infinity => false
  end.

Definition value_lt_edge (v : Q) (hi : edge) : bool :=
  match hi with
  | Finite q => qltb v q
  | Infinity => true
  end.

(** [v] is in the interval [[lo, hi)] (the bins are closed on the left:
    [right=False]). *)
Definition in_interval (lo hi : edge) (v : Q) : bool :=
  edge_le_value lo v && value_lt_edge v hi.

(** The bins increase strictly, as [pd.cut] requires. *)
Fixpoint increasing (bins : list edge) : bool :=
  match bins with
  | a :: (b :: _) as rest => edge_ltb a b && increasing rest
  | _ => true
  end.

(** The intervals between consecutive edges. *)
Fixpoint intervals (bins : list edge) : list (edge * edge) :=
  match bins with
  | a :: (b :: _) as rest => (a, b) :: intervals rest
  | _ => []
  end.

Definition count_in (lo hi : edge) (ratio : list Q) : nat :=
  List.length (filter (in_interval lo hi) ratio).

(** [pd.Series(pd.cut(ratio, bins, right=False, precision=6))
    .value_counts().sort_index().to_dict()]: every interval, in order,
    with the number of values in it. *)
Definition cut_counts (bins : list edge) (ratio : list Q)
  : result (list (edge * edge * nat)) :=
  if increasing bins
  then Ok (map (fun i => (fst i, snd i, count_in (fst i) (snd i) ratio))
             (intervals bins))
  else Raise ValueError.

(** One line of a distribution: the interval, its count, the cumulative
    count, and the two as shares of the total. *)
Record HistLine : Type := mk_HistLine {
  line_left : edge;
  line_right : edge;
  line_num : nat;
  line_cum : nat;
  line_num_share : Q;
  line_cum_share : Q
}.

(** [num / tot] on two Python integers. *)
Definition int_truediv (num tot : nat) : result Q :=
  if (tot =? 0)%nat then Raise ZeroDivisionError
  else Ok (inject_Z (Z.of_nat num) / inject_Z (Z.of_nat tot)).

(** The loop over [count.items()]: the lines written. *)
Fixpoint distribution_loop (tot : nat) (items : list (edge * edge * nat))
    (cum : nat) : result (list HistLine) :=
  match items with
  | [] => Ok []
  | (lo, hi, num) :: rest =>
      let cum := (cum + num)%nat in
      if (cum =? 0)%nat then distribution_loop tot rest cum
      else
        num_share <- int_truediv num tot ;;
        cum_share <- int_truediv cum tot ;;
        let line := mk_HistLine lo hi num cum num_share cum_share in
        if (cum =? tot)%nat then Ok [line]
        else rest_lines <- distribution_loop tot rest cum ;;
             Ok (line :: rest_lines)
  end.

(** The lines of the distribution of [ratio] over [bins]. *)
Definition ratio_distribution (bins : list edge) (ratio : list Q)
  : result (list HistLine) :=
  let tot := List.length ratio in
  count <- cut_counts bins ratio ;;
  distribution_loop tot count 0.

Definition TARGET_RATIO_BINS : list edge :=
  [ Finite 0.0; Finite 0.4; Finite 0.8; Finite 0.9; Finite 0.99;
    Finite (1.0 - TARGET_RATIO_TOLERANCE);
    Finite (1.0 + TARGET_RATIO_TOLERANCE);
    Finite 1.01; Finite 1.1; Finite 1.2; Finite 1.6; Finite 2.0;
    Finite 3.0; Finite 4.0; Finite 5.0; Infinity ].

Definition WEIGHT_RATIO_BINS : list edge :=
  [ Finite 0.0; Finite 1e-6; Finite 0.1; Finite 0.2; Finite 0.5; Finite 0.8;
    Finite 0.85; Finite 0.9; Finite 0.95; Finite 1.0; Finite 1.05;
    Finite 1.1; Finite 1.15; Finite 1.2; Finite 2.0; Finite 5.0;
    Finite 1e1; Finite 1e2; Finite 1e3; Finite 1e4; Finite 1e5; Infinity ].

(** [np.mean] of a one-dimensional array. *)
Definition qmean (l : list Q) : Q :=
  qsum l / inject_Z (Z.of_nat (List.length l)).

(** What [target_rmse] computes before it writes: the achieved values
    less the targets, and the achieved/expected ratios, those of nonzero
    targets (of a target that is zero numpy makes an infinity or a
    [nan], which falls in no bin). *)
Definition target_deviations (wght : list Q) (target_matrix : ndarray2)
    (target_array : list Q) : result (list Q * list Q) :=
  act <- dot_vm wght target_matrix ;;
  act_minus_exp <- broadcast2 ValueError Qminus act target_array ;;
  ratio <- broadcast2 ValueError Qdiv act target_array ;;
  Ok (act_minus_exp, ratio).

(** [target_rmse(wght, target_matrix, target_array, out, delta)] with
    [DUMP_ALL_TARGET_DEVIATIONS] off: the lines written and the value
    returned, the root of the mean of the squared deviations. *)
Definition target_rmse (wght : list Q) (target_matrix : ndarray2)
    (target_array : list Q) : result (list HistLine * R) :=
  ' (act_minus_exp, ratio) <-
    target_deviations wght target_matrix target_array ;;
  lines <- ratio_distribution TARGET_RATIO_BINS ratio ;;
  Ok (lines, sqrt (Q2R (qmean (map square act_minus_exp)))).

(** [weight_ratio_distribution(ratio, delta, out)]: the lines written and
    the sum of squared deviations written after them. *)
Definition weight_ratio_distribution (ratio : list Q)
  : result (list HistLine * Q) :=
  lines <- ratio_distribution WEIGHT_RATIO_BINS ratio ;;
  let ssqdev := qsum (map square (map (fun r => r - 1) ratio)) in
  Ok (lines, ssqdev).

(* ================================================================= *)
(** ** The script *)

(** The three errors the script itself writes to standard error. *)
Inductive MainError : Type :=
| OneArgumentRequired
| AreaNotValid (area_code : string)
| NoTargetsFile (tfile : string).

(** What a run of the script leaves: the complaints of [valid_area] and
    the error of the script on standard error, the exception nothing
    caught when there is one, the exit status of the process (that of
    [sys.exit], or 1 after an exception nothing caught), and the weights
    file of the area (its columns before they are rounded). *)
Record Finish : Type := mk_Finish {
  fin_complaints : list Area.complaint;
  fin_errors : list MainError;
  fin_uncaught : option exn;
  fin_status : Z;
  fin_weights_file : option (Py.dict string (list Q))
}.

Section Main.

Variable taxcalc_agi : DataFrame -> result (list Q).
Variable minimize :
  (list Q -> ndarray2 * list Q * Q -> result Q) ->
  list Q -> ndarray2 * list Q * Q -> result OptimizeResult.
Variables (infile : DataFrame) (cache : option (list Q)) (pop : Py.dict Z Q).

(** The files of the targets folder: name and rows. *)
Variable targets_folder : Py.dict string (list TargetRow).

(** The block under [if __name__ == "__main__"], on [sys.argv] and the
    weights file of the area as it was before.  A run of
    [create_area_weights_file] first removes that file and writes it anew
    at its end. *)
Definition main (argv : list string)
    (weights_file : option (Py.dict string (list Q))) : option Finish :=
  if negb (Z.of_nat (List.length argv) =? 2)%Z
  then Some (mk_Finish [] [OneArgumentRequired] None 1 weights_file)
  else
    let area_code := nth 1 argv EmptyString in
    match Area.valid_area area_code with
    | (complaints, Raise e) =>
        Some (mk_Finish complaints [] (Some e) 1 weights_file)
    | (complaints, Ok valid) =>
        if negb valid
        then Some (mk_Finish complaints [AreaNotValid area_code] None 1
                     weights_file)
        else
          let tfile := (area_code ++ "_targets.csv")%string in
          match Py.get String.eqb targets_folder tfile with
          | None =>
              Some (mk_Finish complaints [NoTargetsFile tfile] None 1
                      weights_file)
          | Some tdf =>
              match create_area_weights_file taxcalc_agi minimize
                      infile cache tdf pop true false with
              | None => None
              | Some o =>
                  match out_weights o with
                  | Raise e => Some (mk_Finish complaints [] (Some e) 1 None)
                  | Ok written =>
                      let RCODE := 0%Z in
                      Some (mk_Finish complaints [] None RCODE written)
                  end
              end
          end
    end.

End Main.

(* ################################################################# *)
(** * [adjust_qbi.py] *)

(** [round(x, ndigits)] for [ndigits >= 0]: the nearest multiple of
    [10 ** -ndigits], a tie going to the even one. *)
Definition round_half_even (y : Q) : Z :=
  let f := Qfloor y in
  let frac := y - inject_Z f in
  if qltb frac (1 # 2) then f
  else if qltb (1 # 2) frac then (f + 1)%Z
  else if Z.even f then f else (f + 1)%Z.

Definition py_round (x : Q) (ndigits : nat) : Q :=
  let p := inject_Z (10 ^ Z.of_nat ndigits) in
  inject_Z (round_half_even (x * p)) / p.

(** [np.maximum(a, v)] on one entry. *)
Definition np_maximum (a v : Q) : Q := if qleb a v then v else a.

Definition QBID_TOTAL : Q := 205.8.

Section AddPtW2Wages.

(** Tax-Calculator's [qbided] for the records of a table (the
    [tc.Records] / [tc.Calculator] / [calc_all] / [sim.array] run), which
    may fail. *)
Variable taxcalc_qbided : DataFrame -> result (list Q).

(** [scipy.optimize.bisect(f, a, b, rtol=0.001)]; it may raise what [f]
    raises. *)
Variable bisect : (Q -> result Q) -> Q -> Q -> result Q.

(** [np.maximum(0, df.e00900 + df.e26270 + df.e02100 + df.e27200)] *)
Definition qbi_of (df : DataFrame) : result (list Q) :=
  e00900 <- DF.getattr df "e00900" ;;
  e26270 <- DF.getattr df "e26270" ;;
  e02100 <- DF.getattr df "e02100" ;;
  e27200 <- DF.getattr df "e27200" ;;
  Ok (map (np_maximum 0)
        (zipWith Qplus (zipWith Qplus (zipWith Qplus e00900 e26270) e02100)
           e27200)).

(** The inner function [deduction_loss(scale)]. *)
Definition deduction_loss (df : DataFrame) (qbi : list Q) (scale : Q)
  : result Q :=
  input_data <-
    DF.setitem df "PT_binc_w2_wages" (map (fun v => v * scale) qbi) ;;
  arr <- taxcalc_qbided input_data ;;
  s006 <- DF.getattr df "s006" ;;
  weighted <- broadcast2 ValueError Qmult arr s006 ;;
  let qbided := qsum weighted / 1e9 in
  let dev := qbided - QBID_TOTAL in
  Ok dev.

(** [add_pt_w2_wages(df, verbose)]: the table with the new column, and
    the rounded scale. *)
Definition add_pt_w2_wages (df : DataFrame) : result (DataFrame * Q) :=
  qbi <- qbi_of df ;;
  scale <- bisect (deduction_loss df qbi) 0.1 0.5 ;;
  let rounded_scale := py_round scale 4 in
  df' <- DF.setitem df "PT_binc_w2_wages"
           (map (fun v => v * rounded_scale) qbi) ;;
  Ok (df', rounded_scale).

End AddPtW2Wages.

(* ################################################################# *)
(** * [utils/taxcalc_utils.py] *)

(** The metadata file: the sections ["read"] and ["calc"], each giving
    for a variable its attributes. *)
Definition Metadata : Type :=
  Py.dict string (Py.dict string (Py.dict string string)).

(** [taxcalc_variable_metadata.get(name, {})] *)
Definition metadata_section (md : Metadata) (name : string)
  : Py.dict string (Py.dict string string) :=
  match Py.get String.eqb md name with
  | Some s => s
  | None => []
  end.

(** [taxcalc_variable_metadata[name][variable]["desc"]] *)
Definition description_in (md : Metadata) (name variable : string)
  : result string :=
  s <- Py.getitem String.eqb md name ;;
  attributes <- Py.getitem String.eqb s variable ;;
  Py.getitem String.eqb attributes "desc".

(** [get_tc_variable_description(variable)]; [None] is what a function
    returns that ends without a [return]. *)
Definition get_tc_variable_description (md : Metadata) (variable : string)
  : result (option string) :=
  if Py.contains String.eqb (metadata_section md "read") variable
  then desc <- description_in md "read" variable ;; Ok (Some desc)
  else if Py.contains String.eqb (metadata_section md "calc") variable
  then desc <- description_in md "calc" variable ;; Ok (Some desc)
  else Ok None.

(** [get_tc_is_input(variable)] *)
Definition get_tc_is_input (md : Metadata) (variable : string) : option bool :=
  if Py.contains String.eqb (metadata_section md "read") variable
  then Some true
  else if Py.contains String.eqb (metadata_section md "calc") variable
  then Some false
  else None.

(** The value of a policy parameter in a reform. *)
Inductive ParamValue : Type :=
| PBool (b : bool)
| PInt (z : Z)
| PList (l : list Z).

(** A reform: for a parameter, its value by year. *)
Definition Reform : Type := Py.dict string (Py.dict string ParamValue).

Definition te_reforms : Py.dict string Reform :=
  [ ("cg_tax_preference", [("CG_nodiff", [("2023", PBool true)])]);
    ("ctc", [("CTC_c", [("2023", PInt 0)]); ("ODC_c", [("2023", PInt 0)]);
             ("ACTC_c", [("2023", PInt 0)])]);
    ("eitc", [("EITC_c", [("2023", PList [0; 0; 0; 0]%Z)])]);
    ("niit", [("NIIT_rt", [("2023", PInt 0)])]);
    ("qbid", [("PT_qbid_rt", [("2023", PInt 0)])]);
    ("salt", [("ID_AllTaxes_hc", [("2023", PInt 1)])]);
    ("social_security_partial_taxability",
     [("SS_all_in_agi", [("2023", PBool true)])]) ].

(** One comparison of [np.allclose], with its default tolerances. *)
Definition isclose (a b : Q) : bool :=
  qleb (Qabs (a - b)) (1e-8 + 1e-5 * Qabs b).

(** [np.allclose(a, b)]: the comparisons of the two arrays under the
    broadcasting rule, as an array of ones and zeros, and whether all
    hold. *)
Definition allclose (a b : list Q) : result bool :=
  close <- broadcast2 ValueError (fun x y => b2q (isclose x y)) a b ;;
  Ok (forallb (fun c => negb (qeqb c 0)) close).

Section TaxcalcOutputs.

(** The weights and the growth factors handed to [tc.Records]. *)
Variables (Weights GrowFactors : Type).

(** Tax-Calculator on a table: [tc.Records], [tc.Policy] with the reform
    implemented when there is one, [tc.Calculator], [calc_all] and
    [dataframe(None, all_vars=True)]; it may fail. *)
Variable calc_all :
  DataFrame -> Z -> option Reform -> option Weights -> option GrowFactors ->
  result DataFrame.

(** [if reform:] holds for a dictionary that is not empty. *)
Definition implemented (reform : option Reform) : option Reform :=
  match reform with
  | Some (_ :: _) => reform
  | _ => None
  end.

(** [add_taxcalc_outputs(flat_file, time_period, reform, weights,
    growfactors)] *)
Definition add_taxcalc_outputs (flat_file : DataFrame) (time_period : Z)
    (reform : option Reform) (weights : option Weights)
    (growfactors : option GrowFactors) : result DataFrame :=
  output <- calc_all flat_file time_period (implemented reform)
              weights growfactors ;;
  output_s006 <- DF.getattr output "s006" ;;
  flat_file_s006 <- DF.getattr flat_file "s006" ;;
  close <- allclose output_s006 flat_file_s006 ;;
  _ <- assert close "" ;;
  Ok output.

(** [(results.combined * results.s006).sum() / 1e9] *)
Definition tax_revenue (results : DataFrame) : result Q :=
  combined <- DF.getattr results "combined" ;;
  s006 <- DF.getattr results "s006" ;;
  Ok (qsum (zipWith Qmult combined s006) / 1e9).

(** The loop over [te_reforms.items()]. *)
Fixpoint te_loop (flat_file : DataFrame) (time_period : Z)
    (tax_revenue_baseline : Q) (reforms : Py.dict string Reform)
    (te_results : Py.dict string Q) : result (Py.dict string Q) :=
  match reforms with
  | [] => Ok te_results
  | (reform_name, reform) :: rest =>
      reform_results <-
        add_taxcalc_outputs flat_file time_period (Some reform) None None ;;
      tax_revenue_reform <- tax_revenue reform_results ;;
      let revenue_effect := tax_revenue_baseline - tax_revenue_reform in
      te_loop flat_file time_period tax_revenue_baseline rest
        (dict_set te_results reform_name (py_round (- revenue_effect) 1))
  end.

(** [get_tax_expenditure_results(flat_file, time_period)], given the
    growth factors and the weights the two storage files hold, with the
    table of reforms (the module's [te_reforms]) as a parameter. *)
Definition get_tax_expenditure_results_of (reforms : Py.dict string Reform)
    (growfactors : GrowFactors) (weights : Weights)
    (flat_file : DataFrame) (time_period : Z) : result (Py.dict string Q) :=
  baseline <-
    add_taxcalc_outputs flat_file time_period None (Some weights)
      (Some growfactors) ;;
  tax_revenue_baseline <- tax_revenue baseline ;;
  te_loop flat_file time_period tax_revenue_baseline reforms [].

Definition get_tax_expenditure_results :=
  get_tax_expenditure_results_of te_reforms.

End TaxcalcOutputs.

(* ################################################################# *)
(** * [tests/test_basic_flat_file.py] *)

(** [s.endswith(c)] for a suffix of one character. *)
Fixpoint endswith_char (s : string) (c : ascii) : bool :=
  match s with
  | EmptyString => false
  | String a EmptyString => Ascii.eqb a c
  | String _ rest => endswith_char rest c
  end.

(** The list [EXEMPTED_VARIABLES] as the module first writes it. *)
Definition EXEMPTED_BY_NAME : list string :=
  [ "DSI"; "EIC"; "MIDR"; "RECID"; "a_lineno"; "agi_bin"; "blind_spouse";
    "cmbtp"; "data_source"; "s006"; "h_seq"; "fips"; "ffpos"; "p23250";
    "e01200"; "e17500"; "e18500"; "e02100" ].

(** [EXEMPTED_VARIABLES] after the variables split between filer and
    spouse are added. *)
Definition EXEMPTED_VARIABLES (md : Metadata) : result (list string) :=
  read <- Py.getitem String.eqb md "read" ;;
  Ok (EXEMPTED_BY_NAME
      ++ filter (fun variable => endswith_char variable "p"
                                 || endswith_char variable "s")
           (map fst read))%list.

(** [variable not in exempted] *)
Definition not_in (exempted : list string) (variable : string) : bool :=
  negb (existsb (String.eqb variable) exempted).

Definition variables_to_test (md : Metadata)
    (tc_variable_totals : Py.dict string Q) : result (list string) :=
  exempted <- EXEMPTED_VARIABLES md ;;
  Ok (filter (not_in exempted) (map fst tc_variable_totals)).

(** The double nearest to an integer. *)
Definition float_of_Z (z : Z) : float :=
  SF2Prim (binary_normalize FloatOps.prec FloatOps.emax z 0 false).

(** The double of a number [n / d]: the nearest one when [n] and [d] are
    below [2 ** 53], as are the entries of a table and the totals of a
    YAML file. *)
Definition float_of_Q (q : Q) : float :=
  PrimFloat.div (float_of_Z (Qnum q)) (float_of_Z (Zpos (Qden q))).

(** [(flat_file[variable] * weight).sum()] in doubles, the products added
    in the order of the records. *)
Definition float_total (values weight : list Q) : float :=
  fold_left PrimFloat.add
    (zipWith PrimFloat.mul (map float_of_Q values) (map float_of_Q weight))
    0%float.

(** The condition asserted at lines 82 to 85, on doubles: [0.45], [1e9]
    and [30] are the doubles Python reads. *)
Definition totals_agree (total reference : float) : bool :=
  PrimFloat.ltb
    (PrimFloat.abs (PrimFloat.sub (PrimFloat.div total reference) 1%float))
    0x1.ccccccccccccdp-2%float
  || PrimFloat.ltb
       (PrimFloat.abs
          (PrimFloat.sub (PrimFloat.div total 1000000000%float)
             (PrimFloat.div reference 1000000000%float)))
       30%float.

(** [test_tc_variable_totals(variable)] on the flat file the first test
    built: [Ok] when the test passes, the failed assertion or the error
    otherwise.  The total and the two deviations are computed in
    doubles, as the test computes them. *)
Definition test_tc_variable_totals (md : Metadata)
    (tc_variable_totals : Py.dict string Q) (flat_file : DataFrame)
    (variable : string) : result unit :=
  read <- Py.getitem String.eqb md "read" ;;
  meta <- Py.getitem String.eqb read variable ;;
  let name := Py.get String.eqb meta "desc" in
  weight <- DF.getattr flat_file "s006" ;;
  values <- DF.getitem flat_file variable ;;
  let total := float_total values weight in
  reference <- Py.getitem String.eqb tc_variable_totals variable ;;
  if qeqb reference 0 then Ok tt
  else
    assert (totals_agree total (float_of_Q reference))
      (variable ++ " differs to tax-data").

(* ################################################################# *)
(** * The specification's words *)

(** Definitions that follow the specification rather than the code; the
    properties below compare them with the definitions above. *)

Definition positive_weight (rec : string -> Q) : Prop := 0 < rec "s006".

(** The scope filter: all records, or one of the two source
    subpopulations. *)
Definition in_scope (row : TargetRow) (rec : string -> Q) : bool :=
  (scope row =? 0)%Z
  || ((scope row =? 1)%Z && qeqb (rec "data_source") 1)
  || ((scope row =? 2)%Z && qeqb (rec "data_source") 0).

(** The half-open income band. *)
Definition in_band (row : TargetRow) (rec : string -> Q) : bool :=
  qleb (agilo row) (rec "c00100") && qltb (rec "c00100") (agihi row).

(** The filing-status filter. *)
Definition status_matches (row : TargetRow) (rec : string -> Q) : bool :=
  (fstatus row =? 0)%Z || qeqb (rec "MARS") (inject_Z (fstatus row)).

Definition spec_mask (row : TargetRow) (rec : string -> Q) : Q :=
  b2q (in_scope row rec && in_band row rec && status_matches row rec).

(** The raw value when [count = 0], the indicator of positivity when
    [count = 1]. *)
Definition spec_value (row : TargetRow) (rec : string -> Q) : Q :=
  if (count row =? 0)%Z then rec (varname row)
  else if (count row =? 1)%Z then b2q (qltb 0 (rec (varname row)))
  else 0.

(** The target value with zero replaced by one. *)
Definition floored_target (row : TargetRow) : Q :=
  if qeqb (target row) 0 then 1 else target row.

(** The codes of a row are in their ranges. *)
Definition valid_codes (row : TargetRow) : Prop :=
  (count row = 0 \/ count row = 1)%Z /\
  (scope row = 0 \/ scope row = 1 \/ scope row = 2)%Z /\
  (0 <= fstatus row <= 5)%Z.

(** The convention of the population target row. *)
Definition population_convention (row : TargetRow) : Prop :=
  varname row = "XTOT" /\ count row = 0%Z /\ scope row = 0%Z /\
  fstatus row = 0%Z /\ agilo row < -8e99 /\ 8e99 < agihi row.

(** The columns every microdata table has. *)
Definition microdata_columns (vardf : DataFrame) : Prop :=
  Forall (fun k => DF.has_column vardf k = true)
    ["s006"; "XTOT"; "data_source"; "c00100"; "MARS"].


(** The national population estimate: the weighted sum of the
    total-persons variable over the records. *)
Definition population_estimate (vardf : DataFrame) : Q :=
  bigsum (DF.len vardf)
    (fun i => nth i (DF.column vardf "s006") 0 * nth i (DF.column vardf "XTOT") 0).

(** An error is a failed assertion. *)
Definition is_assertion (e : exn) : Prop := exists msg, e = AssertionError msg.


(** The achieved/expected ratio of target [j]: the dot product of the
    weights with column [j] of the matrix, divided by the target. *)
Definition achieved_ratio (wght : list Q) (M : ndarray2) (b : list Q) (j : nat)
  : Q :=
  bigsum (nrow M) (fun i => nth i wght 0 * get2 M i j) / nth j b 0.

(** The ratio is below [1 - tol] or at least [1 + tol]. *)
Definition outside_tolerance (tol ratio : Q) : bool :=
  qltb ratio (1 - tol) || qleb (1 + tol) ratio.

(** The number of targets whose ratio is outside [[1 - tol, 1 + tol)]. *)
Definition miss_count (tol : Q) (wght : list Q) (M : ndarray2) (b : list Q)
  : nat :=
  bigcount (ncol M) (fun j => outside_tolerance tol (achieved_ratio wght M b j)).

(** The objective as a double sum over targets and records. *)
Definition objective_sum (x : list Q) (A : ndarray2) (b : list Q) (delta : Q)
  : Q :=
  bigsum (nrow A)
    (fun i => square (bigsum (ncol A) (fun j => get2 A i j * nth j x 0)
                      - nth i b 0))
  + delta * bigsum (ncol A) (fun j => square (nth j x 0 - 1)).

(** The delta of trial [k], for [k] from 1. *)
Definition delta_schedule (k : nat) : Q :=
  DELTA_INIT_VALUE
  - inject_Z (Z.of_nat k - 1)
    * (DELTA_INIT_VALUE / inject_Z (DELTA_MAX_LOOPS - 1)).

(** The trial found no miss, or the solver reported failure. *)
Definition stops (t : Trial) : bool :=
  (trial_misses t =? 0)%nat || negb (res_success (trial_res t)).

(** What holds of the [i]-th trial (from 0) of a loop started at
    [wght0]. *)
Definition trial_as_scheduled (wght0 : list Q) (i : nat) (t : Trial) : Prop :=
  trial_loop t = (Z.of_nat i + 1)%Z /\
  trial_delta t == delta_schedule (S i) /\
  0 <= trial_delta t /\
  trial_x0 t = wght0.

(** What holds of the trials of a loop and of the way it ended. *)
Definition loop_as_specified (wght0 : list Q)
    (trials : list Trial) (r : result LoopExit) : Prop :=
  (List.length trials <= Z.to_nat DELTA_MAX_LOOPS)%nat /\
  (forall i t, nth_error trials i = Some t -> trial_as_scheduled wght0 i t) /\
  (forall i t, nth_error trials i = Some t ->
               (S i < List.length trials)%nat -> stops t = false) /\
  match r with
  | Ok ex =>
      exists t,
        nth_error trials (List.length trials - 1) = Some t /\
        exit_res ex = Some (trial_res t) /\
        ((List.length trials < Z.to_nat DELTA_MAX_LOOPS)%nat -> stops t = true) /\
        (stops t = true -> exit_loop ex = Z.of_nat (List.length trials) /\
                           exit_delta ex = trial_delta t)
  | Raise _ =>
      (List.length trials < Z.to_nat DELTA_MAX_LOOPS)%nat /\
      forall i t, nth_error trials i = Some t -> stops t = false
  end.

(** What holds between two passes of the loop: [k] trials done, none of
    which stopped the loop. *)
Definition between_passes (wght0 : list Q) (k : nat) (delta : Q)
    (res : option OptimizeResult) (done : list Trial) : Prop :=
  List.length done = k /\
  (forall i t, nth_error done i = Some t ->
               trial_as_scheduled wght0 i t /\ stops t = false) /\
  ((k < 5)%nat -> delta == delta_schedule (S k) /\ 0 <= delta) /\
  ((1 <= k)%nat ->
   exists t, nth_error done (k - 1) = Some t /\ res = Some (trial_res t)).

(** [pop[year]], zero for a year the forecast does not have. *)
Definition pop_at (pop : Py.dict Z Q) (year : Z) : Q :=
  match Py.get Z.eqb pop year with
  | Some v => v
  | None => 0
  end.

(** The growth of the population from year [k - 1] to year [k]. *)
Definition growth (pop : Py.dict Z Q) (k : Z) : Q :=
  pop_at pop k / pop_at pop (k - 1).

Definition qprod (l : list Q) : Q := fold_right Qmult 1 l.

(** The product of the growth ratios of the years [first + 1 .. t]. *)
Definition growth_product (pop : Py.dict Z Q) (first t : Z) : Q :=
  qprod (map (growth pop) (range (first + 1) (t + 1))).

(** The array assigned to [vdf["c00100"]]: the cache when there is one,
    Tax-Calculator's otherwise. *)
Definition agi_source (taxcalc_agi : DataFrame -> result (list Q))
    (infile : DataFrame) (cache : option (list Q)) : result (list Q) :=
  match cache with
  | Some agi => Ok agi
  | None => taxcalc_agi infile
  end.

(** The exceptions the loop over the target rows can raise. *)
Definition row_error (e : exn) : Prop :=
  is_assertion e \/ e = KeyError \/ e = AttributeError.

(** The forecast has every year from [first] to [last], none of them
    but the last with a population of zero. *)
Definition forecast_covers (pop : Py.dict Z Q) (first last : Z) : Prop :=
  forall y, (first <= y <= last)%Z ->
            exists v, Py.get Z.eqb pop y = Some v /\ ((y < last)%Z -> ~ v == 0).

(** *** Reading a distribution *)

(** [a <= b] on edges. *)
Definition edge_leb (a b : edge) : bool := negb (edge_ltb b a).

(** The cumulative count of the last line written, [start] when no line
    was written. *)
Definition final_cum (start : nat) (lines : list HistLine) : nat :=
  last (map line_cum lines) start.

(** The counts of all the lines written, added up. *)
Definition total_num (lines : list HistLine) : nat :=
  fold_right (fun l n => (line_num l + n)%nat) O lines.

(** [num / tot] as a number. *)
Definition share (num tot : nat) : Q :=
  inject_Z (Z.of_nat num) / inject_Z (Z.of_nat tot).

(** What a line says about the values [ratio], for bins starting at
    [b0]. *)
Definition line_reads (b0 : edge) (ratio : list Q) (l : HistLine) : Prop :=
  line_num l = count_in (line_left l) (line_right l) ratio /\
  line_cum l = count_in b0 (line_right l) ratio /\
  (0 < line_cum l <= List.length ratio)%nat /\
  line_num_share l = share (line_num l) (List.length ratio) /\
  line_cum_share l = share (line_cum l) (List.length ratio).

(** How many values are at least [b0]. *)
Definition count_from (b0 : edge) (ratio : list Q) : nat :=
  count_in b0 Infinity ratio.

(** The value the weights achieve for target [j]. *)
Definition achieved_value (wght : list Q) (M : ndarray2) (j : nat) : Q :=
  bigsum (nrow M) (fun i => nth i wght 0 * get2 M i j).

(** The mean over the targets of the squared deviations from target. *)
Definition mean_squared_deviation (wght : list Q) (M : ndarray2) (b : list Q)
  : Q :=
  bigsum (ncol M) (fun j => square (achieved_value wght M j - nth j b 0))
  / inject_Z (Z.of_nat (ncol M)).

(** *** Pass-through W-2 wages *)

(** The qualified business income of a record: the four incomes added,
    or zero when they add up to a loss. *)
Definition record_qbi (r : string -> Q) : Q :=
  np_maximum 0 (r "e00900" + r "e26270" + r "e02100" + r "e27200").

(** *** The passes of the regularization loop *)

(** Lines 517-520: the delta of the next pass. *)
Definition decremented (delta : Q) : Q :=
  let delta := delta - DELTA_LOOP_DECREMENT in
  if qltb delta 1e-20 then 0 else delta.

(** The delta of the pass made after [k] passes. *)
Fixpoint delta_after (k : nat) : Q :=
  match k with
  | O => DELTA_INIT_VALUE
  | S k' => decremented (delta_after k')
  end.

(** What one pass computes at [delta] (lines 485-502): the result of the
    solver on the objective, the initial guess and the arguments
    [(A, b, delta)], the area weights [res.x * wght_us], and the number
    of targets they miss. *)
Definition pass
    (minimize :
       (list Q -> ndarray2 * list Q * Q -> result Q) ->
       list Q -> ndarray2 * list Q * Q -> result OptimizeResult)
    (A : ndarray2) (b wght_us : list Q)
    (target_matrix : ndarray2) (target_array wght0 : list Q) (delta : Q)
  : result (OptimizeResult * list Q * nat) :=
  res <- minimize objective_function wght0 (A, b, delta) ;;
  wght_area <- broadcast2 ValueError Qmult (res_x res) wght_us ;;
  counted <- target_misses wght_area target_matrix target_array ;;
  Ok (res, wght_area, fst counted).

(** The trial records what a pass computed. *)
Definition trial_of_pass
    (minimize :
       (list Q -> ndarray2 * list Q * Q -> result Q) ->
       list Q -> ndarray2 * list Q * Q -> result OptimizeResult)
    (A : ndarray2) (b wght_us : list Q)
    (target_matrix : ndarray2) (target_array : list Q)
    (t : Trial) (wght_area : list Q) : Prop :=
  pass minimize A b wght_us target_matrix target_array
    (trial_x0 t) (trial_delta t)
  = Ok (trial_res t, wght_area, trial_misses t).

(** The result the loop leaves in [res]: that of the last trial. *)
Definition last_result (trials : list Trial) (before : option OptimizeResult)
  : option OptimizeResult :=
  last (map (fun t => Some (trial_res t)) trials) before.

(* ================================================================= *)
(** ** A small table and its targets *)

Module Sample.

Definition record_of (s006 xtot data_source c00100 mars e00200 : Q)
  : string -> Q :=
  fun k =>
    if String.eqb k "s006" then s006
    else if String.eqb k "XTOT" then xtot
    else if String.eqb k "data_source" then data_source
    else if String.eqb k "c00100" then c00100
    else if String.eqb k "MARS" then mars
    else if String.eqb k "e00200" then e00200
    else 0.

Definition first_record : string -> Q := record_of 10 2 1 50000 2 40000.

Definition vardf : DataFrame :=
  mk_DataFrame ["s006"; "XTOT"; "data_source"; "c00100"; "MARS"; "e00200"]
    [ first_record;
      record_of 20 1 0 15000 1 0;
      record_of 30 3 1 (-200) 2 1000 ].

(** The population target, and a count of positive wages among the
    records of the first source with filing status 2 and income in
    [0, 60000), whose target is 0. *)
Definition pop_row : TargetRow := mk_TargetRow "XTOT" 0 0 (-9e99) 9e99 0 13.
Definition wage_row : TargetRow := mk_TargetRow "e00200" 1 1 0 60000 2 0.

Definition tdf : list TargetRow := [pop_row; wage_row].

Definition target_matrix : ndarray2 :=
  mk_ndarray2 3 2 [[2 # 13; 1]; [1 # 13; 0]; [3 # 13; 0]].
Definition target_array : list Q := [13 # 13; 1].
Definition weights_scale : Q := 13 # 130.

(** Some area weights for the three records. *)
Definition wght : list Q := [1; 2; 3].

(** A table with a record of weight zero. *)
Definition zero_weight_df : DataFrame :=
  mk_DataFrame ["s006"; "XTOT"]
    [ record_of 10 2 1 50000 2 40000; record_of 0 1 0 15000 1 0 ].

End Sample.

Module SampleRuns.

(** Three solvers: one that returns its initial guess, one that returns
    the zero vector, one that reports failure. *)
Definition solver_guess : (list Q -> ndarray2 * list Q * Q -> result Q) ->
    list Q -> ndarray2 * list Q * Q -> result OptimizeResult :=
  fun _ x0 _ => Ok (mk_OptimizeResult x0 true).
Definition solver_zero : (list Q -> ndarray2 * list Q * Q -> result Q) ->
    list Q -> ndarray2 * list Q * Q -> result OptimizeResult :=
  fun _ x0 _ => Ok (mk_OptimizeResult (map (fun _ => 0) x0) true).
Definition solver_failed : (list Q -> ndarray2 * list Q * Q -> result Q) ->
    list Q -> ndarray2 * list Q * Q -> result OptimizeResult :=
  fun _ x0 _ => Ok (mk_OptimizeResult (map (fun _ => 0) x0) false).

Definition run solver :=
  regularization_loop solver (Z.to_nat DELTA_MAX_LOOPS)
    Sample.wght Sample.target_matrix Sample.target_array.

Definition summary (t : Trial) : Z * Q * nat :=
  (trial_loop t, Qred (trial_delta t), trial_misses t).

End SampleRuns.

(** A forecast for 2020 to 2034 that grows by one each year from 100, and
    the weights by year it gives to [Sample.wght]. *)
Module SampleForecast.

Definition pop : Py.dict Z Q :=
  map (fun i => ((2020 + Z.of_nat i)%Z, inject_Z (100 + Z.of_nat i)))
    (seq 0 15).

Definition wdict : Py.dict string (list Q) :=
  match yearly_weights FIRST_YEAR LAST_YEAR pop Sample.wght with
  | Ok d => d
  | Raise _ => []
  end.

End SampleForecast.

(** Targets of which the last names a variable the sample table does not
    have. *)
Module SampleMissing.

Definition ghost_row : TargetRow := mk_TargetRow "e99999" 0 0 0 60000 0 5.
Definition tdf : list TargetRow := [Sample.pop_row; ghost_row].

End SampleMissing.

Module SampleQbi.

Definition record_of (e00900 e26270 e02100 e27200 s006 : Q) : string -> Q :=
  fun k =>
    if String.eqb k "e00900" then e00900
    else if String.eqb k "e26270" then e26270
    else if String.eqb k "e02100" then e02100
    else if String.eqb k "e27200" then e27200
    else if String.eqb k "s006" then s006
    else 0.

Definition df : DataFrame :=
  mk_DataFrame ["e00900"; "e26270"; "e02100"; "e27200"; "s006"]
    [ record_of 40000 0 0 0 20000000;
      record_of (-30000) 10000 0 5000 2000000;
      record_of 0 250000 1000 0 10000000 ].

(** A deduction of a fifth of the wages. *)
Definition taxcalc_qbided (input_data : DataFrame) : result (list Q) :=
  wages <- DF.getitem input_data "PT_binc_w2_wages" ;;
  Ok (map (fun w => w / 5) wages).

(** Bisection as scipy does it, for at most [n] halvings. *)
Fixpoint bisect_steps (n : nat) (f : Q -> result Q) (xa dm fa : Q)
  : result Q :=
  match n with
  | O => Ok xa
  | S n' =>
      let dm := dm * (1 # 2) in
      let xm := xa + dm in
      fm <- f xm ;;
      let xa := if qleb 0 (fm * fa) then xm else xa in
      if qeqb fm 0 || qltb (Qabs dm) (2e-12 + 0.001 * Qabs xm) then Ok xm
      else bisect_steps n' f xa dm fa
  end.

Definition bisect (f : Q -> result Q) (a b : Q) : result Q :=
  fa <- f a ;;
  fb <- f b ;;
  if qltb 0 (fa * fb) then Raise ValueError
  else if qeqb fa 0 then Ok a
  else if qeqb fb 0 then Ok b
  else bisect_steps 100 f a (b - a) fa.

End SampleQbi.

Module SampleTaxcalc.

Definition flat_file : DataFrame :=
  mk_DataFrame ["e00200"; "s006"]
    [ (fun k => if String.eqb k "e00200" then 50000
                else if String.eqb k "s006" then 1000000 else 0);
      (fun k => if String.eqb k "e00200" then 120000
                else if String.eqb k "s006" then 2000000 else 0) ].

(** A tax of a tenth of the wages, and one more hundredth for every
    parameter a reform changes. *)
Definition calc_all (data : DataFrame) (year : Z) (reform : option Reform)
    (weights growfactors : option unit) : result DataFrame :=
  let rate := match reform with
              | Some r => (10 + inject_Z (Z.of_nat (List.length r))) / 100
              | None => 10 / 100
              end in
  wages <- DF.getitem data "e00200" ;;
  DF.setitem data "combined" (map (fun w => w * rate) wages).

End SampleTaxcalc.

Module SampleTotals.

Definition md : Metadata :=
  [ ("read", [ ("e00200", [("desc", "Wages")]);
               ("e00200p", [("desc", "Wages of the filer")]);
               ("s006", [("desc", "Weight")]) ]);
    ("calc", [ ("combined", [("desc", "Tax")]) ]) ].

Definition tc_variable_totals : Py.dict string Q :=
  [ ("e00200", 200000000000); ("e00200p", 1); ("s006", 1); ("combined", 1) ].

End SampleTotals.

(* ################################################################# *)
(** * Properties *)

(* ================================================================= *)
(** ** Outcomes and comparisons *)

Lemma raises_not_returns {A} (m : result A) : raises m <-> ~ returns m.
Proof.
  split.
  - intros [e ->] [a H]. discriminate.
  - destruct m as [a|e]; intros H.
    + exfalso. apply H. now exists a.
    + now exists e.
Qed.

Lemma bind_Ok_inv {A B} (m : result A) (k : A -> result B) (b : B) :
  bind m k = Ok b -> exists a, m = Ok a /\ k a = Ok b.
Proof. destruct m as [a|e]; simpl; [eauto | discriminate]. Qed.

Lemma assert_Ok_inv (c : bool) (msg : string) (u : unit) :
  assert c msg = Ok u -> c = true.
Proof. destruct c; [reflexivity | discriminate]. Qed.

Lemma qeqb_true (x y : Q) : qeqb x y = true <-> x == y.
Proof. apply Qeq_bool_iff. Qed.

Lemma qeqb_false (x y : Q) : qeqb x y = false <-> ~ x == y.
Proof.
  rewrite <- qeqb_true. destruct (qeqb x y); split; congruence.
Qed.

Lemma qleb_true (x y : Q) : qleb x y = true <-> x <= y.
Proof. apply Qle_bool_iff. Qed.

Lemma qltb_true (x y : Q) : qltb x y = true <-> x < y.
Proof.
  unfold qltb. rewrite negb_true_iff. split.
  - intros H. apply Qnot_le_lt. intros L.
    apply Qle_bool_iff in L. congruence.
  - intros H. destruct (Qle_bool y x) eqn:E; [|reflexivity].
    apply Qle_bool_iff in E. exfalso. apply (Qlt_not_le _ _ H E).
Qed.

Lemma qltb_false (x y : Q) : qltb x y = false <-> y <= x.
Proof.
  unfold qltb. rewrite negb_false_iff. apply Qle_bool_iff.
Qed.


(* ================================================================= *)
(** ** Lists, sums and arrays *)

Lemma length_zipWith {A B C} (f : A -> B -> C) (a : list A) (b : list B) :
  List.length (zipWith f a b) = Nat.min (List.length a) (List.length b).
Proof.
  revert b. induction a as [|x a IH]; intros [|y b]; simpl; auto.
Qed.

Lemma nth_zipWith {A B C} (f : A -> B -> C) (a : list A) (b : list B)
      (i : nat) (da : A) (db : B) (dc : C) :
  (i < List.length a)%nat -> (i < List.length b)%nat ->
  nth i (zipWith f a b) dc = f (nth i a da) (nth i b db).
Proof.
  revert b i. induction a as [|x a IH]; intros [|y b] i Ha Hb;
    simpl in *; try lia.
  destruct i as [|i]; [reflexivity|]. apply IH; lia.
Qed.

Lemma nth_map_lt {A B} (f : A -> B) (l : list A) (i : nat) (d : A) (d' : B) :
  (i < List.length l)%nat -> nth i (map f l) d' = f (nth i l d).
Proof.
  revert i. induction l as [|x l IH]; intros i H; simpl in *; [lia|].
  destruct i as [|i]; [reflexivity|]. apply IH; lia.
Qed.

Lemma nth_repeat_lt {A} (x d : A) (n i : nat) :
  (i < n)%nat -> nth i (repeat x n) d = x.
Proof.
  revert i. induction n as [|n IH]; intros i H; [lia|].
  destruct i as [|i]; simpl; [reflexivity|]. apply IH; lia.
Qed.

Lemma zipWith_map {A B C D} (f : B -> C -> D) (g : A -> B) (h : A -> C)
      (l : list A) :
  zipWith f (map g l) (map h l) = map (fun x => f (g x) (h x)) l.
Proof. induction l as [|x l IH]; simpl; [reflexivity|]. now rewrite IH. Qed.

Lemma zipWith_same_length {A B C} (f : A -> B -> C) (a : list A) (b : list B) :
  List.length a = List.length b ->
  List.length (zipWith f a b) = List.length a.
Proof. intros H. rewrite length_zipWith. lia. Qed.

Lemma nth_error_nth' {A} (l : list A) (i : nat) (x d : A) :
  nth_error l i = Some x -> nth i l d = x /\ (i < List.length l)%nat.
Proof.
  intros H. split.
  - now apply nth_error_nth.
  - apply nth_error_Some. congruence.
Qed.

Lemma bigsum_ext (n : nat) (f g : nat -> Q) :
  (forall i, (i < n)%nat -> f i == g i) -> bigsum n f == bigsum n g.
Proof.
  induction n as [|n IH]; intros H; simpl; [reflexivity|].
  rewrite IH by (intros; apply H; lia).
  rewrite (H n) by lia. reflexivity.
Qed.

Lemma bigsum_shift (n : nat) (f : nat -> Q) :
  bigsum (S n) f == f O + bigsum n (fun i => f (S i)).
Proof.
  induction n as [|n IH].
  - simpl. ring.
  - change (bigsum (S (S n)) f) with (bigsum (S n) f + f (S n)).
    rewrite IH. simpl. ring.
Qed.

Lemma qsum_bigsum (l : list Q) :
  qsum l == bigsum (List.length l) (fun i => nth i l 0).
Proof.
  induction l as [|x l IH].
  - reflexivity.
  - change (List.length (x :: l)) with (S (List.length l)).
    rewrite bigsum_shift. simpl. rewrite IH. reflexivity.
Qed.

Lemma bigcount_ext (n : nat) (p q : nat -> bool) :
  (forall i, (i < n)%nat -> p i = q i) -> bigcount n p = bigcount n q.
Proof.
  induction n as [|n IH]; intros H; simpl; [reflexivity|].
  rewrite IH by (intros; apply H; lia). now rewrite (H n) by lia.
Qed.

Lemma bigcount_shift (n : nat) (p : nat -> bool) :
  bigcount (S n) p
  = ((if p O then 1 else 0) + bigcount n (fun i => p (S i)))%nat.
Proof.
  induction n as [|n IH].
  - simpl. lia.
  - change (bigcount (S (S n)) p)
      with (bigcount (S n) p + (if p (S n) then 1 else 0))%nat.
    rewrite IH. simpl. lia.
Qed.

Lemma count_true_bigcount (l : list bool) :
  count_true l = bigcount (List.length l) (fun i => nth i l false).
Proof.
  induction l as [|x l IH].
  - reflexivity.
  - change (List.length (x :: l)) with (S (List.length l)).
    rewrite bigcount_shift. simpl. now rewrite IH.
Qed.

Lemma bigcount_le (n : nat) (p q : nat -> bool) :
  (forall i, (i < n)%nat -> p i = true -> q i = true) ->
  (bigcount n p <= bigcount n q)%nat.
Proof.
  induction n as [|n IH]; intros H; simpl; [lia|].
  assert (bigcount n p <= bigcount n q)%nat by (apply IH; intros; apply H; auto; lia).
  specialize (H n (Nat.lt_succ_diag_r n)).
  destruct (p n), (q n); try lia.
Qed.

(* ================================================================= *)
(** ** [valid_area] *)

Module AreaFacts.
Import Area.

(** The two assertions on the table of seats hold: 53 entries, 438 seats
    in either census. *)
Lemma state_info_checks :
  List.length state_info = 53%nat /\ seat_totals state_info 0 0 = Ok (438, 438)%Z.
Proof. split; reflexivity. Qed.

Example valid_area_state : snd (valid_area "ca") = Ok true.
Proof. reflexivity. Qed.

Example valid_area_last_district : snd (valid_area "ca53") = Ok true.
Proof. reflexivity. Qed.

Example valid_area_district_too_large :
  valid_area "ca54" = ([CdExceeds 54 53], Ok false).
Proof. reflexivity. Qed.

Example valid_area_district_zero :
  valid_area "ca00" = ([NonPositiveCd 0], Ok false).
Proof. reflexivity. Qed.

Example valid_area_one_district_state :
  valid_area "ak01" = ([OneDistrictState], Ok false).
Proof. reflexivity. Qed.

Example valid_area_upper_case : valid_area "CA" = ([NotLowerCase], Ok false).
Proof. reflexivity. Qed.

Example valid_area_three_characters :
  valid_area "cal" = ([NotTwoOrFour], Ok false).
Proof. reflexivity. Qed.

Example valid_area_signed_district : snd (valid_area "ca+7") = Ok true.
Proof. reflexivity. Qed.

(** [int()] strips a tab before the digits; the unit separator (code 31)
    it does not strip, and the string is no number. *)
Example valid_area_district_after_control_character :
  snd (valid_area
         (String "c"%char (String "a"%char (String (ascii_of_nat 9)
            (String "7"%char EmptyString))))) = Ok true /\
  snd (valid_area
         (String "c"%char (String "a"%char (String (ascii_of_nat 31)
            (String "7"%char EmptyString))))) = Raise ValueError.
Proof. split; reflexivity. Qed.

(** Any four-character area whose first two characters are not a state
    code ends in the [KeyError] of [state_info[scode]]. *)
Lemma valid_area_four_unknown_state (area : string) :
  Py.len area = 4%Z ->
  Py.contains String.eqb state_info (Py.upper (Py.slice 0 2 area)) = false ->
  snd (valid_area area) = Raise KeyError.
Proof.
  intros Hlen Hunknown. unfold valid_area.
  change (_ <- assert (Z.of_nat (List.length state_info) =? 50 + 3)%Z "" ;;
          ' (t2010, t2020) <- seat_totals state_info 0 0 ;;
          _ <- assert (t2010 =? 435 + 3)%Z "" ;;
          assert (t2020 =? 435 + 3)%Z "") with (Ok tt).
  cbv iota beta. rewrite Hlen. cbn [Z.eqb Pos.eqb orb negb].
  rewrite Hunknown. cbn [negb].
  destruct (negb (Py.islower (Py.slice 0 2 area)));
    unfold check_district, Py.getitem;
    unfold Py.contains in Hunknown;
    destruct (Py.get String.eqb state_info (Py.upper (Py.slice 0 2 area)));
    try discriminate; reflexivity.
Qed.

(** An area that has not four characters never raises: it is valid
    exactly when it has two characters, in lower case, that are the code
    of a state. *)
Lemma valid_area_not_four (area : string) :
  Py.len area <> 4%Z ->
  snd (valid_area area)
  = Ok ((Py.len area =? 2)%Z
        && Py.islower (Py.slice 0 2 area)
        && Py.contains String.eqb state_info (Py.upper (Py.slice 0 2 area))).
Proof.
  intros Hlen. apply Z.eqb_neq in Hlen. unfold valid_area.
  change (_ <- assert (Z.of_nat (List.length state_info) =? 50 + 3)%Z "" ;;
          ' (t2010, t2020) <- seat_totals state_info 0 0 ;;
          _ <- assert (t2010 =? 435 + 3)%Z "" ;;
          assert (t2020 =? 435 + 3)%Z "") with (Ok tt).
  cbv iota beta. rewrite Hlen, orb_false_r.
  destruct (Py.len area =? 2)%Z;
    destruct (Py.islower (Py.slice 0 2 area));
    destruct (Py.contains String.eqb state_info
                (Py.upper (Py.slice 0 2 area)));
    reflexivity.
Qed.

Lemma valid_area_not_four_witness :
  snd (valid_area "ca") = Ok (true && true && true).
Proof. apply (valid_area_not_four "ca"). discriminate. Defined.

(** A four-character area of a known state: never valid for a state of one
    district (by the 2010 census); otherwise [int(area[2:4])] raises or
    gives the district number, and the area is valid exactly when its
    state is in lower case and the number is between 1 and the seats of
    the state. *)
Lemma valid_area_four_known_state (area : string) (s : Py.dict Z Z) (max_cdn : Z) :
  Py.len area = 4%Z ->
  Py.get String.eqb state_info (Py.upper (Py.slice 0 2 area)) = Some s ->
  Py.get Z.eqb s 2010%Z = Some max_cdn ->
  snd (valid_area area)
  = if (max_cdn <=? 1)%Z then Ok false
    else match Py.int (Py.slice 2 4 area) with
         | Raise e => Raise e
         | Ok cdn =>
             Ok (Py.islower (Py.slice 0 2 area)
                 && (0 <? cdn)%Z && (cdn <=? max_cdn)%Z)
         end.
Proof.
  intros Hlen Hstate Hseats. unfold valid_area.
  change (_ <- assert (Z.of_nat (List.length state_info) =? 50 + 3)%Z "" ;;
          ' (t2010, t2020) <- seat_totals state_info 0 0 ;;
          _ <- assert (t2010 =? 435 + 3)%Z "" ;;
          assert (t2020 =? 435 + 3)%Z "") with (Ok tt).
  cbv iota beta. rewrite Hlen. cbn [Z.eqb Pos.eqb orb negb].
  unfold Py.contains, check_district, Py.getitem. rewrite Hstate.
  cbn [negb bind]. rewrite Hseats. cbn [bind].
  destruct (Py.islower (Py.slice 0 2 area)); cbn [negb];
    destruct (max_cdn <=? 1)%Z; try reflexivity;
    destruct (Py.int (Py.slice 2 4 area)) as [cdn|e]; try reflexivity;
    destruct (cdn <=? 0)%Z eqn:E0; destruct (max_cdn <? cdn)%Z eqn:E1;
    cbn [snd andb];
    f_equal; lia.
Qed.

Lemma valid_area_four_known_state_witness :
  snd (valid_area "ca53") = Ok true.
Proof.
  apply (valid_area_four_known_state "ca53" (seats 52 53) 53); reflexivity.
Defined.

Lemma valid_area_four_unknown_state_witness :
  snd (valid_area "qq01") = Raise KeyError.
Proof. apply (valid_area_four_unknown_state "qq01"); reflexivity. Defined.

(** C9 (the code departs from it): [valid_area] is to return a boolean for
    every area string without raising.  For the four-character area
    [qq01], whose state is unknown, it notes the unknown state and then
    raises [KeyError] at [state_info[scode]]; for [caxx], whose district
    is not a number, it raises [ValueError] at [int(area[2:4])]. *)
Theorem valid_area_raises :
  valid_area "qq01" = ([UnknownState], Raise KeyError) /\
  valid_area "caxx" = ([], Raise ValueError).
Proof. split; reflexivity. Qed.

End AreaFacts.

(* ================================================================= *)
(** ** [all_taxcalc_variables] *)

Lemma setitem_other_column (df df' : DataFrame) (name k : string) (v : list Q) :
  String.eqb k name = false ->
  DF.setitem df name v = Ok df' ->
  DF.column df' k = DF.column df k.
Proof.
  unfold DF.setitem, DF.column, DF.len. intros Hk.
  destruct (List.length v =? List.length (records df))%nat eqn:E; [|discriminate].
  apply Nat.eqb_eq in E. intros [= <-]. simpl.
  revert v E. induction (records df) as [|r rs IH]; intros [|x v] E;
    simpl in *; try discriminate; [reflexivity|].
  rewrite Hk. f_equal. apply IH. lia.
Qed.

Lemma setitem_keeps_columns (df df' : DataFrame) (name k : string) (v : list Q) :
  DF.setitem df name v = Ok df' ->
  DF.has_column df k = true -> DF.has_column df' k = true.
Proof.
  unfold DF.setitem, DF.has_column.
  destruct (List.length v =? DF.len df)%nat; [|discriminate].
  intros [= <-] H. simpl.
  destruct (existsb (String.eqb name) (columns df)); [exact H|].
  rewrite existsb_app, H. reflexivity.
Qed.

Lemma setitem_length_ok (df : DataFrame) (name : string) (v : list Q) :
  List.length v = DF.len df -> returns (DF.setitem df name v).
Proof.
  intros H. unfold DF.setitem. rewrite H, Nat.eqb_refl. eexists. reflexivity.
Qed.

Lemma column_positive (df : DataFrame) :
  forallb (fun w => qltb 0 w) (DF.column df "s006") = true <->
  Forall positive_weight (records df).
Proof.
  unfold DF.column. rewrite forallb_forall, Forall_forall. split.
  - intros H rec Hin. apply qltb_true. apply H. apply in_map_iff. eauto.
  - intros H w Hin. apply in_map_iff in Hin as [rec [<- Hin]].
    apply qltb_true. now apply H.
Qed.

Lemma checked_weights_Ok (vdf out : DataFrame) :
  checked_weights vdf = Ok out ->
  out = vdf /\ Forall positive_weight (records vdf).
Proof.
  unfold checked_weights, DF.getattr.
  destruct (DF.has_column vdf "s006"); [|discriminate]. simpl.
  destruct (forallb _ _) eqn:E; simpl; [|discriminate].
  intros [= <-]. split; [reflexivity|]. now apply column_positive.
Qed.

Lemma checked_weights_fails (vdf : DataFrame) :
  DF.has_column vdf "s006" = true ->
  ~ Forall positive_weight (records vdf) ->
  checked_weights vdf
  = Raise (AssertionError "Not all weights are positive").
Proof.
  intros Hcol Hneg. unfold checked_weights, DF.getattr. rewrite Hcol. simpl.
  destruct (forallb _ _) eqn:E; simpl; [|reflexivity].
  exfalso. apply Hneg. now apply column_positive.
Qed.

Lemma Exists_not_Forall {A} (P : A -> Prop) (l : list A) :
  Exists (fun x => ~ P x) l -> ~ Forall P l.
Proof.
  intros HE HF. apply Exists_exists in HE as [x [Hin Hx]].
  rewrite Forall_forall in HF. auto.
Qed.

Lemma same_column_positive (df df' : DataFrame) :
  DF.column df' "s006" = DF.column df "s006" ->
  Forall positive_weight (records df') <-> Forall positive_weight (records df).
Proof. intros H. rewrite <- !column_positive, H. reflexivity. Qed.

Section AllTaxcalcVariablesFacts.

Variable taxcalc_agi : DataFrame -> result (list Q).

Lemma all_taxcalc_variables_outcome infile cache write_cache :
  snd (all_taxcalc_variables taxcalc_agi infile cache write_cache)
  = (agi <- agi_source taxcalc_agi infile cache ;;
     vdf <- DF.setitem infile "c00100" agi ;;
     checked_weights vdf).
Proof.
  unfold all_taxcalc_variables, agi_source.
  destruct cache as [agi|]; [reflexivity|].
  destruct (taxcalc_agi infile) as [agi|e]; [|reflexivity]. simpl.
  destruct (DF.setitem infile "c00100" agi); reflexivity.
Qed.

Lemma all_taxcalc_variables_Ok infile cache write_cache vdf :
  snd (all_taxcalc_variables taxcalc_agi infile cache write_cache) = Ok vdf ->
  Forall positive_weight (records vdf) /\
  DF.column vdf "s006" = DF.column infile "s006".
Proof.
  rewrite all_taxcalc_variables_outcome. intros H.
  apply bind_Ok_inv in H as [agi [_ H]].
  apply bind_Ok_inv in H as [vdf' [Hset H]].
  apply checked_weights_Ok in H as [-> Hpos]. split; [exact Hpos|].
  now apply (setitem_other_column infile vdf' "c00100" "s006" agi).
Qed.

End AllTaxcalcVariablesFacts.

(** C10: [all_taxcalc_variables] never returns a table in which some
    record's national weight [s006] is not strictly positive: it raises,
    and what it raises is the assertion "Not all weights are positive"
    whenever the AGI array fits the table and the table has the column;
    so the table it returns, which is the one a run calibrates and
    extrapolates, has only strictly positive weights. *)
Theorem all_taxcalc_variables_positive_weights :
  forall (taxcalc_agi : DataFrame -> result (list Q))
         (infile : DataFrame) (cache : option (list Q)) (write_cache : bool),
    let out := snd (all_taxcalc_variables taxcalc_agi infile cache write_cache) in
    (Exists (fun rec => ~ positive_weight rec) (records infile) -> raises out)
    /\ (forall agi,
          agi_source taxcalc_agi infile cache = Ok agi ->
          List.length agi = DF.len infile ->
          DF.has_column infile "s006" = true ->
          Exists (fun rec => ~ positive_weight rec) (records infile) ->
          out = Raise (AssertionError "Not all weights are positive"))
    /\ (forall vdf, out = Ok vdf -> Forall positive_weight (records vdf))
    /\ (forall minimize tdf pop write_file o w,
          create_area_weights_file taxcalc_agi minimize
            infile cache tdf pop write_file write_cache = Some o ->
          out_weights o = Ok w ->
          exists vdf, out = Ok vdf /\ Forall positive_weight (records vdf)).
Proof.
  intros taxcalc_agi infile cache write_cache out.
  assert (Hok : forall vdf, out = Ok vdf -> Forall positive_weight (records vdf)).
  { intros vdf H. now apply all_taxcalc_variables_Ok in H. }
  assert (Hraises : Exists (fun rec => ~ positive_weight rec) (records infile) ->
                    raises out).
  { intros HE. apply raises_not_returns. intros [vdf H].
    apply all_taxcalc_variables_Ok in H as [Hpos Hcol].
    apply (same_column_positive infile vdf) in Hcol.
    apply Exists_not_Forall in HE. apply HE, Hcol, Hpos. }
  repeat split; auto.
  - intros agi Hagi Hlen Hcol HE. subst out.
    rewrite all_taxcalc_variables_outcome, Hagi. simpl.
    destruct (setitem_length_ok infile "c00100" agi Hlen) as [vdf Hset].
    rewrite Hset. simpl. apply checked_weights_fails.
    + now apply (setitem_keeps_columns infile vdf "c00100" "s006" agi).
    + apply (setitem_other_column infile vdf "c00100" "s006" agi eq_refl) in Hset.
      rewrite (same_column_positive infile vdf Hset).
      now apply Exists_not_Forall.
  - intros minimize tdf pop write_file o w Hrun Hw.
    unfold create_area_weights_file in Hrun.
    destruct (all_taxcalc_variables taxcalc_agi infile cache write_cache)
      as [cache' loaded] eqn:E.
    assert (Hout : out = loaded) by (subst out; try rewrite E; reflexivity).
    destruct loaded as [vdf|e].
    + exists vdf. split; [exact Hout|]. now apply Hok.
    + simpl in Hrun. injection Hrun as <-. discriminate Hw.
Qed.

(* ================================================================= *)
(** ** [prepared_data]: one target column *)

Lemma length_mask_times (mask : list Z) (cond : list bool) :
  List.length cond = List.length mask ->
  List.length (mask_times mask cond) = List.length mask.
Proof. intros H. unfold mask_times. rewrite length_zipWith. lia. Qed.

Lemma nth_mask_times (mask : list Z) (cond : list bool) (i : nat) :
  (i < List.length mask)%nat -> (i < List.length cond)%nat ->
  nth i (mask_times mask cond) 0%Z
  = (nth i mask 0%Z * Z.b2z (nth i cond false))%Z.
Proof.
  intros Hm Hc. unfold mask_times.
  exact (nth_zipWith (fun m b => (m * Z.b2z b)%Z) mask cond i 0%Z false 0%Z Hm Hc).
Qed.

Lemma length_column (df : DataFrame) (k : string) :
  List.length (DF.column df k) = DF.len df.
Proof. unfold DF.column, DF.len. apply length_map. Qed.

Lemma nth_column (df : DataFrame) (k : string) (i : nat) (rec : string -> Q) :
  nth_error (records df) i = Some rec ->
  nth i (DF.column df k) 0 = rec k.
Proof.
  intros H. unfold DF.column.
  apply (nth_error_nth' _ _ _ (fun _ => 0)) in H as [H Hlt].
  rewrite (nth_map_lt _ _ _ (fun _ => 0)) by exact Hlt. now rewrite H.
Qed.

Lemma getattr_Ok (df : DataFrame) (k : string) (v : list Q) :
  DF.getattr df k = Ok v -> v = DF.column df k /\ DF.has_column df k = true.
Proof.
  unfold DF.getattr. destruct (DF.has_column df k); [|discriminate].
  intros [= <-]. auto.
Qed.

Lemma getitem_Ok (df : DataFrame) (k : string) (v : list Q) :
  DF.getitem df k = Ok v -> v = DF.column df k /\ DF.has_column df k = true.
Proof.
  unfold DF.getitem. destruct (DF.has_column df k); [|discriminate].
  intros [= <-]. auto.
Qed.

Lemma range_check (lo hi z : Z) (msg : string) (u : unit) :
  assert ((lo <=? z)%Z && (z <=? hi)%Z) msg = Ok u -> (lo <= z <= hi)%Z.
Proof. intros H. apply assert_Ok_inv in H. lia. Qed.

Tactic Notation "bind_inv" hyp(H) "as" ident(a) ident(Ha) :=
  apply bind_Ok_inv in H as [a [Ha H]].

Section OneColumn.

Variables (vardf : DataFrame) (row : TargetRow).

Let numobs := DF.len vardf.

(** The mask after the scope filter. *)
Lemma scope_mask (mask : list Z) :
  (0 <= scope row <= 2)%Z ->
  (if (scope row =? 1)%Z
   then ds <- DF.getattr vardf "data_source" ;;
        Ok (mask_times (repeat 1%Z numobs) (map (fun x => qeqb x 1) ds))
   else if (scope row =? 2)%Z
   then ds <- DF.getattr vardf "data_source" ;;
        Ok (mask_times (repeat 1%Z numobs) (map (fun x => qeqb x 0) ds))
   else Ok (repeat 1%Z numobs)) = Ok mask ->
  List.length mask = numobs /\
  forall i rec, nth_error (records vardf) i = Some rec ->
                nth i mask 0%Z = Z.b2z (in_scope row rec).
Proof.
  intros Hrange H. unfold in_scope.
  assert (Hlt : forall i rec, nth_error (records vardf) i = Some rec ->
                              (i < numobs)%nat).
  { intros i rec Hi. apply nth_error_Some. unfold DF.len in *. congruence. }
  destruct (scope row =? 1)%Z eqn:E1; [|destruct (scope row =? 2)%Z eqn:E2].
  - bind_inv H as ds Ha. apply getattr_Ok in Ha as [-> _]. injection H as <-.
    assert ((scope row =? 0)%Z = false) as -> by lia.
    assert ((scope row =? 2)%Z = false) as -> by lia.
    split.
    + rewrite length_mask_times; rewrite ?length_map, ?length_column, repeat_length; reflexivity.
    + intros i rec Hi. pose proof (Hlt i rec Hi) as Hn.
      rewrite nth_mask_times
        by (rewrite ?length_map, ?length_column, ?repeat_length; exact Hn).
      rewrite nth_repeat_lt by exact Hn.
      rewrite (nth_map_lt _ _ _ 0) by (rewrite length_column; exact Hn).
      rewrite (nth_column _ _ _ _ Hi). simpl.
      destruct (qeqb (rec "data_source") 1); reflexivity.
  - bind_inv H as ds Ha. apply getattr_Ok in Ha as [-> _]. injection H as <-.
    assert ((scope row =? 0)%Z = false) as -> by lia.
    split.
    + rewrite length_mask_times; rewrite ?length_map, ?length_column, repeat_length; reflexivity.
    + intros i rec Hi. pose proof (Hlt i rec Hi) as Hn.
      rewrite nth_mask_times
        by (rewrite ?length_map, ?length_column, ?repeat_length; exact Hn).
      rewrite nth_repeat_lt by exact Hn.
      rewrite (nth_map_lt _ _ _ 0) by (rewrite length_column; exact Hn).
      rewrite (nth_column _ _ _ _ Hi). simpl.
      destruct (qeqb (rec "data_source") 0); reflexivity.
  - injection H as <-.
    assert ((scope row =? 0)%Z = true) as -> by lia.
    split; [apply repeat_length|].
    intros i rec Hi. rewrite nth_repeat_lt by eauto. reflexivity.
Qed.

Lemma inject_b2z (b : bool) : inject_Z (Z.b2z b) = b2q b.
Proof. destruct b; reflexivity. Qed.

Lemma b2z_and (a b : bool) : (Z.b2z a * Z.b2z b)%Z = Z.b2z (a && b).
Proof. destruct a, b; reflexivity. Qed.

(** What a target's column holds when the row passes its checks. *)
Lemma scaled_masked_varray_Ok (col : list Q) :
  scaled_masked_varray vardf row = Ok col ->
  valid_codes row /\
  DF.has_column vardf (varname row) = true /\
  List.length col = numobs /\
  forall i rec,
    nth_error (records vardf) i = Some rec ->
    nth i col 0
    = spec_mask row rec * spec_value row rec * (1 / floored_target row).
Proof.
  unfold scaled_masked_varray. intros H.
  bind_inv H as u0 Ha0. apply range_check in Ha0 as Hcount.
  bind_inv H as v Ha1. apply getitem_Ok in Ha1 as [-> Hvar].
  bind_inv H as u2 Ha2. apply range_check in Ha2 as Hscope.
  bind_inv H as a2 Ha3. apply (scope_mask _ Hscope) in Ha3 as [Hlen1 Hmask1].
  bind_inv H as c Ha4. apply getattr_Ok in Ha4 as [-> _].
  bind_inv H as u5 Ha6. apply range_check in Ha6 as Hfst.
  bind_inv H as a5 Ha5. injection H as <-.
  fold numobs in Hlen1.
  assert (Hlt : forall i rec, nth_error (records vardf) i = Some rec ->
                              (i < numobs)%nat).
  { intros i rec Hi. apply nth_error_Some. unfold numobs, DF.len. congruence. }
  set (in_bin := zipWith andb
                   (map (fun x => qleb (agilo row) x) (DF.column vardf "c00100"))
                   (map (fun x => qltb x (agihi row)) (DF.column vardf "c00100")))
    in *.
  assert (Hbinlen : List.length in_bin = numobs).
  { unfold in_bin. rewrite length_zipWith, !length_map, length_column.
    unfold numobs. lia. }
  assert (Hbin : forall i rec, nth_error (records vardf) i = Some rec ->
                               nth i in_bin false = in_band row rec).
  { intros i rec Hi. pose proof (Hlt i rec Hi) as Hn. unfold in_bin, in_band.
    rewrite (nth_zipWith andb _ _ i false false false)
      by (rewrite length_map, length_column; exact Hn).
    rewrite !(nth_map_lt _ _ _ 0) by (rewrite length_column; exact Hn).
    now rewrite (nth_column _ _ _ _ Hi). }
  assert (Hlen2 : List.length (mask_times a2 in_bin) = numobs).
  { rewrite length_mask_times; congruence. }
  assert (Hmask3 : List.length a5 = numobs /\
                   forall i rec, nth_error (records vardf) i = Some rec ->
                     nth i a5 0%Z
                     = Z.b2z (in_scope row rec && in_band row rec
                              && status_matches row rec)).
  { unfold status_matches.
    destruct (0 <? fstatus row)%Z eqn:E.
    - bind_inv Ha5 as mars Ha7. apply getattr_Ok in Ha7 as [-> _].
      injection Ha5 as <-.
      assert ((fstatus row =? 0)%Z = false) as -> by lia.
      split.
      + rewrite length_mask_times; rewrite ?length_map, ?length_column, ?Hlen2;
          reflexivity.
      + intros i rec Hi. pose proof (Hlt i rec Hi) as Hn.
        rewrite nth_mask_times
          by (rewrite ?length_map, ?length_column, ?Hlen2; exact Hn).
        rewrite nth_mask_times by (rewrite ?Hlen1, ?Hbinlen; exact Hn).
        rewrite (Hmask1 i rec Hi), (Hbin i rec Hi).
        rewrite (nth_map_lt _ _ _ 0) by (rewrite length_column; exact Hn).
        rewrite (nth_column _ _ _ _ Hi). simpl. now rewrite !b2z_and.
    - injection Ha5 as <-.
      assert ((fstatus row =? 0)%Z = true) as -> by lia.
      split; [exact Hlen2|].
      intros i rec Hi. pose proof (Hlt i rec Hi) as Hn.
      rewrite nth_mask_times by (rewrite ?Hlen1, ?Hbinlen; exact Hn).
      rewrite (Hmask1 i rec Hi), (Hbin i rec Hi), b2z_and. simpl.
      now rewrite andb_true_r. }
  destruct Hmask3 as [Hlen3 Hmask3].
  set (unmasked := if (count row =? 0)%Z then DF.column vardf (varname row)
                   else map (fun x => b2q (qltb 0 x))
                          (DF.column vardf (varname row))).
  assert (Hulen : List.length unmasked = numobs).
  { unfold unmasked. destruct (count row =? 0)%Z;
      rewrite ?length_map, length_column; reflexivity. }
  assert (Hval : forall i rec, nth_error (records vardf) i = Some rec ->
                               nth i unmasked 0 = spec_value row rec).
  { intros i rec Hi. pose proof (Hlt i rec Hi) as Hn.
    unfold unmasked, spec_value. destruct (count row =? 0)%Z eqn:E0.
    - now apply nth_column.
    - assert ((count row =? 1)%Z = true) as -> by lia.
      rewrite (nth_map_lt _ _ _ 0) by (rewrite length_column; exact Hn).
      now rewrite (nth_column _ _ _ _ Hi). }
  repeat split; try lia; auto.
  - rewrite length_map, length_zipWith. lia.
  - intros i rec Hi. pose proof (Hlt i rec Hi) as Hn.
    rewrite (nth_map_lt _ _ _ 0) by (rewrite length_zipWith; lia).
    rewrite (nth_zipWith _ _ _ i 0%Z 0 0) by lia.
    rewrite (Hmask3 i rec Hi), (Hval i rec Hi), inject_b2z.
    reflexivity.
Qed.

End OneColumn.


Lemma raises_bind_l {A B} (m : result A) (k : A -> result B) :
  raises m -> raises (bind m k).
Proof. intros [e ->]. now exists e. Qed.

Lemma valid_codes_checks (row : TargetRow) :
  valid_codes row <->
  ((0 <=? count row)%Z && (count row <=? 1)%Z = true /\
   (0 <=? scope row)%Z && (scope row <=? 2)%Z = true /\
   (0 <=? fstatus row)%Z && (fstatus row <=? 5)%Z = true).
Proof. unfold valid_codes. lia. Qed.

Lemma has_column_getattr (df : DataFrame) (k : string) :
  DF.has_column df k = true -> DF.getattr df k = Ok (DF.column df k).
Proof. unfold DF.getattr. now intros ->. Qed.

Lemma microdata_columns_inv (vardf : DataFrame) :
  microdata_columns vardf ->
  DF.has_column vardf "s006" = true /\ DF.has_column vardf "XTOT" = true /\
  DF.has_column vardf "data_source" = true /\
  DF.has_column vardf "c00100" = true /\ DF.has_column vardf "MARS" = true.
Proof.
  unfold microdata_columns. intros H.
  repeat (apply Forall_cons_iff in H as [? H]). auto.
Qed.

(** With its columns in the table, a row with codes in range gives its
    column. *)
Lemma scaled_masked_varray_returns (vardf : DataFrame) (row : TargetRow) :
  microdata_columns vardf ->
  DF.has_column vardf (varname row) = true ->
  valid_codes row ->
  returns (scaled_masked_varray vardf row).
Proof.
  intros Hcols Hvar Hcodes.
  apply microdata_columns_inv in Hcols as (_ & _ & Hds & Hagi & Hmars).
  apply valid_codes_checks in Hcodes as (Hc & Hs & Hf).
  unfold scaled_masked_varray, DF.getitem.
  rewrite Hc, Hvar, Hs, Hf, (has_column_getattr _ _ Hds),
    (has_column_getattr _ _ Hagi), (has_column_getattr _ _ Hmars).
  simpl.
  destruct (scope row =? 1)%Z; [|destruct (scope row =? 2)%Z];
    simpl; destruct (0 <? fstatus row)%Z; simpl; eexists; reflexivity.
Qed.

Lemma population_row_convention (row : TargetRow) :
  population_row row = true <-> population_convention row.
Proof.
  unfold population_row, population_convention. simpl.
  rewrite !andb_true_iff, String.eqb_eq, !Z.eqb_eq, !qltb_true. tauto.
Qed.

(* ================================================================= *)
(** ** [prepared_data]: the loop over the target rows *)

Lemma target_over_population_Ok (vardf : DataFrame) (t np q : Q) :
  target_over_population vardf t np = Ok q ->
  (0 < DF.len vardf)%nat /\ q = t / np.
Proof.
  unfold target_over_population.
  destruct (DF.len vardf =? 0)%nat eqn:E; [discriminate|].
  apply Nat.eqb_neq in E. intros [= <-]. split; [lia|reflexivity].
Qed.

Lemma target_over_population_records (vardf : DataFrame) (t np : Q) :
  (0 < DF.len vardf)%nat ->
  target_over_population vardf t np = Ok (t / np).
Proof.
  intros H. unfold target_over_population.
  assert ((DF.len vardf =? 0)%nat = false) as -> by (apply Nat.eqb_neq; lia).
  reflexivity.
Qed.

Lemma target_over_population_empty (vardf : DataFrame) (t np : Q) :
  DF.len vardf = O ->
  target_over_population vardf t np = Raise ZeroDivisionError.
Proof. intros H. unfold target_over_population. now rewrite H. Qed.

Section RowsLoop.

Variables (vardf : DataFrame) (national_population : Q).

Lemma row_body_Ok (st st' : LoopState) (row : TargetRow) :
  row_body vardf national_population st row = Ok st' ->
  exists col,
    scaled_masked_varray vardf row = Ok col /\
    row_num st' = (row_num st + 1)%Z /\
    tm_tuple st' = (tm_tuple st ++ [col])%list /\
    ta_list st' = (ta_list st ++ [scaled_target (target row)])%list /\
    (if (row_num st =? 1)%Z
     then population_row row = true /\
          initial_weights_scale st' = Some (target row / national_population)
     else initial_weights_scale st' = initial_weights_scale st).
Proof.
  unfold row_body. intros H.
  bind_inv H as iws Hiws. bind_inv H as col Hcol. injection H as <-.
  exists col. simpl. repeat split; auto.
  replace (row_num st + 1 =? 2)%Z with (row_num st =? 1)%Z in Hiws by lia.
  destruct (row_num st =? 1)%Z.
  - bind_inv Hiws as u Hu. apply assert_Ok_inv in Hu.
    bind_inv Hiws as q Hq. apply target_over_population_Ok in Hq as [_ ->].
    injection Hiws as <-. auto.
  - now injection Hiws as <-.
Qed.


Lemma rows_loop_Ok (tdf : list TargetRow) :
  forall st st',
    rows_loop vardf national_population st tdf = Ok st' ->
    row_num st' = (row_num st + Z.of_nat (List.length tdf))%Z /\
    ta_list st'
    = (ta_list st ++ map (fun r => scaled_target (target r)) tdf)%list /\
    (exists cols,
        tm_tuple st' = (tm_tuple st ++ cols)%list /\
        Forall2 (fun row col => scaled_masked_varray vardf row = Ok col)
          tdf cols) /\
    ((2 <= row_num st)%Z ->
     initial_weights_scale st' = initial_weights_scale st) /\
    (row_num st = 1%Z ->
     match tdf with
     | [] => initial_weights_scale st' = initial_weights_scale st
     | row :: _ =>
         population_row row = true /\
         initial_weights_scale st' = Some (target row / national_population)
     end).
Proof.
  induction tdf as [|row rest IH]; intros st st' H.
  - injection H as <-. rewrite Z.add_0_r, !app_nil_r.
    repeat split; auto. exists []. rewrite app_nil_r. split; constructor.
  - simpl in H. bind_inv H as st1 Hst1.
    apply row_body_Ok in Hst1 as (col & Hcol & Hnum & Htm & Hta & Hiws).
    apply IH in H as (Hnum' & Hta' & (cols & Htm' & Hall) & Hkeep & _).
    split; [|split; [|split; [|split]]].
    + rewrite Hnum', Hnum. simpl List.length. lia.
    + rewrite Hta', Hta, <- app_assoc. reflexivity.
    + exists (col :: cols). split.
      * rewrite Htm', Htm, <- app_assoc. reflexivity.
      * now constructor.
    + intros Hge. assert ((row_num st =? 1)%Z = false) as E by lia.
      rewrite E in Hiws. rewrite Hkeep by lia. exact Hiws.
    + intros H1. rewrite H1 in Hiws. simpl in Hiws.
      rewrite Hkeep by lia. exact Hiws.
Qed.

Hypothesis Hcols : microdata_columns vardf.
Hypothesis Hrecords : (0 < DF.len vardf)%nat.


End RowsLoop.

(* ================================================================= *)
(** ** [prepared_data]: what it returns *)

Lemma Forall2_nth_error {A B} (P : A -> B -> Prop) (l : list A) (l' : list B) :
  Forall2 P l l' ->
  forall j a, nth_error l j = Some a ->
              exists b, nth_error l' j = Some b /\ P a b.
Proof.
  induction 1 as [|x y l l' Hxy Hall IH]; intros j a Hj.
  - destruct j; discriminate.
  - destruct j as [|j]; simpl in *.
    + injection Hj as <-. eauto.
    + eauto.
Qed.

Lemma get2_scale_transpose (cols : list (list Q)) (n i j : nat) (c : Q) :
  (i < n)%nat -> (j < List.length cols)%nat ->
  get2 (scale2 (transpose (mk_ndarray2 (List.length cols) n cols)) c) i j
  = nth i (nth j cols []) 0 * c.
Proof.
  intros Hi Hj. unfold get2, scale2, transpose. simpl.
  rewrite map_map.
  rewrite (nth_map_lt _ _ _ O) by (rewrite length_seq; exact Hi).
  rewrite seq_nth by exact Hi. simpl.
  rewrite map_map.
  now rewrite (nth_map_lt _ _ _ []) by exact Hj.
Qed.

Lemma national_population_estimate (vardf : DataFrame) (np : Q) :
  national_population_of vardf = Ok np -> np == population_estimate vardf.
Proof.
  unfold national_population_of. intros H.
  bind_inv H as s006 Hs. apply getattr_Ok in Hs as [-> _].
  bind_inv H as xtot Hx. apply getattr_Ok in Hx as [-> _].
  injection H as <-. rewrite qsum_bigsum.
  rewrite zipWith_same_length by (now rewrite !length_column).
  rewrite length_column. unfold population_estimate.
  apply bigsum_ext. intros i Hi.
  rewrite (nth_zipWith Qmult _ _ i 0 0 0) by (rewrite length_column; exact Hi).
  reflexivity.
Qed.

(** Everything a normal return of [prepared_data] tells. *)
Lemma prepared_data_Ok (vardf : DataFrame) (tdf : list TargetRow)
      (M : ndarray2) (b : list Q) (s : Q) :
  prepared_data vardf tdf = Ok (M, b, s) ->
  exists np row rest cols,
    national_population_of vardf = Ok np /\
    tdf = row :: rest /\
    population_row row = true /\
    Forall2 (fun row col => scaled_masked_varray vardf row = Ok col) tdf cols /\
    M = scale2 (transpose (mk_ndarray2 (List.length cols) (DF.len vardf) cols)) 1 /\
    b = map (fun v => v * 1) (map (fun r => scaled_target (target r)) tdf) /\
    s = target row / np.
Proof.
  unfold prepared_data. intros H.
  bind_inv H as np Hnp. bind_inv H as st Hst. bind_inv H as stacked Hstack.
  apply rows_loop_Ok in Hst as (_ & Hta & (cols & Htm & Hall) & _ & Hfirst).
  specialize (Hfirst eq_refl). simpl in Htm, Hta.
  destruct tdf as [|row rest].
  - destruct cols; [|inversion Hall]. rewrite Htm in Hstack. discriminate.
  - destruct Hfirst as [Hpop Hiws]. rewrite Hiws in H. injection H as <- <- <-.
    exists np, row, rest, cols. repeat split; auto.
    + rewrite Htm in Hstack. destruct cols as [|col cols']; [inversion Hall|].
      apply Forall2_cons_iff in Hall as [Hcol _].
      unfold vstack in Hstack.
      destruct (forallb _ cols'); [|discriminate]. injection Hstack as <-.
      apply scaled_masked_varray_Ok in Hcol as (_ & _ & Hlen & _).
      now rewrite Hlen.
    + now rewrite Hta.
Qed.

(** C3: entry [(i, j)] of the target matrix is the mask of record [i]
    under target [j] (scope, half-open income band, filing status), times
    the record's value (raw, or the indicator of positivity when the row
    counts), times the reciprocal of the target with zero replaced by
    one. *)
Theorem prepared_data_matrix_entry :
  forall (vardf : DataFrame) (tdf : list TargetRow)
         (M : ndarray2) (b : list Q) (s : Q)
         (i j : nat) (rec : string -> Q) (row : TargetRow),
    prepared_data vardf tdf = Ok (M, b, s) ->
    nth_error (records vardf) i = Some rec ->
    nth_error tdf j = Some row ->
    nrow M = DF.len vardf /\ ncol M = List.length tdf /\
    get2 M i j
    == spec_mask row rec * spec_value row rec * (1 / floored_target row).
Proof.
  intros vardf tdf M b s i j rec row H Hi Hj.
  apply prepared_data_Ok in H
    as (np & row0 & rest & cols & _ & _ & _ & Hall & -> & _ & _).
  pose proof (Forall2_length Hall) as Hlen.
  destruct (Forall2_nth_error _ _ _ Hall j row Hj) as (col & Hcol & Hok).
  apply scaled_masked_varray_Ok in Hok as (_ & _ & _ & Hentry).
  apply (nth_error_nth' _ _ _ []) in Hcol as [Hcol Hjlt].
  assert (Hilt : (i < DF.len vardf)%nat).
  { apply nth_error_Some. unfold DF.len. congruence. }
  split; [reflexivity|]. split; [simpl; congruence|].
  rewrite get2_scale_transpose by assumption.
  rewrite Hcol, (Hentry i rec Hi). ring.
Qed.

(** C6: when the national population estimate is not zero, the initial
    weights scale times that estimate is the target of the population row,
    in exact arithmetic. *)
Theorem prepared_data_initial_weights_scale :
  forall (vardf : DataFrame) (tdf : list TargetRow)
         (M : ndarray2) (b : list Q) (s : Q),
    prepared_data vardf tdf = Ok (M, b, s) ->
    ~ population_estimate vardf == 0 ->
    exists row rest,
      tdf = row :: rest /\ population_convention row /\
      s * population_estimate vardf == target row.
Proof.
  intros vardf tdf M b s H Hnz.
  apply prepared_data_Ok in H
    as (np & row & rest & cols & Hnp & -> & Hpop & _ & _ & _ & ->).
  exists row, rest. split; [reflexivity|].
  split; [now apply population_row_convention|].
  apply national_population_estimate in Hnp.
  rewrite <- Hnp in *. field. exact Hnz.
Qed.

Lemma scaled_target_one (t : Q) : scaled_target t == 1.
Proof.
  unfold scaled_target, scaled_target_of, scale_of, unscaled_target_of.
  destruct (qeqb t 0) eqn:E.
  - reflexivity.
  - apply qeqb_false in E. field. exact E.
Qed.

Lemma unscaled_target_nonzero (t : Q) : ~ unscaled_target t == 0.
Proof.
  unfold unscaled_target, unscaled_target_of.
  destruct (qeqb t 0) eqn:E.
  - discriminate.
  - now apply qeqb_false.
Qed.

(** C4, as the code has it: the scaled target of every row is
    [u * (1 / u)] for [u] the target with zero replaced by one, so no
    division is by zero; it is one in exact arithmetic for every row, and
    in binary64 it is exactly 1.0 for a zero target. *)
Theorem prepared_data_target_array :
  forall (vardf : DataFrame) (tdf : list TargetRow)
         (M : ndarray2) (b : list Q) (s : Q),
    prepared_data vardf tdf = Ok (M, b, s) ->
    List.length b = List.length tdf /\
    Forall (fun v => v == 1) b /\
    Forall (fun row => ~ unscaled_target (target row) == 0) tdf /\
    (forall t : float,
        PrimFloat.eqb t 0%float = true ->
        Binary64.unscaled_target t = 1%float /\
        Binary64.target_array_entry t = 1%float).
Proof.
  intros vardf tdf M b s H.
  apply prepared_data_Ok in H
    as (np & row & rest & cols & _ & _ & _ & _ & _ & -> & _).
  split; [now rewrite !length_map|].
  split; [|split].
  - rewrite map_map. apply Forall_forall. intros v Hin.
    apply in_map_iff in Hin as [r [<- _]]. rewrite scaled_target_one. ring.
  - apply Forall_forall. intros r _. apply unscaled_target_nonzero.
  - intros t Ht.
    unfold Binary64.target_array_entry, Binary64.scaled_target,
      Binary64.unscaled_target, scaled_target_of, scale_of, unscaled_target_of.
    rewrite Ht. split; reflexivity.
Qed.

(** C4, as stated, fails in the arithmetic of the code: for the target
    49 the scaled target is 49 * (1 / 49), which binary64 rounds to
    0.9999999999999999 (0x1.fffffffffffffp-1), not 1.0. *)
Lemma scaled_target_binary64_not_one :
  Binary64.target_array_entry 49%float = 0x1.fffffffffffffp-1%float /\
  PrimFloat.eqb (Binary64.target_array_entry 49%float) 1%float = false.
Proof. split; reflexivity. Qed.

(* ================================================================= *)
(** ** [prepared_data]: when it aborts *)


Section Aborts.

Variable vardf : DataFrame.
Hypothesis Hcols : microdata_columns vardf.




End Aborts.







Lemma prepared_data_sample :
  prepared_data Sample.vardf Sample.tdf
  = Ok (Sample.target_matrix, Sample.target_array, Sample.weights_scale).
Proof. reflexivity. Qed.

(** The same targets on the table of the sample without its records:
    every row is valid and the first is the population row, and the
    division by the national population raises. *)
Example prepared_data_no_records :
  prepared_data (mk_DataFrame (columns Sample.vardf) []) Sample.tdf
  = Raise ZeroDivisionError.
Proof. reflexivity. Qed.

Lemma prepared_data_matrix_entry_witness :
  nrow Sample.target_matrix = DF.len Sample.vardf /\
  ncol Sample.target_matrix = List.length Sample.tdf /\
  get2 Sample.target_matrix 0 1
  == spec_mask Sample.wage_row Sample.first_record
     * spec_value Sample.wage_row Sample.first_record
     * (1 / floored_target Sample.wage_row).
Proof.
  apply (prepared_data_matrix_entry Sample.vardf Sample.tdf
           Sample.target_matrix Sample.target_array Sample.weights_scale
           0 1 Sample.first_record Sample.wage_row); reflexivity.
Defined.

Lemma prepared_data_initial_weights_scale_witness :
  exists row rest,
    Sample.tdf = row :: rest /\ population_convention row /\
    Sample.weights_scale * population_estimate Sample.vardf == target row.
Proof.
  apply (prepared_data_initial_weights_scale Sample.vardf Sample.tdf
           Sample.target_matrix Sample.target_array Sample.weights_scale).
  - reflexivity.
  - intros H. vm_compute in H. discriminate H.
Defined.

Lemma prepared_data_target_array_witness :
  List.length Sample.target_array = List.length Sample.tdf /\
  Forall (fun v => v == 1) Sample.target_array /\
  Forall (fun row => ~ unscaled_target (target row) == 0) Sample.tdf /\
  (forall t : float,
      PrimFloat.eqb t 0%float = true ->
      Binary64.unscaled_target t = 1%float /\
      Binary64.target_array_entry t = 1%float).
Proof.
  apply (prepared_data_target_array Sample.vardf Sample.tdf
           Sample.target_matrix Sample.target_array Sample.weights_scale).
  reflexivity.
Defined.


(* ================================================================= *)
(** ** [target_misses] *)

Lemma outside_band_compat (lob hib r r' : Q) :
  r == r' -> outside_band lob hib r = outside_band lob hib r'.
Proof.
  intros H. unfold outside_band, qltb, qleb. now rewrite H.
Qed.

Lemma outside_tolerance_monotone (tol tol' r : Q) :
  tol' <= tol ->
  outside_tolerance tol r = true -> outside_tolerance tol' r = true.
Proof.
  unfold outside_tolerance. intros Hle H.
  apply orb_true_iff in H. apply orb_true_iff.
  destruct H as [H|H].
  - left. apply qltb_true in H. apply qltb_true. lra.
  - right. apply qleb_true in H. apply qleb_true. lra.
Qed.

Lemma length_miss_lines (lob hib : Q) (tratio : list Q) :
  forall tnum,
    List.length (miss_lines lob hib tnum tratio)
    = count_true (map (outside_band lob hib) tratio).
Proof.
  induction tratio as [|r rest IH]; intros tnum; simpl; [reflexivity|].
  destruct (outside_band lob hib r); simpl; now rewrite IH.
Qed.

Section TargetMisses.

Variables (wght : list Q) (M : ndarray2) (b : list Q).
Hypothesis Hshape : well_shaped M.
Hypothesis Hwght : List.length wght = nrow M.
Hypothesis Hb : List.length b = ncol M.

Lemma nth_column2 (i j : nat) :
  (i < nrow M)%nat -> nth i (column2 M j) 0 = get2 M i j.
Proof.
  intros Hi. unfold column2, get2. destruct Hshape as [Hrows _].
  now rewrite (nth_map_lt _ _ _ []) by (rewrite Hrows; exact Hi).
Qed.

Lemma dot_column (j : nat) :
  qsum (zipWith Qmult wght (column2 M j))
  == bigsum (nrow M) (fun i => nth i wght 0 * get2 M i j).
Proof.
  destruct Hshape as [Hrows _].
  assert (Hlen : List.length (column2 M j) = nrow M)
    by (unfold column2; now rewrite length_map).
  rewrite qsum_bigsum, length_zipWith, Hwght, Hlen, Nat.min_id.
  apply bigsum_ext. intros i Hi.
  rewrite (nth_zipWith Qmult _ _ i 0 0 0) by lia.
  now rewrite nth_column2.
Qed.

Lemma target_misses_tol_value (tol : Q) :
  exists mstr,
    target_misses_tol tol wght M b = Ok (miss_count tol wght M b, mstr) /\
    List.length mstr = miss_count tol wght M b.
Proof.
  unfold target_misses_tol, dot_vm, broadcast2.
  rewrite Hwght, Nat.eqb_refl. cbn [bind].
  rewrite length_map, length_seq, Hb, Nat.eqb_refl. cbn [bind].
  set (actual := map _ (seq 0 (ncol M))).
  set (tratio := zipWith Qdiv actual b).
  assert (Hactual : List.length actual = ncol M)
    by (unfold actual; now rewrite length_map, length_seq).
  assert (Htratio : List.length tratio = ncol M)
    by (unfold tratio; rewrite length_zipWith; lia).
  assert (Hnum : count_true (map (outside_band (1 - tol) (1 + tol)) tratio)
                 = miss_count tol wght M b).
  { rewrite count_true_bigcount, length_map, Htratio. unfold miss_count.
    apply bigcount_ext. intros j Hj.
    rewrite (nth_map_lt _ _ _ 0) by lia.
    unfold outside_tolerance. apply outside_band_compat.
    unfold tratio. rewrite (nth_zipWith Qdiv _ _ j 0 0 0) by lia.
    unfold actual. rewrite (nth_map_lt _ _ _ O) by (now rewrite length_seq).
    rewrite seq_nth by exact Hj. simpl. unfold achieved_ratio.
    now rewrite dot_column. }
  rewrite Hnum. eexists. split; [reflexivity|].
  destruct (0 <? miss_count tol wght M b)%nat eqn:E.
  - now rewrite length_miss_lines.
  - apply Nat.ltb_ge in E. simpl. lia.
Qed.

End TargetMisses.

(** C5: on a weight vector, a matrix and nonzero targets of matching
    shapes, the count [target_misses] returns is the number of targets
    whose achieved/expected ratio is below [1 - tol] or at least
    [1 + tol]; and for the same weights a smaller tolerance never gives
    a smaller count. *)
Theorem target_misses_count :
  forall (tol tol' : Q) (wght : list Q) (M : ndarray2) (b : list Q),
    well_shaped M ->
    List.length wght = nrow M ->
    List.length b = ncol M ->
    Forall (fun t => ~ t == 0) b ->
    tol' <= tol ->
    exists mstr mstr',
      target_misses_tol tol wght M b = Ok (miss_count tol wght M b, mstr) /\
      target_misses_tol tol' wght M b = Ok (miss_count tol' wght M b, mstr') /\
      (miss_count tol wght M b <= miss_count tol' wght M b)%nat.
Proof.
  intros tol tol' wght M b Hshape Hwght Hb _ Hle.
  destruct (target_misses_tol_value wght M b Hshape Hwght Hb tol)
    as [mstr [H _]].
  destruct (target_misses_tol_value wght M b Hshape Hwght Hb tol')
    as [mstr' [H' _]].
  exists mstr, mstr'. repeat split; auto.
  unfold miss_count. apply bigcount_le. intros j _.
  now apply outside_tolerance_monotone.
Qed.

Lemma target_misses_count_witness :
  exists mstr mstr',
    target_misses_tol TARGET_RATIO_TOLERANCE Sample.wght
      Sample.target_matrix Sample.target_array
    = Ok (miss_count TARGET_RATIO_TOLERANCE Sample.wght
            Sample.target_matrix Sample.target_array, mstr) /\
    target_misses_tol 0 Sample.wght Sample.target_matrix Sample.target_array
    = Ok (miss_count 0 Sample.wght Sample.target_matrix Sample.target_array,
          mstr') /\
    (miss_count TARGET_RATIO_TOLERANCE Sample.wght
       Sample.target_matrix Sample.target_array
     <= miss_count 0 Sample.wght Sample.target_matrix Sample.target_array)%nat.
Proof.
  apply (target_misses_count TARGET_RATIO_TOLERANCE 0 Sample.wght
           Sample.target_matrix Sample.target_array).
  - split; [reflexivity|]. repeat constructor.
  - reflexivity.
  - reflexivity.
  - repeat constructor; intros H; vm_compute in H; discriminate H.
  - vm_compute. discriminate.
Defined.

Example target_misses_of_sample :
  target_misses Sample.wght Sample.target_matrix Sample.target_array
  = Ok (0%nat, []) /\
  miss_count 0 Sample.wght Sample.target_matrix Sample.target_array = 2%nat.
Proof. split; reflexivity. Qed.

(* ================================================================= *)
(** ** [objective_function] *)

Lemma square_compat (v v' : Q) : v == v' -> square v == square v'.
Proof. intros H. unfold square. now rewrite H. Qed.

Lemma square_nonneg (v : Q) : 0 <= square v.
Proof. unfold square. nra. Qed.

Lemma bigsum_nonneg (n : nat) (f : nat -> Q) :
  (forall i, (i < n)%nat -> 0 <= f i) -> 0 <= bigsum n f.
Proof.
  induction n as [|n IH]; intros H; simpl; [lra|].
  assert (0 <= bigsum n f) by (apply IH; intros; apply H; lia).
  assert (0 <= f n) by (apply H; lia). lra.
Qed.

Lemma objective_sum_nonneg (x : list Q) (A : ndarray2) (b : list Q) (delta : Q) :
  0 <= delta -> 0 <= objective_sum x A b delta.
Proof.
  intros Hd. unfold objective_sum.
  assert (H1 : 0 <= bigsum (nrow A)
                 (fun i => square (bigsum (ncol A)
                                     (fun j => get2 A i j * nth j x 0)
                                   - nth i b 0)))
    by (apply bigsum_nonneg; intros; apply square_nonneg).
  assert (H2 : 0 <= bigsum (ncol A) (fun j => square (nth j x 0 - 1)))
    by (apply bigsum_nonneg; intros; apply square_nonneg).
  nra.
Qed.

(** C1: on a matrix [A], a vector [x] of its width and a vector [b] of
    its height, [objective_function(x, A, b, delta)] is the sum over the
    targets of the squared components of [A x - b] plus [delta] times the
    sum over the records of the squares of [x - 1]; it is not negative
    when [delta] is not. *)
Theorem objective_function_value :
  forall (x : list Q) (A : ndarray2) (b : list Q) (delta : Q),
    well_shaped A ->
    List.length x = ncol A ->
    List.length b = nrow A ->
    0 <= delta ->
    exists v,
      objective_function x (A, b, delta) = Ok v /\
      v == objective_sum x A b delta /\
      0 <= v.
Proof.
  intros x A b delta [Hrows Hwidth] Hx Hb Hdelta.
  unfold objective_function, matvec, broadcast2.
  rewrite Hx, Nat.eqb_refl. cbn [bind].
  rewrite length_map, Hrows, Hb, Nat.eqb_refl. cbn [bind].
  eexists. split; [reflexivity|].
  assert (Hv : qsum (map square
                       (zipWith Qminus
                          (map (fun r => qsum (zipWith Qmult r x)) (cells A)) b))
               + delta * qsum (map square (map (fun xi => xi - 1) x))
               == objective_sum x A b delta).
  { unfold objective_sum.
    rewrite !qsum_bigsum, !length_map, length_zipWith, length_map, Hrows, Hb,
      Nat.min_id, Hx.
    apply Qplus_comp; [|apply Qmult_comp; [reflexivity|]].
    - apply bigsum_ext. intros i Hi.
      rewrite (nth_map_lt _ _ _ 0)
        by (rewrite length_zipWith, length_map; lia).
      apply square_compat.
      rewrite (nth_zipWith Qminus _ _ i 0 0 0) by (rewrite ?length_map; lia).
      apply Qplus_comp; [|reflexivity].
      rewrite (nth_map_lt _ _ _ []) by lia.
      assert (Hlen : List.length (nth i (cells A) []) = ncol A).
      { rewrite Forall_forall in Hwidth. apply Hwidth, nth_In. lia. }
      rewrite qsum_bigsum, length_zipWith, Hlen, Hx, Nat.min_id.
      apply bigsum_ext. intros j Hj.
      rewrite (nth_zipWith Qmult _ _ j 0 0 0) by lia. reflexivity.
    - apply bigsum_ext. intros j Hj.
      rewrite (nth_map_lt _ _ _ 0) by (rewrite length_map; lia).
      now rewrite (nth_map_lt _ _ _ 0) by lia. }
  split; [exact Hv|]. rewrite Hv. now apply objective_sum_nonneg.
Qed.

Lemma objective_function_value_witness :
  exists v,
    objective_function [1; 2] (mk_ndarray2 1 2 [[3; 4]], [5], 2) = Ok v /\
    v == objective_sum [1; 2] (mk_ndarray2 1 2 [[3; 4]]) [5] 2 /\
    0 <= v.
Proof.
  apply (objective_function_value [1; 2] (mk_ndarray2 1 2 [[3; 4]]) [5] 2).
  - split; [reflexivity|]. repeat constructor.
  - reflexivity.
  - reflexivity.
  - vm_compute. discriminate.
Defined.

Example objective_function_of_sample :
  objective_function [1; 2] (mk_ndarray2 1 2 [[3; 4]], [5], 2) = Ok 38.
Proof. reflexivity. Qed.

(* ================================================================= *)
(** ** The regularization loop *)

Lemma DELTA_INIT_VALUE_value : DELTA_INIT_VALUE == 1 # 1000000000.
Proof. vm_compute. reflexivity. Qed.

Lemma DELTA_LOOP_DECREMENT_value : DELTA_LOOP_DECREMENT == 1 # 4000000000.
Proof. vm_compute. reflexivity. Qed.

Lemma delta_floor_value : 1e-20 == 1 # 100000000000000000000.
Proof. vm_compute. reflexivity. Qed.

Lemma delta_schedule_values :
  delta_schedule 1 == 4 # 4000000000 /\
  delta_schedule 2 == 3 # 4000000000 /\
  delta_schedule 3 == 2 # 4000000000 /\
  delta_schedule 4 == 1 # 4000000000 /\
  delta_schedule 5 == 0.
Proof. repeat split; vm_compute; reflexivity. Qed.

(** One decrement of the delta of trial [k + 1] gives the delta of trial
    [k + 2], the floor at [1e-20] changing nothing but the form of the
    zero of the last trial. *)
Lemma next_delta (k : nat) (delta : Q) :
  (k < 4)%nat ->
  delta == delta_schedule (S k) ->
  let delta' := delta - DELTA_LOOP_DECREMENT in
  (if qltb delta' 1e-20 then 0 else delta') == delta_schedule (S (S k)) /\
  0 <= (if qltb delta' 1e-20 then 0 else delta').
Proof.
  intros Hk Hd delta'.
  pose proof DELTA_LOOP_DECREMENT_value as Hdec.
  pose proof delta_floor_value as Hfloor.
  destruct delta_schedule_values as (H1 & H2 & H3 & H4 & H5).
  assert (Hcases : (k = 0 \/ k = 1 \/ k = 2 \/ k = 3)%nat) by lia.
  destruct (qltb delta' 1e-20) eqn:E;
    [apply qltb_true in E | apply qltb_false in E];
    unfold delta' in *;
    destruct Hcases as [-> | [-> | [-> | ->]]];
    rewrite ?H1, ?H2, ?H3, ?H4, ?H5 in *; split; lra.
Qed.

(** In binary64 the deltas of the five trials are those of the schedule
    up to the rounding of each subtraction, and the floor turns what is
    left for the fifth, 2^-83, into 0.0. *)
Example binary64_deltas :
  Binary64.deltas 5 Binary64.DELTA_INIT_VALUE
  = [ 0x1.12e0be826d695p-30; 0x1.9c511dc3a41e0p-31; 0x1.12e0be826d696p-31;
      0x1.12e0be826d697p-32; 0 ]%float.
Proof. reflexivity. Qed.

Section LoopFacts.

Variable minimize :
  (list Q -> ndarray2 * list Q * Q -> result Q) ->
  list Q -> ndarray2 * list Q * Q -> result OptimizeResult.
Variables (A : ndarray2) (b : list Q).
Variables (wght_us : list Q) (target_matrix : ndarray2) (target_array : list Q).
Variable wght0 : list Q.

Lemma loop_exhausted (delta : Q) (res : option OptimizeResult)
      (done : list Trial) (loop : Z) :
  between_passes wght0 5 delta res done ->
  loop_as_specified wght0 done (Ok (mk_LoopExit loop delta res)).
Proof.
  intros (Hlen & Hall & _ & Hlast).
  destruct (Hlast ltac:(lia)) as (t & Ht & Hres).
  unfold loop_as_specified. change (Z.to_nat DELTA_MAX_LOOPS) with 5%nat.
  rewrite Hlen. split; [lia|]. split; [|split].
  - intros i t' Hi. destruct (Hall _ _ Hi); auto.
  - intros i t' Hi _. destruct (Hall _ _ Hi); auto.
  - exists t. split; [exact Ht|]. split; [exact Hres|]. split.
    + intros H. lia.
    + intros H. apply Hall in Ht. destruct Ht as [_ Ht]. congruence.
Qed.

Lemma nth_error_snoc {X} (l : list X) (x y : X) (i : nat) :
  nth_error (l ++ [x]) i = Some y ->
  (i < List.length l /\ nth_error l i = Some y)%nat \/
  (i = List.length l /\ y = x).
Proof.
  intros H. destruct (Nat.lt_ge_cases i (List.length l)) as [Hlt|Hge].
  - left. split; [exact Hlt|]. now rewrite nth_error_app1 in H.
  - right. rewrite nth_error_app2 in H by exact Hge.
    destruct (i - List.length l)%nat as [|n] eqn:E; simpl in H.
    + injection H as <-. split; [lia|reflexivity].
    + destruct n; discriminate.
Qed.

Lemma delta_loop_specified (fuel : nat) :
  forall (k : nat) (delta : Q) (res : option OptimizeResult) (done : list Trial),
    (5 <= k + fuel)%nat -> (k <= 5)%nat ->
    between_passes wght0 k delta res done ->
    exists trials r,
      delta_loop minimize A b wght_us target_matrix target_array wght0
        fuel (Z.of_nat k + 1)%Z delta res done = Some (trials, r) /\
      loop_as_specified wght0 trials r.
Proof.
  induction fuel as [|fuel IH]; intros k delta res done Hfuel Hk Hinv.
  - assert (k = 5)%nat as -> by lia. simpl.
    eexists. eexists. split; [reflexivity|]. now apply loop_exhausted.
  - destruct (Nat.eq_dec k 5) as [->|Hne].
    + simpl. eexists. eexists. split; [reflexivity|]. now apply loop_exhausted.
    + assert (Hlt : (k < 5)%nat) by lia.
      cbn [delta_loop].
      assert ((Z.of_nat k + 1 <=? DELTA_MAX_LOOPS)%Z = true) as ->
        by (unfold DELTA_MAX_LOOPS; lia).
      destruct Hinv as (Hlen & Hall & Hdelta & Hlast).
      destruct (Hdelta Hlt) as [Hd Hd0].
      destruct (res <- minimize objective_function wght0 (A, b, delta) ;;
                wght_area <- broadcast2 ValueError Qmult (res_x res) wght_us ;;
                ' (misses, minfo) <-
                  target_misses wght_area target_matrix target_array ;;
                Ok (res, misses, minfo))
        as [[[res' misses] minfo]|e].
      * set (t := mk_Trial (Z.of_nat k + 1) delta wght0 res' misses).
        assert (Hsched : trial_as_scheduled wght0 k t)
          by (unfold trial_as_scheduled; simpl; auto).
        assert (Hlen' : List.length (done ++ [t]) = S k)
          by (rewrite length_app; simpl; lia).
        destruct ((misses =? 0)%nat || negb (res_success res')) eqn:Estop.
        -- eexists. eexists. split; [reflexivity|].
           unfold loop_as_specified.
           change (Z.to_nat DELTA_MAX_LOOPS) with 5%nat.
           rewrite Hlen'. split; [lia|]. split; [|split].
           ++ intros i t' Hi.
              apply nth_error_snoc in Hi as [[_ Hi]|[-> ->]].
              ** destruct (Hall _ _ Hi); auto.
              ** rewrite Hlen. exact Hsched.
           ++ intros i t' Hi Hnotlast.
              apply nth_error_snoc in Hi as [[_ Hi]|[-> ->]].
              ** destruct (Hall _ _ Hi); auto.
              ** lia.
           ++ exists t. simpl. rewrite Nat.sub_0_r.
              rewrite nth_error_app2 by lia.
              replace (k - List.length done)%nat with O by lia.
              repeat split; auto. lia.
        -- destruct (IH (S k)
                       (if qltb (delta - DELTA_LOOP_DECREMENT) 1e-20
                        then 0 else delta - DELTA_LOOP_DECREMENT)
                       (Some res') (done ++ [t])%list)
             as (trials & r & Hrun & Hspec); [lia | lia | | ].
           ++ split; [exact Hlen'|]. split; [|split].
              ** intros i t' Hi.
                 apply nth_error_snoc in Hi as [[_ Hi]|[-> ->]].
                 --- destruct (Hall _ _ Hi); auto.
                 --- rewrite Hlen. split; [exact Hsched | exact Estop].
              ** intros Hlt'. apply next_delta; [lia | exact Hd].
              ** intros _. exists t. simpl. rewrite Nat.sub_0_r.
                 rewrite nth_error_app2 by lia.
                 replace (k - List.length done)%nat with O by lia.
                 split; reflexivity.
           ++ exists trials, r. split; [|exact Hspec].
              rewrite <- Hrun. f_equal. lia.
      * eexists. eexists. split; [reflexivity|].
        unfold loop_as_specified.
        change (Z.to_nat DELTA_MAX_LOOPS) with 5%nat.
        rewrite Hlen. split; [lia|]. split; [|split].
        -- intros i t' Hi. destruct (Hall _ _ Hi); auto.
        -- intros i t' Hi _. destruct (Hall _ _ Hi); auto.
        -- split; [lia|]. intros i t' Hi. destruct (Hall _ _ Hi); auto.
Qed.

End LoopFacts.

Lemma last_cons_default {A} (l : list A) (a b : A) :
  last (b :: l) a = last l b.
Proof.
  revert a b. induction l as [|c l IH]; intros a b; [reflexivity|].
  change (last (b :: c :: l) a) with (last (c :: l) a).
  now rewrite (IH a c), (IH b c).
Qed.

Section LoopRun.

Variable minimize :
  (list Q -> ndarray2 * list Q * Q -> result Q) ->
  list Q -> ndarray2 * list Q * Q -> result OptimizeResult.
Variables (A : ndarray2) (b : list Q).
Variables (wght_us : list Q) (target_matrix : ndarray2) (target_array : list Q).
Variable wght0 : list Q.

Lemma last_result_snoc (done : list Trial) (t : Trial)
      (before : option OptimizeResult) :
  last_result (done ++ [t]) before = Some (trial_res t).
Proof.
  unfold last_result. rewrite map_app. cbn [map]. apply last_last.
Qed.

(** Every trial the loop adds is a pass at the delta of its turn, and an
    exception that ends the loop is the exception of the pass that was
    due. *)
Lemma delta_loop_ran (fuel : nat) :
  forall (k : nat) (loop : Z) (res : option OptimizeResult)
         (done trials : list Trial) (r : result LoopExit),
    delta_loop minimize A b wght_us target_matrix target_array wght0
      fuel loop (delta_after k) res done = Some (trials, r) ->
    exists added,
      trials = (done ++ added)%list /\
      (forall i t,
          nth_error added i = Some t ->
          trial_delta t = delta_after (k + i) /\
          trial_x0 t = wght0 /\
          exists wght_area,
            trial_of_pass minimize A b wght_us target_matrix target_array
              t wght_area) /\
      match r with
      | Ok ex => exit_res ex = last_result added res
      | Raise e =>
          pass minimize A b wght_us target_matrix target_array wght0
            (delta_after (k + List.length added)) = Raise e
      end.
Proof.
  induction fuel as [|fuel IH]; intros k loop res done trials r H.
  - cbn [delta_loop] in H.
    destruct (loop <=? DELTA_MAX_LOOPS)%Z; [discriminate H|].
    injection H as <- <-. exists []. rewrite app_nil_r.
    split; [reflexivity|]. split; [|reflexivity].
    intros [|i] t Hi; discriminate Hi.
  - cbn [delta_loop] in H.
    destruct (loop <=? DELTA_MAX_LOOPS)%Z.
    2:{ injection H as <- <-. exists []. rewrite app_nil_r.
        split; [reflexivity|]. split; [|reflexivity].
        intros [|i] t Hi; discriminate Hi. }
    unfold pass, trial_of_pass.
    destruct (minimize objective_function wght0 (A, b, delta_after k))
      as [res'|e] eqn:Hmin; cbn [bind] in H.
    2:{ injection H as <- <-. exists []. rewrite app_nil_r, Nat.add_0_r.
        split; [reflexivity|]. split.
        - intros [|i] t Hi; discriminate Hi.
        - unfold pass. now rewrite Hmin. }
    destruct (broadcast2 ValueError Qmult (res_x res') wght_us)
      as [wght_area|e] eqn:Hmul; cbn [bind] in H.
    2:{ injection H as <- <-. exists []. rewrite app_nil_r, Nat.add_0_r.
        split; [reflexivity|]. split.
        - intros [|i] t Hi; discriminate Hi.
        - unfold pass. rewrite Hmin. cbn [bind]. now rewrite Hmul. }
    destruct (target_misses wght_area target_matrix target_array)
      as [[misses minfo]|e] eqn:Hmiss; cbn [bind] in H.
    2:{ injection H as <- <-. exists []. rewrite app_nil_r, Nat.add_0_r.
        split; [reflexivity|]. split.
        - intros [|i] t Hi; discriminate Hi.
        - unfold pass. rewrite Hmin. cbn [bind]. rewrite Hmul. cbn [bind].
          now rewrite Hmiss. }
    set (t := mk_Trial loop (delta_after k) wght0 res' misses) in *.
    assert (Ht : trial_delta t = delta_after (k + 0) /\
                 trial_x0 t = wght0 /\
                 exists wght_area',
                   pass minimize A b wght_us target_matrix target_array
                     (trial_x0 t) (trial_delta t)
                   = Ok (trial_res t, wght_area', trial_misses t)).
    { rewrite Nat.add_0_r. split; [reflexivity|]. split; [reflexivity|].
      exists wght_area. unfold pass, t. cbn [trial_x0 trial_delta trial_res
        trial_misses]. rewrite Hmin. cbn [bind]. rewrite Hmul. cbn [bind].
      now rewrite Hmiss. }
    destruct ((misses =? 0)%nat || negb (res_success res')).
    + injection H as <- <-. exists [t]. split; [reflexivity|]. split.
      * intros [|[|i]] t' Hi; try discriminate Hi.
        injection Hi as <-. exact Ht.
      * cbn [exit_res]. symmetry. apply (last_result_snoc [] t res).
    + change (if qltb (delta_after k - DELTA_LOOP_DECREMENT) 1e-20
              then 0 else delta_after k - DELTA_LOOP_DECREMENT)
        with (delta_after (S k)) in H.
      apply IH in H as (added & -> & Hall & Hend).
      exists (t :: added). rewrite <- app_assoc. split; [reflexivity|]. split.
      * intros [|i] t' Hi.
        -- injection Hi as <-. exact Ht.
        -- cbn [nth_error] in Hi. specialize (Hall i t' Hi).
           replace (k + S i)%nat with (S k + i)%nat by lia. exact Hall.
      * destruct r as [ex|e].
        -- rewrite Hend. unfold last_result. cbn [map].
           now rewrite last_cons_default.
        -- cbn [List.length].
           replace (k + S (List.length added))%nat
             with (S k + List.length added)%nat by lia.
           exact Hend.
Qed.

End LoopRun.

Lemma regularization_loop_as_specified
      (minimize :
         (list Q -> ndarray2 * list Q * Q -> result Q) ->
         list Q -> ndarray2 * list Q * Q -> result OptimizeResult)
      (wght_us : list Q) (target_matrix : ndarray2) (target_array : list Q)
      (extra : nat) :
  exists trials r,
    regularization_loop minimize (Z.to_nat DELTA_MAX_LOOPS + extra)
      wght_us target_matrix target_array = Some (trials, r) /\
    loop_as_specified (repeat 1 (List.length wght_us)) trials r.
Proof.
  unfold regularization_loop.
  destruct (scale_rows target_matrix wght_us) as [scaled|e].
  - apply (delta_loop_specified minimize _ _ _ _ _ _ _ 0%nat).
    + change (Z.to_nat DELTA_MAX_LOOPS) with 5%nat. lia.
    + lia.
    + split; [reflexivity|]. split; [|split].
      * intros [|i] t H; discriminate H.
      * intros _. split; vm_compute; [reflexivity | discriminate].
      * intros H. lia.
  - exists [], (Raise e). split; [reflexivity|].
    unfold loop_as_specified. change (Z.to_nat DELTA_MAX_LOOPS) with 5%nat.
    simpl. split; [lia|]. split; [|split; [|split; [lia|]]];
      intros [|i] t H; discriminate H.
Qed.

Lemma regularization_loop_ran
      (minimize :
         (list Q -> ndarray2 * list Q * Q -> result Q) ->
         list Q -> ndarray2 * list Q * Q -> result OptimizeResult)
      (fuel : nat) (wght_us : list Q) (target_matrix : ndarray2)
      (target_array : list Q) (trials : list Trial) (r : result LoopExit) :
  regularization_loop minimize fuel wght_us target_matrix target_array
  = Some (trials, r) ->
  match scale_rows target_matrix wght_us with
  | Raise e => trials = [] /\ r = Raise e
  | Ok scaled =>
      (forall i t,
          nth_error trials i = Some t ->
          trial_delta t = delta_after i /\
          trial_x0 t = repeat 1 (List.length wght_us) /\
          exists wght_area,
            trial_of_pass minimize (transpose scaled) target_array wght_us
              target_matrix target_array t wght_area) /\
      match r with
      | Ok ex => exit_res ex = last_result trials None
      | Raise e =>
          pass minimize (transpose scaled) target_array wght_us
            target_matrix target_array (repeat 1 (List.length wght_us))
            (delta_after (List.length trials)) = Raise e
      end
  end.
Proof.
  unfold regularization_loop.
  destruct (scale_rows target_matrix wght_us) as [scaled|e].
  - intros H.
    apply (delta_loop_ran minimize _ _ _ _ _ _ fuel 0%nat) in H
      as (added & -> & Hall & Hend).
    cbn [app]. split; [exact Hall|exact Hend].
  - intros H. injection H as <- <-. split; reflexivity.
Qed.

(** C2: the regularization loop ends within [DELTA_MAX_LOOPS] = 5 passes
    whatever the solver returns, so at most 5 trials are made; trial [k]
    runs with loop counter [k] and with delta [DELTA_INIT_VALUE - (k - 1)
    * DELTA_INIT_VALUE / (DELTA_MAX_LOOPS - 1)], which is never negative;
    every trial starts from the all-ones vector; every trial that is
    followed by another had misses and a converged solver; a loop that
    ends normally after fewer than 5 trials ends on a trial without
    misses or with a solver that did not converge; and an exception cuts
    the loop only before its fifth trial is complete.  Every trial is
    what its pass computed: its result is what the solver returned for
    the objective, the all-ones guess and the matrix of the problem at
    the delta of its turn, and its misses are what [target_misses]
    counted on [res.x * wght_us]; and an exception that ends the loop is
    the one raised by the pass that was due, or by the construction of
    the matrix before the first pass. *)
Theorem regularization_loop_trials :
  forall (minimize :
            (list Q -> ndarray2 * list Q * Q -> result Q) ->
            list Q -> ndarray2 * list Q * Q -> result OptimizeResult)
         (wght_us : list Q) (target_matrix : ndarray2) (target_array : list Q)
         (extra : nat),
  exists trials r,
    regularization_loop minimize (Z.to_nat DELTA_MAX_LOOPS + extra)
      wght_us target_matrix target_array = Some (trials, r) /\
    (List.length trials <= 5)%nat /\
    (forall i t,
        nth_error trials i = Some t ->
        trial_loop t = (Z.of_nat i + 1)%Z /\
        trial_delta t == delta_schedule (S i) /\
        0 <= trial_delta t /\
        trial_x0 t = repeat 1 (List.length wght_us)) /\
    (forall i t,
        nth_error trials i = Some t ->
        (S i < List.length trials)%nat ->
        (0 < trial_misses t)%nat /\ res_success (trial_res t) = true) /\
    (forall ex,
        r = Ok ex ->
        exists t,
          nth_error trials (List.length trials - 1) = Some t /\
          exit_res ex = Some (trial_res t) /\
          ((List.length trials < 5)%nat ->
           trial_misses t = 0%nat \/ res_success (trial_res t) = false)) /\
    (forall e, r = Raise e -> (List.length trials < 5)%nat) /\
    match scale_rows target_matrix wght_us with
    | Raise e => trials = [] /\ r = Raise e
    | Ok scaled =>
        (forall i t,
            nth_error trials i = Some t ->
            trial_delta t = delta_after i /\
            exists wght_area,
              trial_of_pass minimize (transpose scaled) target_array wght_us
                target_matrix target_array t wght_area) /\
        (forall e,
            r = Raise e ->
            pass minimize (transpose scaled) target_array wght_us
              target_matrix target_array (repeat 1 (List.length wght_us))
              (delta_after (List.length trials)) = Raise e)
    end.
Proof.
  intros minimize wght_us target_matrix target_array extra.
  destruct (regularization_loop_as_specified minimize wght_us target_matrix
              target_array extra)
    as (trials & r & Hrun & Hlen & Hsched & Hgoon & Hend).
  pose proof (regularization_loop_ran minimize _ _ _ _ _ _ Hrun) as Hran.
  change (Z.to_nat DELTA_MAX_LOOPS) with 5%nat in *.
  exists trials, r. split; [exact Hrun|]. split; [exact Hlen|].
  split; [exact Hsched|]. split; [|split; [|split]].
  - intros i t Hi Hnext. specialize (Hgoon i t Hi Hnext).
    unfold stops in Hgoon. apply orb_false_iff in Hgoon as [Hm Hs].
    apply Nat.eqb_neq in Hm. apply negb_false_iff in Hs. split; [lia|exact Hs].
  - intros ex ->. destruct Hend as (t & Hlast & Hres & Hstop & _).
    exists t. split; [exact Hlast|]. split; [exact Hres|].
    intros Hshort. specialize (Hstop Hshort). unfold stops in Hstop.
    apply orb_true_iff in Hstop as [Hm|Hs].
    + left. now apply Nat.eqb_eq.
    + right. now apply negb_true_iff.
  - intros e ->. apply Hend.
  - destruct (scale_rows target_matrix wght_us) as [scaled|e];
      [|exact Hran].
    destruct Hran as [Hall Hexit]. split.
    + intros i t Hi. destruct (Hall i t Hi) as (Hd & _ & Hpass). auto.
    + intros e ->. exact Hexit.
Qed.

Module SampleRunFacts.
Import SampleRuns.

Example hit_at_once :
  option_map (fun tr => map summary (fst tr)) (run solver_guess)
  = Some [(1%Z, 1 # 1000000000, 0%nat)].
Proof. reflexivity. Qed.

Example five_trials :
  option_map (fun tr => map summary (fst tr)) (run solver_zero)
  = Some [(1%Z, 1 # 1000000000, 2%nat); (2%Z, 3 # 4000000000, 2%nat);
          (3%Z, 1 # 2000000000, 2%nat); (4%Z, 1 # 4000000000, 2%nat);
          (5%Z, 0, 2%nat)].
Proof. reflexivity. Qed.

Example failure_ends_the_loop :
  option_map (fun tr => map summary (fst tr)) (run solver_failed)
  = Some [(1%Z, 1 # 1000000000, 2%nat)].
Proof. reflexivity. Qed.

End SampleRunFacts.
(* ================================================================= *)
(** ** The yearly weights *)

Lemma to_int_not_nil (z : Z) :
  Z.to_int z <> Decimal.Pos Decimal.Nil /\ Z.to_int z <> Decimal.Neg Decimal.Nil.
Proof.
  destruct z as [|p|p]; simpl; split; try discriminate;
    intros [= H]; now apply (Unsigned.to_uint_nonnil p).
Qed.

(** Different years have different column names. *)
Lemma wt_key_inj (y y' : Z) : wt_key y = wt_key y' -> y = y'.
Proof.
  unfold wt_key. intros H. simpl in H. injection H as H.
  apply (f_equal NilZero.int_of_string) in H.
  destruct (to_int_not_nil y) as [Hp Hn].
  destruct (to_int_not_nil y') as [Hp' Hn'].
  rewrite !NilZero.isi in H by assumption.
  injection H as H. apply (f_equal Z.of_int) in H.
  now rewrite !DecimalZ.of_to in H.
Qed.

Lemma get_dict_set_same {V} (d : Py.dict string V) (k : string) (v : V) :
  Py.get String.eqb (dict_set d k v) k = Some v.
Proof.
  induction d as [|[k' v'] d IH]; simpl.
  - now rewrite String.eqb_refl.
  - destruct (String.eqb k k') eqn:E; simpl; rewrite E; [reflexivity | exact IH].
Qed.

Lemma get_dict_set_other {V} (d : Py.dict string V) (k k' : string) (v : V) :
  k' <> k ->
  Py.get String.eqb (dict_set d k v) k' = Py.get String.eqb d k'.
Proof.
  intros Hne. apply String.eqb_neq in Hne.
  induction d as [|[k0 v0] d IH]; simpl.
  - now rewrite Hne.
  - destruct (String.eqb k k0) eqn:E; simpl.
    + apply String.eqb_eq in E. subst k0. now rewrite Hne.
    + now rewrite IH.
Qed.

Lemma getitem_pop_at (pop : Py.dict Z Q) (year : Z) (v : Q) :
  Py.getitem Z.eqb pop year = Ok v -> pop_at pop year = v.
Proof.
  unfold Py.getitem, pop_at. destruct (Py.get Z.eqb pop year); [|discriminate].
  now intros [= ->].
Qed.

Lemma truediv_Ok (p q v : Q) : truediv p q = Ok v -> v = p / q /\ ~ q == 0.
Proof.
  unfold truediv. destruct (qeqb q 0) eqn:E; [discriminate|].
  intros [= <-]. split; [reflexivity|]. now apply qeqb_false.
Qed.

Lemma Forall2_Qeq_map {X} (f g : X -> Q) (l : list X) :
  (forall x, f x == g x) -> Forall2 Qeq (map f l) (map g l).
Proof. intros H. induction l; simpl; constructor; auto. Qed.

Lemma Forall2_trans_Qeq (l l' l'' : list Q) :
  Forall2 Qeq l l' -> Forall2 Qeq l' l'' -> Forall2 Qeq l l''.
Proof.
  intros H. revert l''. induction H as [|x y l l' Hxy Hll' IH]; intros l'' H'.
  - inversion H'. constructor.
  - inversion H' as [|? z ? l3 Hyz Hrest]; subst. constructor.
    + now rewrite Hxy.
    + now apply IH.
Qed.

Lemma qprod_app (l l' : list Q) : qprod (l ++ l') == qprod l * qprod l'.
Proof.
  induction l as [|x l IH]; simpl.
  - ring.
  - rewrite IH. ring.
Qed.

Lemma range_from_app (lo : Z) (n m : nat) :
  range_from lo (n + m)
  = (range_from lo n ++ range_from (lo + Z.of_nat n) m)%list.
Proof.
  revert lo. induction n as [|n IH]; intros lo.
  - simpl. now rewrite Z.add_0_r.
  - cbn [range_from Nat.add app]. rewrite IH. do 3 f_equal. lia.
Qed.

Lemma in_range_from (lo : Z) (n : nat) (y : Z) :
  In y (range_from lo n) -> (lo <= y < lo + Z.of_nat n)%Z.
Proof.
  revert lo. induction n as [|n IH]; intros lo H; simpl in H; [contradiction|].
  destruct H as [<-|H]; [lia|]. apply IH in H. lia.
Qed.

(** The years of a range, cut at the year [t]. *)
Lemma range_split (first last t : Z) :
  (first < t <= last)%Z ->
  range (first + 1) (last + 1)
  = (range (first + 1) t ++ t :: range (t + 1) (last + 1))%list /\
  (range (first + 1) t ++ [t])%list = range (first + 1) (t + 1).
Proof.
  intros Ht. unfold range.
  replace (Z.to_nat (last + 1 - (first + 1)))
    with (Z.to_nat (t - (first + 1)) + S (Z.to_nat (last + 1 - (t + 1))))%nat
    by lia.
  replace (Z.to_nat (t + 1 - (first + 1)))
    with (Z.to_nat (t - (first + 1)) + 1)%nat by lia.
  rewrite !range_from_app. cbn [range_from].
  replace (first + 1 + Z.of_nat (Z.to_nat (t - (first + 1))))%Z with t by lia.
  split; reflexivity.
Qed.

Section YearsLoop.

Variables (pop : Py.dict Z Q) (weights : list Q).

Lemma years_loop_Ok (years : list Z) :
  forall (cum : Q) (wdict wdict' : Py.dict string (list Q)),
    years_loop pop weights years cum wdict = Ok wdict' ->
    (forall k, (forall y, In y years -> wt_key y <> k) ->
               Py.get String.eqb wdict' k = Py.get String.eqb wdict k) /\
    (forall pre y post,
        years = (pre ++ y :: post)%list ->
        ~ In y post ->
        exists v,
          Py.get String.eqb wdict' (wt_key y) = Some v /\
          Forall2 Qeq v
            (map (fun w => w * (cum * qprod (map (growth pop) (pre ++ [y]))))
               weights)).
Proof.
  induction years as [|year rest IH]; intros cum wdict wdict' H.
  - injection H as <-. split; [reflexivity|].
    intros [|? ?] y post Heq; discriminate Heq.
  - simpl in H. bind_inv H as p1 Hp1. bind_inv H as p0 Hp0.
    bind_inv H as g Hg.
    apply getitem_pop_at in Hp1, Hp0. apply truediv_Ok in Hg as [-> _].
    subst p1 p0. fold (growth pop year) in H.
    apply IH in H as [Hother Hyear]. split.
    + intros k Hk. rewrite Hother by (intros y Hy; apply Hk; now right).
      apply get_dict_set_other. intros ->. apply (Hk year); [now left|reflexivity].
    + intros [|y0 pre] y post Heq Hnotin; injection Heq as -> ->.
      * rewrite Hother.
        -- rewrite get_dict_set_same. eexists. split; [reflexivity|].
           apply Forall2_Qeq_map. intros w. simpl. ring.
        -- intros y' Hy' Hkey. apply wt_key_inj in Hkey. now subst y'.
      * destruct (Hyear pre y post eq_refl Hnotin) as (v & Hv & Hval).
        exists v. split; [exact Hv|].
        eapply Forall2_trans_Qeq; [exact Hval|].
        apply Forall2_Qeq_map. intros w. simpl. ring.
Qed.

End YearsLoop.

Lemma yearly_weights_Ok (first last : Z) (pop : Py.dict Z Q)
      (wght_area : list Q) (wdict : Py.dict string (list Q)) :
  yearly_weights first last pop wght_area = Ok wdict ->
  Py.get String.eqb wdict (wt_key first)
  = Some (map (fun w => w * 100) wght_area) /\
  forall t,
    (first < t <= last)%Z ->
    exists v,
      Py.get String.eqb wdict (wt_key t) = Some v /\
      Forall2 Qeq v
        (map (fun w => w * 100 * growth_product pop first t) wght_area).
Proof.
  unfold yearly_weights. intros H.
  apply years_loop_Ok in H as [Hother Hyear]. split.
  - rewrite Hother.
    + simpl. now rewrite String.eqb_refl.
    + intros y Hy Hkey. apply wt_key_inj in Hkey.
      apply in_range_from in Hy. lia.
  - intros t Ht. destruct (range_split first last t Ht) as [Hsplit Hpre].
    destruct (Hyear (range (first + 1) t) t (range (t + 1) (last + 1)) Hsplit)
      as (v & Hv & Hval).
    { intros Hin. apply in_range_from in Hin. lia. }
    exists v. split; [exact Hv|].
    eapply Forall2_trans_Qeq; [exact Hval|].
    rewrite map_map, Hpre. apply Forall2_Qeq_map. intros w.
    unfold growth_product. ring.
Qed.

(** The synthetic forecast of three years: the populations 100, 110 and
    121 give the weights [w0], [1.1 w0] and [1.21 w0]. *)
Example yearly_weights_three_years :
  exists wdict,
    yearly_weights 2021 2023 [(2021%Z, 100); (2022%Z, 110); (2023%Z, 121)]
      [1; 2] = Ok wdict /\
    map fst wdict = ["WT2021"; "WT2022"; "WT2023"] /\
    map (fun kv => map Qred (snd kv)) wdict
    = [[100; 200]; [110; 220]; [121; 242]].
Proof. eexists. repeat split. Qed.

(* ================================================================= *)
(** ** [create_area_weights_file] *)

(** The run never stops for lack of passes: [DELTA_MAX_LOOPS] of them
    always end the regularization loop. *)
Lemma create_area_weights_file_finishes
      (taxcalc_agi : DataFrame -> result (list Q))
      (minimize :
         (list Q -> ndarray2 * list Q * Q -> result Q) ->
         list Q -> ndarray2 * list Q * Q -> result OptimizeResult)
      (infile : DataFrame) (cache : option (list Q))
      (tdf : list TargetRow) (pop : Py.dict Z Q)
      (write_file write_cache : bool) :
  exists o,
    create_area_weights_file taxcalc_agi minimize
      infile cache tdf pop write_file write_cache = Some o /\
    (List.length (out_trials o) <= Z.to_nat DELTA_MAX_LOOPS)%nat.
Proof.
  unfold create_area_weights_file.
  destruct (all_taxcalc_variables taxcalc_agi infile cache write_cache)
    as [cache' loaded].
  destruct (vdf <- loaded ;;
            prepared <- prepared_data vdf tdf ;;
            s006 <- DF.getattr vdf "s006" ;;
            _ <- density_defined (fst (fst prepared)) ;;
            Ok (prepared, s006))
    as [[[[target_matrix target_array] weights_scale] s006]|e].
  - destruct (regularization_loop_as_specified minimize
                (map (fun w => w * weights_scale) s006)
                target_matrix target_array 0)
      as (trials & r & Hrun & Hlen & _).
    rewrite Nat.add_0_r in Hrun. rewrite Hrun.
    destruct r as [ex|e]; eexists; (split; [reflexivity|exact Hlen]).
  - eexists. split; [reflexivity|]. simpl. lia.
Qed.

(** A whole run on the sample: the table is loaded from the cache, the
    solver returns its initial guess, no target is missed, and the
    weights of 2021 are the area weights times 100. *)
Example create_area_weights_file_sample :
  match create_area_weights_file (fun _ => Raise ValueError)
          SampleRuns.solver_guess Sample.vardf (Some [50000; 15000; -200])
          Sample.tdf SampleForecast.pop true false with
  | Some o =>
      match out_weights o with
      | Ok (Some wdict) =>
          Some (List.length (out_trials o),
                option_map (map Qred) (Py.get String.eqb wdict "WT2021"))
      | _ => None
      end
  | None => None
  end = Some (1%nat, Some [100; 200; 300]).
Proof. vm_compute. reflexivity. Qed.

(** A table with a weight of zero is refused. *)
Example all_taxcalc_variables_zero_weight :
  snd (all_taxcalc_variables (fun _ => Raise ValueError)
         Sample.zero_weight_df (Some [50000; 15000]) false)
  = Raise (AssertionError "Not all weights are positive").
Proof. reflexivity. Qed.

(* ################################################################# *)
(** * Further properties of the code *)

(* ================================================================= *)
(** ** [prepared_data]: errors other than the assertions *)

Ltac split_tests :=
  repeat match goal with
         | H : context [if ?c then _ else _] |- _ => destruct c; simpl in H
         end.

Lemma scaled_masked_varray_error (vardf : DataFrame) (row : TargetRow) (e : exn) :
  scaled_masked_varray vardf row = Raise e -> row_error e.
Proof.
  unfold scaled_masked_varray, DF.getitem, DF.getattr, assert, row_error,
    is_assertion.
  intros H. simpl in H. split_tests; try discriminate H;
    injection H as <-; eauto.
Qed.

Lemma rows_loop_error (vardf : DataFrame) (np : Q) (tdf : list TargetRow) :
  forall st e,
    rows_loop vardf np st tdf = Raise e ->
    row_error e \/ (e = ZeroDivisionError /\ DF.len vardf = O).
Proof.
  induction tdf as [|row rest IH]; intros st e H; [discriminate|].
  simpl in H.
  destruct (row_body vardf np st row) as [st1|e1] eqn:Hbody; simpl in H.
  - eapply IH; eauto.
  - injection H as <-. unfold row_body in Hbody.
    destruct (row_num st + 1 =? 2)%Z.
    + unfold assert in Hbody. destruct (population_row row); cbn [bind] in Hbody.
      * unfold target_over_population in Hbody.
        destruct (DF.len vardf =? 0)%nat eqn:Elen; cbn [bind] in Hbody.
        -- injection Hbody as <-. right. split; [reflexivity|].
           now apply Nat.eqb_eq.
        -- destruct (scaled_masked_varray vardf row) eqn:Hcol; [discriminate|].
           injection Hbody as <-. left.
           eapply scaled_masked_varray_error; eauto.
      * injection Hbody as <-. left. left. eexists. reflexivity.
    + simpl in Hbody.
      destruct (scaled_masked_varray vardf row) eqn:Hcol; [discriminate|].
      injection Hbody as <-. left. eapply scaled_masked_varray_error; eauto.
Qed.

(** Whatever the table and the targets, [prepared_data] never reaches its
    [return] with [initial_weights_scale] unbound: what it raises is a
    failed assertion, a [KeyError], an [AttributeError], the
    [ValueError] of [np.vstack], or, on a table without records only,
    the [ZeroDivisionError] of the division by the national population.
    On an empty target table with the weight and population columns in
    place it is that [ValueError]; on a table without records that has
    these columns, with a first target row on the population convention,
    it is that [ZeroDivisionError]. *)
Theorem prepared_data_errors :
  forall (vardf : DataFrame) (tdf : list TargetRow),
    (forall e, prepared_data vardf tdf = Raise e ->
               row_error e \/ e = ValueError \/
               (e = ZeroDivisionError /\ DF.len vardf = O)) /\
    prepared_data vardf tdf <> Raise UnboundLocalError /\
    (DF.has_column vardf "s006" = true ->
     DF.has_column vardf "XTOT" = true ->
     prepared_data vardf [] = Raise ValueError /\
     (DF.len vardf = O ->
      forall row rest,
        population_convention row ->
        prepared_data vardf (row :: rest) = Raise ZeroDivisionError)).
Proof.
  intros vardf tdf.
  assert (Hkinds : forall e, prepared_data vardf tdf = Raise e ->
                             row_error e \/ e = ValueError \/
                             (e = ZeroDivisionError /\ DF.len vardf = O)).
  { intros e H. unfold prepared_data in H.
    destruct (national_population_of vardf) as [np|e0] eqn:Hnp; simpl in H.
    - destruct (rows_loop vardf np (mk_LoopState 1 [] [] None) tdf)
        as [st|e1] eqn:Hloop; simpl in H.
      + apply rows_loop_Ok in Hloop
          as (_ & _ & (cols & Htm & Hall) & _ & Hfirst).
        specialize (Hfirst eq_refl). simpl in Htm.
        destruct (vstack (tm_tuple st)) as [stacked|e2] eqn:Hstack; simpl in H.
        * exfalso. destruct tdf as [|row rest].
          -- destruct cols; [|inversion Hall]. rewrite Htm in Hstack.
             discriminate Hstack.
          -- destruct Hfirst as [_ Hiws]. rewrite Hiws in H. discriminate H.
        * injection H as <-. right. left. unfold vstack in Hstack.
          destruct (tm_tuple st); [now injection Hstack as <-|].
          destruct (forallb _ _); [discriminate|]. now injection Hstack as <-.
      + injection H as <-.
        destruct (rows_loop_error vardf np tdf _ e1 Hloop) as [Hrow|Hzero];
          [now left|right; now right].
    - injection H as <-. left. unfold national_population_of, DF.getattr in Hnp.
      right; right. split_tests; try discriminate Hnp; now injection Hnp as <-. }
  split; [exact Hkinds|]. split.
  - intros H.
    apply Hkinds in H as [[[msg H]|[H|H]]|[H|[H _]]]; discriminate H.
  - intros Hs Hx. split.
    + unfold prepared_data, national_population_of, DF.getattr.
      rewrite Hs, Hx. reflexivity.
    + intros Hlen row rest Hpop.
      unfold prepared_data, national_population_of, DF.getattr.
      rewrite Hs, Hx. cbn [bind rows_loop]. unfold row_body.
      cbn [row_num Z.add Z.eqb Pos.add Pos.succ Pos.eqb].
      apply population_row_convention in Hpop. rewrite Hpop. cbn [assert bind].
      rewrite (target_over_population_empty _ _ _ Hlen). reflexivity.
Qed.

Lemma rows_loop_missing_variable (vardf : DataFrame) (np : Q)
      (tdf : list TargetRow) :
  microdata_columns vardf ->
  (0 < DF.len vardf)%nat ->
  forall st,
    Forall valid_codes tdf ->
    (1 <= row_num st)%Z ->
    (row_num st = 1%Z ->
     match tdf with [] => True | row :: _ => population_row row = true end) ->
    Exists (fun row => DF.has_column vardf (varname row) = false) tdf ->
    rows_loop vardf np st tdf = Raise KeyError.
Proof.
  intros Hcols Hrecords.
  induction tdf as [|row rest IH]; intros st Hcodes Hge Hpop Hex.
  - inversion Hex.
  - apply Forall_cons_iff in Hcodes as [Hcode Hcodes]. simpl.
    assert (Hcheck : (if (row_num st + 1 =? 2)%Z
                      then _ <- assert (population_row row)
                                  "does not contain the area population target" ;;
                           iws <- target_over_population vardf (target row) np ;;
                           Ok (Some iws)
                      else Ok (initial_weights_scale st))
                     = Ok (if (row_num st + 1 =? 2)%Z
                           then Some (target row / np)
                           else initial_weights_scale st)).
    { destruct (row_num st + 1 =? 2)%Z eqn:E; [|reflexivity].
      rewrite Hpop by lia. cbn [assert bind].
      now rewrite (target_over_population_records _ _ _ Hrecords). }
    destruct (DF.has_column vardf (varname row)) eqn:Hvar.
    + destruct (scaled_masked_varray_returns vardf row Hcols Hvar Hcode)
        as [col Hcol].
      unfold row_body. rewrite Hcheck, Hcol. cbn [bind].
      apply IH; simpl; auto; try lia.
      apply Exists_cons in Hex as [Hex|Hex]; [congruence|exact Hex].
    + unfold row_body. rewrite Hcheck. cbn [bind].
      apply valid_codes_checks in Hcode as (Hc & _).
      unfold scaled_masked_varray, DF.getitem. rewrite Hc, Hvar. reflexivity.
Qed.

(** On a table that has its columns and at least one record, with the
    first row on the population convention and every code in range, a
    target that names a variable the table does not have makes
    [prepared_data] raise [KeyError]. *)
Theorem prepared_data_missing_variable :
  forall (vardf : DataFrame) (row : TargetRow) (rest : list TargetRow),
    microdata_columns vardf ->
    (0 < DF.len vardf)%nat ->
    population_convention row ->
    Forall valid_codes (row :: rest) ->
    Exists (fun r => DF.has_column vardf (varname r) = false) (row :: rest) ->
    prepared_data vardf (row :: rest) = Raise KeyError.
Proof.
  intros vardf row rest Hcols Hrecords Hpop Hcodes Hex.
  pose proof (microdata_columns_inv _ Hcols) as (Hs006 & Hxtot & _).
  unfold prepared_data, national_population_of.
  rewrite (has_column_getattr _ _ Hs006), (has_column_getattr _ _ Hxtot).
  cbn [bind].
  rewrite (rows_loop_missing_variable vardf _ (row :: rest) Hcols Hrecords);
    auto.
  - simpl. lia.
  - intros _. now apply population_row_convention.
Qed.

Lemma prepared_data_missing_variable_witness :
  prepared_data Sample.vardf SampleMissing.tdf = Raise KeyError.
Proof.
  apply (prepared_data_missing_variable Sample.vardf Sample.pop_row
           [SampleMissing.ghost_row]).
  - repeat constructor.
  - vm_compute. lia.
  - apply population_row_convention. reflexivity.
  - repeat constructor; simpl; lia.
  - right. left. reflexivity.
Defined.

(* ================================================================= *)
(** ** The yearly weights: when they are made, their columns, their sign *)

Lemma years_loop_needs (pop : Py.dict Z Q) (weights : list Q) (years : list Z) :
  forall cum wdict wdict',
    years_loop pop weights years cum wdict = Ok wdict' ->
    forall y, In y years ->
              (exists v, Py.get Z.eqb pop y = Some v) /\
              (exists v, Py.get Z.eqb pop (y - 1)%Z = Some v /\ ~ v == 0).
Proof.
  induction years as [|year rest IH]; intros cum wdict wdict' H y Hy.
  - contradiction.
  - simpl in H. bind_inv H as p1 Hp1. bind_inv H as p0 Hp0.
    bind_inv H as g Hg. apply truediv_Ok in Hg as [_ Hnz].
    destruct Hy as [<-|Hy]; [|eapply IH; eauto].
    unfold Py.getitem in Hp1, Hp0.
    destruct (Py.get Z.eqb pop year); [|discriminate].
    destruct (Py.get Z.eqb pop (year - 1)%Z); [|discriminate].
    injection Hp0 as <-. split; eauto.
Qed.

Lemma years_loop_returns (pop : Py.dict Z Q) (weights : list Q) (years : list Z) :
  (forall y, In y years ->
             (exists v, Py.get Z.eqb pop y = Some v) /\
             (exists v, Py.get Z.eqb pop (y - 1)%Z = Some v /\ ~ v == 0)) ->
  forall cum wdict, returns (years_loop pop weights years cum wdict).
Proof.
  induction years as [|year rest IH]; intros H cum wdict.
  - eexists. reflexivity.
  - destruct (H year (or_introl eq_refl)) as [[v1 H1] [v0 [H0 Hnz]]].
    simpl. unfold Py.getitem, truediv. rewrite H1, H0. cbn [bind].
    apply qeqb_false in Hnz. rewrite Hnz. cbn [bind].
    apply IH. intros y Hy. apply H. now right.
Qed.

Lemma in_range_from_iff (lo : Z) (n : nat) (y : Z) :
  In y (range_from lo n) <-> (lo <= y < lo + Z.of_nat n)%Z.
Proof.
  split; [apply in_range_from|].
  revert lo. induction n as [|n IH]; intros lo H; [lia|].
  simpl. destruct (Z.eq_dec lo y) as [->|Hne]; [now left|].
  right. apply IH. lia.
Qed.

(** The weights by year are made exactly when the forecast has a
    population for every year from [first] to [last] and none before
    [last] is zero; a missing year is a [KeyError] and a zero population a
    [ZeroDivisionError]. *)
Theorem yearly_weights_returns_iff :
  forall (first last : Z) (pop : Py.dict Z Q) (wght_area : list Q),
    (first < last)%Z ->
    (returns (yearly_weights first last pop wght_area) <->
     forecast_covers pop first last) /\
    (forall e, yearly_weights first last pop wght_area = Raise e ->
               e = KeyError \/ e = ZeroDivisionError).
Proof.
  intros first last pop wght_area Hlt. split; [split|].
  - intros [wdict H]. unfold yearly_weights in H.
    pose proof (years_loop_needs _ _ _ _ _ _ H) as Hneeds.
    intros y Hy.
    assert (Hin : forall z, (first < z <= last)%Z ->
                            In z (range (first + 1) (last + 1))).
    { intros z Hz. apply in_range_from_iff. lia. }
    assert (Hhas : exists v, Py.get Z.eqb pop y = Some v).
    { destruct (Z.eq_dec y first) as [->|Hne].
      - destruct (Hneeds (first + 1)%Z (Hin (first + 1)%Z ltac:(lia)))
          as [_ [v [Hv _]]].
        replace (first + 1 - 1)%Z with first in Hv by lia. eauto.
      - apply (Hneeds y (Hin y ltac:(lia))). }
    destruct Hhas as [v Hv]. exists v. split; [exact Hv|].
    intros Hbefore.
    destruct (Hneeds (y + 1)%Z (Hin (y + 1)%Z ltac:(lia)))
      as [_ [v' [Hv' Hnz]]].
    replace (y + 1 - 1)%Z with y in Hv' by lia. congruence.
  - intros Hcov. unfold yearly_weights. apply years_loop_returns.
    intros y Hy. apply in_range_from_iff in Hy. split.
    + destruct (Hcov y ltac:(lia)) as [v [Hv _]]. eauto.
    + destruct (Hcov (y - 1)%Z ltac:(lia)) as [v [Hv Hnz]].
      exists v. split; [exact Hv|]. apply Hnz. lia.
  - unfold yearly_weights.
    generalize (range (first + 1) (last + 1)) as years.
    generalize 1 as cum.
    generalize [(wt_key first, map (fun w => w * 100) wght_area)] as wdict.
    intros wdict cum years. revert cum wdict.
    induction years as [|year rest IH]; intros cum wdict e H; [discriminate|].
    simpl in H. unfold Py.getitem, truediv in H.
    destruct (Py.get Z.eqb pop year); simpl in H;
      [|injection H as <-; now left].
    destruct (Py.get Z.eqb pop (year - 1)%Z); simpl in H;
      [|injection H as <-; now left].
    destruct (qeqb q0 0); simpl in H; [injection H as <-; now right|].
    eapply IH; eauto.
Qed.

Lemma yearly_weights_returns_iff_witness :
  returns (yearly_weights FIRST_YEAR LAST_YEAR SampleForecast.pop Sample.wght)
  <-> forecast_covers SampleForecast.pop FIRST_YEAR LAST_YEAR.
Proof.
  apply (yearly_weights_returns_iff FIRST_YEAR LAST_YEAR SampleForecast.pop
           Sample.wght).
  reflexivity.
Defined.

Lemma dict_set_fresh {V} (d : Py.dict string V) (k : string) (v : V) :
  ~ In k (map fst d) -> dict_set d k v = (d ++ [(k, v)])%list.
Proof.
  induction d as [|[k' v'] d IH]; intros Hfresh; simpl; [reflexivity|].
  destruct (String.eqb k k') eqn:E.
  - apply String.eqb_eq in E. exfalso. apply Hfresh. left. now subst.
  - rewrite IH; [reflexivity|]. intros Hin. apply Hfresh. now right.
Qed.

Lemma dict_set_Forall_snd {V} (P : V -> Prop) (d : Py.dict string V)
      (k : string) (v : V) :
  Forall (fun kv => P (snd kv)) d -> P v ->
  Forall (fun kv => P (snd kv)) (dict_set d k v).
Proof.
  intros Hd Hv. induction d as [|[k' v'] d IH]; simpl.
  - now constructor.
  - apply Forall_cons_iff in Hd as [Hhd Htl].
    destruct (String.eqb k k'); constructor; auto.
Qed.

Lemma years_loop_keys (pop : Py.dict Z Q) (weights : list Q) (n : nat) :
  forall lo cum wdict wdict',
    (forall k y, In k (map fst wdict) -> In y (range_from lo n) ->
                 k <> wt_key y) ->
    years_loop pop weights (range_from lo n) cum wdict = Ok wdict' ->
    map fst wdict' = (map fst wdict ++ map wt_key (range_from lo n))%list.
Proof.
  induction n as [|n IH]; intros lo cum wdict wdict' Hfresh H.
  - injection H as <-. simpl. now rewrite app_nil_r.
  - cbn [range_from] in *. simpl in H.
    bind_inv H as p1 Hp1. bind_inv H as p0 Hp0. bind_inv H as g Hg.
    rewrite dict_set_fresh in H.
    + apply IH in H.
      * rewrite H, map_app, <- app_assoc. reflexivity.
      * intros k y Hk Hy. rewrite map_app in Hk. apply in_app_or in Hk.
        destruct Hk as [Hk|[<-|[]]].
        -- apply Hfresh; [exact Hk|now right].
        -- simpl. intros Hkey. apply wt_key_inj in Hkey.
           apply in_range_from in Hy. lia.
    + intros Hin. apply (Hfresh (wt_key lo) lo Hin); [now left|reflexivity].
Qed.

Lemma years_loop_shape (pop : Py.dict Z Q) (weights : list Q)
      (P : list Q -> Prop) (years : list Z) :
  (forall c, P (map (fun w => w * c) weights)) ->
  forall cum wdict wdict',
    Forall (fun kv => P (snd kv)) wdict ->
    years_loop pop weights years cum wdict = Ok wdict' ->
    Forall (fun kv => P (snd kv)) wdict'.
Proof.
  intros HP. induction years as [|year rest IH]; intros cum wdict wdict' Hd H.
  - now injection H as <-.
  - simpl in H. bind_inv H as p1 Hp1. bind_inv H as p0 Hp0.
    bind_inv H as g Hg. eapply IH; [|exact H].
    apply dict_set_Forall_snd; auto.
Qed.

(** The weights by year, when they are made, are the columns [WT<first>]
    to [WT<last>] in the order of the years, each with one weight for
    every record. *)
Theorem yearly_weights_columns :
  forall (first last : Z) (pop : Py.dict Z Q) (wght_area : list Q)
         (wdict : Py.dict string (list Q)),
    yearly_weights first last pop wght_area = Ok wdict ->
    map fst wdict = wt_key first :: map wt_key (range (first + 1) (last + 1)) /\
    Forall (fun kv => List.length (snd kv) = List.length wght_area) wdict.
Proof.
  intros first last pop wght_area wdict H. unfold yearly_weights in H. split.
  - apply years_loop_keys in H; [exact H|].
    intros k y [<-|[]] Hy Hkey. apply wt_key_inj in Hkey.
    apply in_range_from in Hy. lia.
  - eapply (years_loop_shape pop _
              (fun v => List.length v = List.length wght_area)); [| |exact H].
    + intros c. now rewrite !length_map.
    + repeat constructor. simpl. now rewrite length_map.
Qed.

Lemma yearly_weights_columns_witness :
  map fst SampleForecast.wdict
  = wt_key FIRST_YEAR :: map wt_key (range (FIRST_YEAR + 1) (LAST_YEAR + 1)) /\
  Forall (fun kv => List.length (snd kv) = List.length Sample.wght)
    SampleForecast.wdict.
Proof.
  apply (yearly_weights_columns FIRST_YEAR LAST_YEAR SampleForecast.pop).
  vm_compute. reflexivity.
Defined.

Lemma years_loop_nonnegative (pop : Py.dict Z Q) (weights : list Q)
      (years : list Z) :
  Forall (fun w => 0 <= w) weights ->
  (forall y, In y years -> 0 < pop_at pop y /\ 0 < pop_at pop (y - 1)%Z) ->
  forall cum wdict wdict',
    0 <= cum ->
    Forall (fun kv => Forall (fun x => 0 <= x) (snd kv)) wdict ->
    years_loop pop weights years cum wdict = Ok wdict' ->
    Forall (fun kv => Forall (fun x => 0 <= x) (snd kv)) wdict'.
Proof.
  intros Hw. induction years as [|year rest IH];
    intros Hpop cum wdict wdict' Hcum Hd H.
  - now injection H as <-.
  - simpl in H. bind_inv H as p1 Hp1. bind_inv H as p0 Hp0.
    bind_inv H as g Hg.
    apply getitem_pop_at in Hp1, Hp0. apply truediv_Ok in Hg as [-> _].
    destruct (Hpop year (or_introl eq_refl)) as [H1 H0].
    rewrite Hp1 in H1. rewrite Hp0 in H0.
    assert (Hg : 0 <= cum * (p1 / p0)).
    { apply Qmult_le_0_compat; [exact Hcum|].
      apply Qlt_le_weak. apply Qlt_shift_div_l; [exact H0|]. lra. }
    eapply IH; [| exact Hg | | exact H].
    + intros y Hy. apply Hpop. now right.
    + apply dict_set_Forall_snd; [exact Hd|].
      apply Forall_forall. intros x Hx. apply in_map_iff in Hx as [w [<- Hin]].
      rewrite Forall_forall in Hw. apply Qmult_le_0_compat; auto.
Qed.

(** Weights that are not negative and a forecast of positive populations
    give yearly weights none of which is negative. *)
Theorem yearly_weights_nonnegative :
  forall (first last : Z) (pop : Py.dict Z Q) (wght_area : list Q)
         (wdict : Py.dict string (list Q)),
    yearly_weights first last pop wght_area = Ok wdict ->
    Forall (fun w => 0 <= w) wght_area ->
    (forall y, (first <= y <= last)%Z -> 0 < pop_at pop y) ->
    Forall (fun kv => Forall (fun x => 0 <= x) (snd kv)) wdict.
Proof.
  intros first last pop wght_area wdict H Hw Hpop. unfold yearly_weights in H.
  assert (Hw100 : Forall (fun w => 0 <= w) (map (fun w => w * 100) wght_area)).
  { apply Forall_forall. intros x Hx. apply in_map_iff in Hx as [w [<- Hin]].
    rewrite Forall_forall in Hw. specialize (Hw w Hin). lra. }
  eapply (years_loop_nonnegative pop _ _ Hw100); [| | |exact H].
  - intros y Hy. apply in_range_from in Hy. split; apply Hpop; lia.
  - lra.
  - repeat constructor. exact Hw100.
Qed.

Lemma yearly_weights_nonnegative_witness :
  Forall (fun kv => Forall (fun x => 0 <= x) (snd kv)) SampleForecast.wdict.
Proof.
  apply (yearly_weights_nonnegative FIRST_YEAR LAST_YEAR SampleForecast.pop
           Sample.wght).
  - vm_compute. reflexivity.
  - repeat constructor; vm_compute; discriminate.
  - intros y Hy. unfold FIRST_YEAR, LAST_YEAR in Hy.
    assert (Hcases : (y = 2021 \/ y = 2022 \/ y = 2023 \/ y = 2024 \/ y = 2025
                      \/ y = 2026 \/ y = 2027 \/ y = 2028 \/ y = 2029
                      \/ y = 2030 \/ y = 2031 \/ y = 2032 \/ y = 2033
                      \/ y = 2034)%Z) by lia.
    repeat (destruct Hcases as [->|Hcases]; [reflexivity|]).
    subst y. reflexivity.
Defined.

(* ================================================================= *)
(** ** [all_taxcalc_variables]: the cache file *)

(** A cache file that exists is used in place of Tax-Calculator and is
    left as it is; without one and without [write_cache] none is made;
    with [write_cache] the AGI array is saved before the weights are
    checked, so it is there even when the check then fails; and a run that
    wrote the cache and returned a table is repeated by any later run on
    that cache, whatever Tax-Calculator would do. *)
Theorem all_taxcalc_variables_cache :
  forall (taxcalc_agi : DataFrame -> result (list Q)) (infile : DataFrame),
    (forall agi wc taxcalc_agi',
        all_taxcalc_variables taxcalc_agi infile (Some agi) wc
        = all_taxcalc_variables taxcalc_agi' infile (Some agi) wc /\
        fst (all_taxcalc_variables taxcalc_agi infile (Some agi) wc) = Some agi)
    /\ fst (all_taxcalc_variables taxcalc_agi infile None false) = None
    /\ (forall agi,
          taxcalc_agi infile = Ok agi ->
          List.length agi = DF.len infile ->
          fst (all_taxcalc_variables taxcalc_agi infile None true) = Some agi)
    /\ (forall cache' vdf,
          all_taxcalc_variables taxcalc_agi infile None true = (cache', Ok vdf) ->
          forall taxcalc_agi' wc,
            all_taxcalc_variables taxcalc_agi' infile cache' wc
            = (cache', Ok vdf)).
Proof.
  intros taxcalc_agi infile. split; [|split; [|split]].
  - intros agi wc taxcalc_agi'. split; reflexivity.
  - unfold all_taxcalc_variables.
    destruct (taxcalc_agi infile) as [agi|e]; [|reflexivity].
    destruct (DF.setitem infile "c00100" agi); reflexivity.
  - intros agi Hagi Hlen. unfold all_taxcalc_variables. rewrite Hagi.
    destruct (setitem_length_ok infile "c00100" agi Hlen) as [vdf Hset].
    rewrite Hset. reflexivity.
  - intros cache' vdf H taxcalc_agi' wc. unfold all_taxcalc_variables in H.
    destruct (taxcalc_agi infile) as [agi|e]; [|discriminate H].
    destruct (DF.setitem infile "c00100" agi) as [vdf0|e] eqn:Hset;
      [|discriminate H].
    injection H as <- H. unfold all_taxcalc_variables.
    rewrite Hset. simpl. now rewrite H.
Qed.

Example all_taxcalc_variables_cache_sample :
  let first_run :=
    all_taxcalc_variables (fun _ => Ok [50000; 15000; -200]) Sample.vardf
      None true in
  fst first_run = Some [50000; 15000; -200] /\
  returns (snd first_run) /\
  all_taxcalc_variables (fun _ => Raise ValueError) Sample.vardf
    (fst first_run) false = first_run.
Proof. repeat split. eexists. reflexivity. Qed.

(* ================================================================= *)
(** ** [target_misses]: the report *)

Lemma filter_map_S (f : nat -> bool) (l : list nat) :
  filter f (map S l) = map S (filter (fun j => f (S j)) l).
Proof.
  induction l as [|x l IH]; simpl; [reflexivity|].
  destruct (f (S x)); simpl; now rewrite IH.
Qed.

Lemma miss_lines_indices (lob hib : Q) (tratio : list Q) :
  forall tnum,
    miss_lines lob hib tnum tratio
    = map (fun j => mk_MissLine (tnum + Z.of_nat j + 1) (nth j tratio 0) lob hib)
        (filter (fun j => outside_band lob hib (nth j tratio 0))
           (seq 0 (List.length tratio))).
Proof.
  induction tratio as [|r rest IH]; intros tnum; [reflexivity|].
  cbn [miss_lines List.length]. rewrite <- cons_seq, <- seq_shift.
  cbn [filter nth]. rewrite filter_map_S, IH.
  assert (Htail :
    map (fun j => mk_MissLine (tnum + 1 + Z.of_nat j + 1) (nth j rest 0) lob hib)
      (filter (fun j => outside_band lob hib (nth j rest 0))
         (seq 0 (List.length rest)))
    = map (fun j => mk_MissLine (tnum + Z.of_nat j + 1) (nth j (r :: rest) 0)
                      lob hib)
        (map S (filter (fun j => outside_band lob hib (nth (S j) (r :: rest) 0))
                  (seq 0 (List.length rest))))).
  { rewrite map_map. apply map_ext. intros j. cbn [nth]. f_equal. lia. }
  destruct (outside_band lob hib r); cbn [map]; rewrite Htail;
    [f_equal; f_equal; lia | reflexivity].
Qed.

Section MissReport.

Variables (wght : list Q) (M : ndarray2) (b : list Q).
Hypothesis Hshape : well_shaped M.
Hypothesis Hwght : List.length wght = nrow M.
Hypothesis Hb : List.length b = ncol M.

Lemma target_misses_tol_ratios (tol : Q) :
  exists tratio,
    List.length tratio = ncol M /\
    (forall j, (j < ncol M)%nat -> nth j tratio 0 == achieved_ratio wght M b j) /\
    target_misses_tol tol wght M b
    = Ok (count_true (map (outside_band (1 - tol) (1 + tol)) tratio),
          miss_lines (1 - tol) (1 + tol) 0 tratio).
Proof.
  unfold target_misses_tol, dot_vm, broadcast2.
  rewrite Hwght, Nat.eqb_refl. cbn [bind].
  rewrite length_map, length_seq, Hb, Nat.eqb_refl. cbn [bind].
  set (actual := map _ (seq 0 (ncol M))).
  set (tratio := zipWith Qdiv actual b).
  assert (Hactual : List.length actual = ncol M)
    by (unfold actual; now rewrite length_map, length_seq).
  assert (Htratio : List.length tratio = ncol M)
    by (unfold tratio; rewrite length_zipWith; lia).
  exists tratio. split; [exact Htratio|]. split.
  - intros j Hj. unfold tratio.
    rewrite (nth_zipWith Qdiv _ _ j 0 0 0) by lia.
    unfold actual. rewrite (nth_map_lt _ _ _ O) by (now rewrite length_seq).
    rewrite seq_nth by exact Hj. simpl. unfold achieved_ratio.
    apply Qdiv_comp; [|reflexivity]. apply (dot_column wght M b); assumption.
  - f_equal. f_equal.
    destruct (0 <? count_true _)%nat eqn:E; [reflexivity|].
    apply Nat.ltb_ge in E.
    pose proof (length_miss_lines (1 - tol) (1 + tol) tratio 0) as Hlen.
    destruct (miss_lines (1 - tol) (1 + tol) 0 tratio); [reflexivity|].
    simpl in Hlen. lia.
Qed.

End MissReport.

(** On nonzero targets, the report of [target_misses] has one line for
    every missed target and none for the others, in the order of the
    targets and numbered from 1; a line carries the ratio of its target
    and the two bounds. *)
Theorem target_misses_report :
  forall (tol : Q) (wght : list Q) (M : ndarray2) (b : list Q)
         (num : nat) (mstr : list MissLine),
    well_shaped M ->
    List.length wght = nrow M ->
    List.length b = ncol M ->
    Forall (fun t => ~ t == 0) b ->
    target_misses_tol tol wght M b = Ok (num, mstr) ->
    map miss_tnum mstr
    = map (fun j => (Z.of_nat j + 1)%Z)
        (filter (fun j => outside_tolerance tol (achieved_ratio wght M b j))
           (seq 0 (ncol M))) /\
    Forall (fun line =>
              miss_lob line = 1 - tol /\ miss_hib line = 1 + tol /\
              miss_ratio line
              == achieved_ratio wght M b (Z.to_nat (miss_tnum line - 1)))
      mstr.
Proof.
  intros tol wght M b num mstr Hshape Hwght Hb _ H.
  destruct (target_misses_tol_ratios wght M b Hshape Hwght Hb tol)
    as (tratio & Hlen & Hratio & Hrun).
  rewrite Hrun in H. injection H as _ <-.
  rewrite miss_lines_indices, Hlen.
  assert (Hsame : forall j, (j < ncol M)%nat ->
            outside_band (1 - tol) (1 + tol) (nth j tratio 0)
            = outside_tolerance tol (achieved_ratio wght M b j)).
  { intros j Hj. unfold outside_tolerance.
    apply outside_band_compat. now apply Hratio. }
  split.
  - rewrite map_map. cbn [miss_tnum].
    rewrite (filter_ext_in _
               (fun j => outside_tolerance tol (achieved_ratio wght M b j))).
    + apply map_ext. intros j. lia.
    + intros j Hj. apply in_seq in Hj. apply Hsame. lia.
  - apply Forall_forall. intros line Hin.
    apply in_map_iff in Hin as (j & <- & Hj).
    apply filter_In in Hj as [Hj _]. apply in_seq in Hj.
    cbn [miss_lob miss_hib miss_ratio miss_tnum].
    repeat split.
    replace (Z.to_nat (0 + Z.of_nat j + 1 - 1)) with j by lia.
    apply Hratio. lia.
Qed.

Lemma target_misses_report_witness :
  map miss_tnum
    [mk_MissLine 1 (28561 # 28561) 1 1; mk_MissLine 2 1 1 1]
  = map (fun j => (Z.of_nat j + 1)%Z)
      (filter (fun j => outside_tolerance 0
                          (achieved_ratio Sample.wght Sample.target_matrix
                             Sample.target_array j))
         (seq 0 (ncol Sample.target_matrix))) /\
  Forall (fun line =>
            miss_lob line = 1 - 0 /\ miss_hib line = 1 + 0 /\
            miss_ratio line
            == achieved_ratio Sample.wght Sample.target_matrix
                 Sample.target_array (Z.to_nat (miss_tnum line - 1)))
    [mk_MissLine 1 (28561 # 28561) 1 1; mk_MissLine 2 1 1 1].
Proof.
  apply (target_misses_report 0 Sample.wght Sample.target_matrix
           Sample.target_array 2).
  - split; [reflexivity|]. repeat constructor.
  - reflexivity.
  - reflexivity.
  - repeat constructor; intros H; vm_compute in H; discriminate H.
  - reflexivity.
Defined.

(* ================================================================= *)
(** ** The distribution reports *)

Lemma qleb_false (x y : Q) : qleb x y = false <-> y < x.
Proof.
  unfold qleb. rewrite <- not_true_iff_false, Qle_bool_iff. split.
  - apply Qnot_le_lt.
  - apply Qlt_not_le.
Qed.

Ltac q_cases :=
  repeat match goal with
    | H : context [qleb ?x ?y] |- _ =>
        let E := fresh "E" in
        destruct (qleb x y) eqn:E;
        [apply qleb_true in E | apply qleb_false in E]
    | H : context [qltb ?x ?y] |- _ =>
        let E := fresh "E" in
        destruct (qltb x y) eqn:E;
        [apply qltb_true in E | apply qltb_false in E]
    | |- context [qleb ?x ?y] =>
        let E := fresh "E" in
        destruct (qleb x y) eqn:E;
        [apply qleb_true in E | apply qleb_false in E]
    | |- context [qltb ?x ?y] =>
        let E := fresh "E" in
        destruct (qltb x y) eqn:E;
        [apply qltb_true in E | apply qltb_false in E]
    end;
  simpl in *; try reflexivity; try discriminate; try (exfalso; lra).

Lemma edge_ltb_leb (a b : edge) : edge_ltb a b = true -> edge_leb a b = true.
Proof.
  unfold edge_leb. destruct a as [x|], b as [y|]; simpl; intros H;
    try reflexivity; try discriminate.
  q_cases.
Qed.

Lemma edge_leb_refl (a : edge) : edge_leb a a = true.
Proof. unfold edge_leb. destruct a as [x|]; simpl; [|reflexivity]. q_cases. Qed.

Lemma edge_leb_trans (a b c : edge) :
  edge_leb a b = true -> edge_leb b c = true -> edge_leb a c = true.
Proof.
  unfold edge_leb.
  destruct a as [x|], b as [y|], c as [z|]; simpl; intros H1 H2;
    try reflexivity; try discriminate.
  q_cases.
Qed.

Lemma in_interval_split (a b c : edge) (v : Q) :
  edge_leb a b = true -> edge_leb b c = true ->
  in_interval a c v = in_interval a b v || in_interval b c v.
Proof.
  unfold edge_leb, in_interval.
  destruct a as [x|], b as [y|], c as [z|]; simpl; intros H1 H2;
    try reflexivity; try discriminate; q_cases.
Qed.

Lemma in_interval_disjoint (a b c : edge) (v : Q) :
  in_interval a b v = true -> in_interval b c v = false.
Proof.
  unfold in_interval.
  destruct a as [x|], b as [y|], c as [z|]; simpl; intros H;
    try reflexivity; try discriminate; q_cases.
Qed.

Lemma count_in_split (a b c : edge) (ratio : list Q) :
  edge_leb a b = true -> edge_leb b c = true ->
  count_in a c ratio = (count_in a b ratio + count_in b c ratio)%nat.
Proof.
  intros Hab Hbc. unfold count_in.
  induction ratio as [|v rest IH]; [reflexivity|]. simpl.
  rewrite (in_interval_split a b c v Hab Hbc).
  destruct (in_interval a b v) eqn:E1.
  - rewrite (in_interval_disjoint a b c v E1). simpl. now rewrite IH.
  - destruct (in_interval b c v); simpl; rewrite IH; lia.
Qed.

Lemma count_in_empty (a : edge) (ratio : list Q) : count_in a a ratio = O.
Proof.
  unfold count_in. induction ratio as [|v rest IH]; [reflexivity|]. simpl.
  replace (in_interval a a v) with false; [exact IH|].
  unfold in_interval. destruct a as [x|]; simpl; [|reflexivity]. q_cases.
Qed.

Lemma count_in_le_length (a b : edge) (ratio : list Q) :
  (count_in a b ratio <= List.length ratio)%nat.
Proof. unfold count_in. apply filter_length_le. Qed.

Lemma count_in_le_count_from (b0 a : edge) (ratio : list Q) :
  (count_in b0 a ratio <= count_from b0 ratio)%nat.
Proof.
  unfold count_from, count_in.
  induction ratio as [|v rest IH]; [simpl; lia|]. simpl.
  destruct (in_interval b0 a v) eqn:E.
  - replace (in_interval b0 Infinity v) with true; [simpl; lia|].
    unfold in_interval in *. apply andb_true_iff in E. destruct E as [E _].
    rewrite E. reflexivity.
  - destruct (in_interval b0 Infinity v); simpl; lia.
Qed.

Lemma in_interval_from (b0 v : Q) :
  in_interval (Finite b0) Infinity v = qleb b0 v.
Proof. unfold in_interval. simpl. apply andb_true_r. Qed.

Lemma count_from_all (b0 : Q) (ratio : list Q) :
  count_from (Finite b0) ratio = List.length ratio
  <-> Forall (fun r => b0 <= r) ratio.
Proof.
  unfold count_from, count_in.
  induction ratio as [|v rest IH].
  - split; [constructor|reflexivity].
  - pose proof (filter_length_le (in_interval (Finite b0) Infinity) rest) as Hle.
    cbn [filter]. rewrite in_interval_from.
    destruct (qleb b0 v) eqn:E; cbn [List.length].
    + apply qleb_true in E. split.
      * intros H. constructor; [exact E|]. apply IH. lia.
      * intros H. inversion H; subst. f_equal. now apply IH.
    + apply qleb_false in E. split.
      * intros H. lia.
      * intros H. inversion H; subst. lra.
Qed.

Lemma count_from_none (b0 : Q) (ratio : list Q) :
  count_from (Finite b0) ratio = O <-> Forall (fun r => r < b0) ratio.
Proof.
  unfold count_from, count_in.
  induction ratio as [|v rest IH].
  - split; [constructor|reflexivity].
  - cbn [filter]. rewrite in_interval_from.
    destruct (qleb b0 v) eqn:E; cbn [List.length].
    + apply qleb_true in E. split.
      * intros H. discriminate.
      * intros H. inversion H; subst. lra.
    + apply qleb_false in E. split.
      * intros H. constructor; [exact E|]. now apply IH.
      * intros H. inversion H; subst. now apply IH.
Qed.

Lemma int_truediv_Ok (num tot : nat) :
  tot <> O -> int_truediv num tot = Ok (share num tot).
Proof.
  intros H. unfold int_truediv. apply Nat.eqb_neq in H. now rewrite H.
Qed.

Section DistributionLoop.

Variables (b0 : edge) (ratio : list Q).

Let tot := List.length ratio.
Let counts (bins : list edge) :=
  map (fun i => (fst i, snd i, count_in (fst i) (snd i) ratio)) (intervals bins).

Lemma distribution_loop_lines (rest : list edge) :
  forall (a : edge) (cum : nat),
    increasing (a :: rest) = true ->
    edge_leb b0 a = true ->
    cum = count_in b0 a ratio ->
    exists lines,
      distribution_loop tot (counts (a :: rest)) cum = Ok lines /\
      Forall (line_reads b0 ratio) lines /\
      (total_num lines + cum)%nat = final_cum cum lines /\
      (final_cum cum lines = tot \/
       final_cum cum lines = count_in b0 (last rest a) ratio).
Proof.
  induction rest as [|b rest IH]; intros a cum Hinc Hle Hcum.
  - exists []. simpl.
    split; [reflexivity|]. split; [constructor|]. split; [reflexivity|].
    right. exact Hcum.
  - change (increasing (a :: b :: rest))
      with (edge_ltb a b && increasing (b :: rest)) in Hinc.
    apply andb_true_iff in Hinc. destruct Hinc as [Hab Hinc].
    apply edge_ltb_leb in Hab.
    assert (Hb : edge_leb b0 b = true) by (eapply edge_leb_trans; eassumption).
    assert (Hcum' : (cum + count_in a b ratio)%nat = count_in b0 b ratio)
      by (rewrite Hcum; symmetry; now apply count_in_split).
    destruct (IH b _ Hinc Hb Hcum') as (lines & Hrun & Hall & Hsum & Hfin).
    change (counts (a :: b :: rest))
      with ((a, b, count_in a b ratio) :: counts (b :: rest)).
    cbn [distribution_loop].
    rewrite last_cons_default.
    destruct (cum + count_in a b ratio =? 0)%nat eqn:E0.
    + apply Nat.eqb_eq in E0.
      exists lines. rewrite Hrun.
      rewrite E0 in Hsum, Hfin.
      replace cum with O by lia.
      split; [reflexivity|]. split; [exact Hall|]. split; assumption.
    + apply Nat.eqb_neq in E0.
      pose proof (count_in_le_length b0 b ratio) as Hlen. fold tot in Hlen.
      assert (Htot : tot <> O) by lia.
      rewrite !int_truediv_Ok by exact Htot. cbn [bind].
      set (line := mk_HistLine _ _ _ _ _ _).
      assert (Hline : line_reads b0 ratio line).
      { unfold line_reads, line. simpl. fold tot.
        repeat split; try reflexivity; lia. }
      destruct (cum + count_in a b ratio =? tot)%nat eqn:Et.
      * apply Nat.eqb_eq in Et. exists [line].
        split; [reflexivity|]. split; [now constructor|].
        unfold final_cum. simpl. split; [lia|]. left. exact Et.
      * rewrite Hrun. cbn [bind]. exists (line :: lines).
        split; [reflexivity|]. split; [now constructor|].
        assert (Hlast : final_cum cum (line :: lines)
                        = final_cum (cum + count_in a b ratio) lines).
        { unfold final_cum. cbn [map]. now rewrite last_cons_default. }
        rewrite Hlast. split; [|exact Hfin].
        simpl. rewrite <- Hsum. lia.
Qed.

End DistributionLoop.

Lemma final_cum_positive (b0 : edge) (ratio : list Q) (lines : list HistLine) :
  forall start,
    lines <> [] -> Forall (line_reads b0 ratio) lines ->
    (0 < final_cum start lines)%nat.
Proof.
  induction lines as [|l lines IH]; intros start Hne Hall; [congruence|].
  apply Forall_cons_iff in Hall as [Hl Hall].
  unfold final_cum. cbn [map]. rewrite last_cons_default.
  destruct lines as [|l' lines].
  - simpl. destruct Hl as (_ & _ & Hpos & _). lia.
  - apply (IH (line_cum l)); [discriminate|exact Hall].
Qed.

(** The lines of a distribution over bins that start at a number and
    end at infinity. *)
Lemma ratio_distribution_lines (b0 : Q) (rest : list edge) (ratio : list Q) :
  increasing (Finite b0 :: rest) = true ->
  last rest (Finite b0) = Infinity ->
  exists lines,
    ratio_distribution (Finite b0 :: rest) ratio = Ok lines /\
    Forall (line_reads (Finite b0) ratio) lines /\
    total_num lines = count_from (Finite b0) ratio /\
    final_cum 0 lines = count_from (Finite b0) ratio /\
    (final_cum 0 lines = List.length ratio
     <-> Forall (fun r => b0 <= r) ratio) /\
    (lines = [] <-> Forall (fun r => r < b0) ratio).
Proof.
  intros Hinc Hlast.
  destruct (distribution_loop_lines (Finite b0) ratio rest (Finite b0) O Hinc
              (edge_leb_refl _) (eq_sym (count_in_empty _ _)))
    as (lines & Hrun & Hall & Hsum & Hfin).
  rewrite Hlast in Hfin. fold (count_from (Finite b0) ratio) in Hfin.
  assert (Hcum : final_cum 0 lines = count_from (Finite b0) ratio).
  { destruct Hfin as [Hfin|Hfin]; [|exact Hfin].
    pose proof (count_in_le_length (Finite b0) Infinity ratio) as H1.
    fold (count_from (Finite b0) ratio) in H1.
    assert (H2 : (final_cum 0 lines <= count_from (Finite b0) ratio)%nat).
    { destruct lines as [|l lines]; [unfold final_cum; simpl; lia|].
      assert (Hin : exists l', In l' (l :: lines)
                               /\ final_cum 0 (l :: lines) = line_cum l').
      { clear. unfold final_cum. generalize O.
        revert l. induction lines as [|l' lines IH]; intros l n.
        - exists l. split; [now left|reflexivity].
        - cbn [map]. rewrite last_cons_default.
          destruct (IH l' (line_cum l)) as (l'' & Hin & Heq).
          exists l''. split; [now right|exact Heq]. }
      destruct Hin as (l' & Hin & ->).
      rewrite Forall_forall in Hall.
      destruct (Hall l' Hin) as (_ & -> & _).
      apply count_in_le_count_from. }
    lia. }
  exists lines. unfold ratio_distribution, cut_counts. rewrite Hinc.
  cbn [bind]. split; [exact Hrun|]. split; [exact Hall|].
  split; [lia|]. split; [exact Hcum|]. split.
  - rewrite Hcum. apply count_from_all.
  - rewrite <- count_from_none, <- Hcum. split.
    + intros ->. reflexivity.
    + intros H0. destruct lines as [|l lines]; [reflexivity|].
      pose proof (final_cum_positive (Finite b0) ratio (l :: lines) O
                    ltac:(discriminate) Hall). lia.
Qed.

Lemma Forall_equiv {A} (P P' : A -> Prop) (l : list A) :
  (forall a, P a <-> P' a) -> Forall P l <-> Forall P' l.
Proof.
  intros H. split; apply Forall_impl; intros a; apply H.
Qed.

Lemma qsum_squares_nonneg (l : list Q) : 0 <= qsum (map square l).
Proof.
  induction l as [|v l IH]; simpl; [lra|].
  pose proof (square_nonneg v). lra.
Qed.

Lemma square_zero (v : Q) : square v == 0 <-> v == 0.
Proof. unfold square. split; intros H; nra. Qed.

Lemma qsum_squares_zero (l : list Q) :
  qsum (map square l) == 0 <-> Forall (fun v => v == 0) l.
Proof.
  induction l as [|v l IH]; simpl.
  - split; [constructor|reflexivity].
  - pose proof (square_nonneg v). pose proof (qsum_squares_nonneg l).
    split.
    + intros H1. constructor.
      * apply square_zero. lra.
      * apply IH. lra.
    + intros H1. inversion H1 as [|? ? Hv Hl]; subst.
      apply (proj2 (square_zero _)) in Hv. apply IH in Hl. lra.
Qed.

(** [weight_ratio_distribution] raises on no array of ratios, the
    empty one included.  Every line it writes has a positive cumulative
    count; its count is the number of ratios in its bin, its cumulative
    count the number of ratios from 0 up to the right edge of its bin,
    and its shares are these counts over the number of ratios.  The
    counts of the lines add up to the number of ratios that are not
    negative, which is also the last cumulative count; so the last line
    reaches all the ratios exactly when none is negative, and no line is
    written exactly when all are.  The sum of squared deviations written
    at the end is not negative, and is zero exactly when every ratio is
    one. *)
Theorem weight_ratio_distribution_report (ratio : list Q) :
  exists lines ssqdev,
    weight_ratio_distribution ratio = Ok (lines, ssqdev) /\
    Forall (line_reads (Finite 0.0) ratio) lines /\
    total_num lines = count_from (Finite 0.0) ratio /\
    final_cum 0 lines = count_from (Finite 0.0) ratio /\
    (final_cum 0 lines = List.length ratio
     <-> Forall (fun r => 0 <= r) ratio) /\
    (lines = [] <-> Forall (fun r => r < 0) ratio) /\
    0 <= ssqdev /\
    (ssqdev == 0 <-> Forall (fun r => r == 1) ratio).
Proof.
  destruct (ratio_distribution_lines 0.0 (tl WEIGHT_RATIO_BINS) ratio
              eq_refl eq_refl)
    as (lines & Hrun & Hall & Hnum & Hcum & Hfull & Hnone).
  change (Finite 0.0 :: tl WEIGHT_RATIO_BINS) with WEIGHT_RATIO_BINS in Hrun.
  exists lines, (qsum (map square (map (fun r => r - 1) ratio))).
  unfold weight_ratio_distribution. rewrite Hrun. cbn [bind].
  split; [reflexivity|]. split; [exact Hall|]. split; [exact Hnum|].
  split; [exact Hcum|]. split; [|split; [|split]].
  - rewrite Hfull. apply Forall_equiv. intros r.
    change (0.0 <= r) with (0 # 10 <= r). split; intros H; lra.
  - rewrite Hnone. apply Forall_equiv. intros r.
    change (r < 0.0) with (r < 0 # 10). split; intros H; lra.
  - apply qsum_squares_nonneg.
  - rewrite qsum_squares_zero, Forall_map. apply Forall_equiv.
    intros r. split; intros H; lra.
Qed.

(* ================================================================= *)
(** ** [target_rmse] *)

Lemma Q2R_zero : Q2R 0 = 0%R.
Proof. unfold Q2R. simpl. apply Rmult_0_l. Qed.

Lemma sqrt_Q2R_zero (m : Q) : 0 <= m -> sqrt (Q2R m) = 0%R <-> m == 0.
Proof.
  intros Hm. split.
  - intros H. apply eqR_Qeq. rewrite Q2R_zero.
    apply sqrt_eq_0; [|exact H].
    rewrite <- Q2R_zero. now apply Qle_Rle.
  - intros H. rewrite (Qeq_eqR _ _ H), Q2R_zero. apply sqrt_0.
Qed.

Lemma bigsum_zero (n : nat) (f : nat -> Q) :
  (forall i, (i < n)%nat -> 0 <= f i) ->
  bigsum n f == 0 <-> (forall i, (i < n)%nat -> f i == 0).
Proof.
  induction n as [|n IH]; intros Hf; simpl.
  - split; [intros _ i Hi; lia|reflexivity].
  - assert (Hn : 0 <= f n) by (apply Hf; lia).
    assert (Hs : 0 <= bigsum n f) by (apply bigsum_nonneg; intros; apply Hf; lia).
    assert (IH' := IH ltac:(intros; apply Hf; lia)).
    split.
    + intros H i Hi. destruct (Nat.eq_dec i n) as [->|Hne]; [lra|].
      apply IH'; [lra|lia].
    + intros H. assert (f n == 0) by (apply H; lia).
      assert (bigsum n f == 0) by (apply IH'; intros; apply H; lia). lra.
Qed.

Lemma bigcount_none (n : nat) (p : nat -> bool) :
  (forall i, (i < n)%nat -> p i = false) -> bigcount n p = O.
Proof.
  induction n as [|n IH]; intros H; simpl; [reflexivity|].
  rewrite IH by (intros; apply H; lia). now rewrite (H n) by lia.
Qed.

Lemma broadcast2_returns_shape (e e' : exn) (f g : Q -> Q -> Q) (a b : list Q) :
  returns (broadcast2 e f a b) -> returns (broadcast2 e' g a b).
Proof.
  unfold broadcast2. destruct (List.length a =? List.length b)%nat.
  - intros _. eexists. reflexivity.
  - destruct a as [|x [|x' a]], b as [|y [|y' b]]; intros [v Hv];
      try discriminate; eexists; reflexivity.
Qed.

Lemma outside_band_in_interval (lob hib lob' hib' r : Q) :
  lob == lob' -> hib == hib' ->
  outside_band lob hib r = negb (in_interval (Finite lob') (Finite hib') r).
Proof.
  intros Hl Hh. unfold outside_band, in_interval. simpl. q_cases.
Qed.

Lemma misses_and_hits (lob hib lob' hib' : Q) (tratio : list Q) :
  lob == lob' -> hib == hib' ->
  (count_true (map (outside_band lob hib) tratio)
   + count_in (Finite lob') (Finite hib') tratio)%nat
  = List.length tratio.
Proof.
  intros Hl Hh. unfold count_in.
  induction tratio as [|r rest IH]; [reflexivity|]. simpl.
  rewrite (outside_band_in_interval lob hib lob' hib' r Hl Hh).
  destruct (in_interval (Finite lob') (Finite hib') r); simpl; lia.
Qed.

Section TargetRmse.

Variables (wght : list Q) (M : ndarray2) (b : list Q).
Hypothesis Hshape : well_shaped M.
Hypothesis Hwght : List.length wght = nrow M.
Hypothesis Hb : List.length b = ncol M.

Let actual := map (fun j => qsum (zipWith Qmult wght (column2 M j)))
                (seq 0 (ncol M)).

Lemma length_actual : List.length actual = ncol M.
Proof. unfold actual. now rewrite length_map, length_seq. Qed.

Lemma nth_actual (j : nat) :
  (j < ncol M)%nat -> nth j actual 0 == achieved_value wght M j.
Proof.
  intros Hj. unfold actual.
  rewrite (nth_map_lt _ _ _ O) by (now rewrite length_seq).
  rewrite seq_nth by exact Hj. simpl.
  apply (dot_column wght M b); assumption.
Qed.

Lemma target_deviations_value :
  target_deviations wght M b
  = Ok (zipWith Qminus actual b, zipWith Qdiv actual b).
Proof.
  unfold target_deviations, dot_vm, broadcast2.
  rewrite Hwght, Nat.eqb_refl. cbn [bind]. fold actual.
  rewrite length_actual, Hb, Nat.eqb_refl. reflexivity.
Qed.

Lemma target_misses_value :
  exists mstr,
    target_misses wght M b
    = Ok (count_true (map (outside_band (1 - TARGET_RATIO_TOLERANCE)
                             (1 + TARGET_RATIO_TOLERANCE))
                        (zipWith Qdiv actual b)), mstr).
Proof.
  unfold target_misses, target_misses_tol, dot_vm, broadcast2.
  rewrite Hwght, Nat.eqb_refl. cbn [bind]. fold actual.
  rewrite length_actual, Hb, Nat.eqb_refl. cbn [bind].
  eexists. reflexivity.
Qed.

Lemma squared_deviations_sum :
  qsum (map square (zipWith Qminus actual b))
  == bigsum (ncol M)
       (fun j => square (achieved_value wght M j - nth j b 0)).
Proof.
  rewrite qsum_bigsum, length_map, length_zipWith, length_actual, Hb,
    Nat.min_id.
  apply bigsum_ext. intros j Hj.
  rewrite (nth_map_lt _ _ _ 0)
    by (rewrite length_zipWith, length_actual, Hb; lia).
  apply square_compat.
  rewrite (nth_zipWith Qminus _ _ j 0 0 0)
    by (rewrite ?length_actual, ?Hb; lia).
  now rewrite nth_actual.
Qed.

Lemma qmean_squared_deviations :
  qmean (map square (zipWith Qminus actual b))
  == mean_squared_deviation wght M b.
Proof.
  unfold qmean, mean_squared_deviation.
  rewrite squared_deviations_sum, length_map, length_zipWith, length_actual,
    Hb, Nat.min_id. reflexivity.
Qed.

Lemma mean_squared_deviation_nonneg : 0 <= mean_squared_deviation wght M b.
Proof.
  unfold mean_squared_deviation.
  assert (H1 : 0 <= bigsum (ncol M)
                 (fun j => square (achieved_value wght M j - nth j b 0)))
    by (apply bigsum_nonneg; intros; apply square_nonneg).
  destruct (ncol M) as [|n].
  - simpl. unfold Qdiv. rewrite Qmult_0_l. lra.
  - apply Qle_shift_div_l; [|lra].
    change 0 with (inject_Z 0). rewrite <- Zlt_Qlt. lia.
Qed.

Lemma mean_squared_deviation_zero :
  (0 < ncol M)%nat ->
  mean_squared_deviation wght M b == 0
  <-> (forall j, (j < ncol M)%nat -> achieved_value wght M j == nth j b 0).
Proof.
  intros Hn. unfold mean_squared_deviation.
  set (s := bigsum _ _).
  assert (Hd : 0 < inject_Z (Z.of_nat (ncol M)))
    by (change 0 with (inject_Z 0); rewrite <- Zlt_Qlt; lia).
  assert (Hs : s / inject_Z (Z.of_nat (ncol M)) == 0 <-> s == 0).
  { split; intros H.
    - assert (H' : s == s / inject_Z (Z.of_nat (ncol M))
                        * inject_Z (Z.of_nat (ncol M)))
        by (field; lra).
      rewrite H' , H. ring.
    - rewrite H. field. lra. }
  rewrite Hs. unfold s.
  rewrite bigsum_zero by (intros; apply square_nonneg).
  split; intros H j Hj.
  - specialize (H j Hj). apply (proj1 (square_zero _)) in H. lra.
  - apply square_zero. rewrite (H j Hj). ring.
Qed.

End TargetRmse.

(** On weights, a matrix and nonzero targets of matching shapes,
    [target_rmse] returns.  The ratios it bins are the
    achieved/expected ratios of the targets, one per target; every line
    it writes has a positive cumulative count, the number of ratios in
    its bin, the number of ratios from 0 up to the right edge of its
    bin, and these two over the number of targets; the last line reaches
    all the targets exactly when no ratio is negative.  A line written
    for the bin from [1 - TARGET_RATIO_TOLERANCE] to
    [1 + TARGET_RATIO_TOLERANCE] shows the targets [target_misses] does
    not count: its count and the number of misses add up to the number
    of targets. *)
Theorem target_rmse_lines :
  forall (wght : list Q) (M : ndarray2) (b : list Q),
    well_shaped M ->
    List.length wght = nrow M ->
    List.length b = ncol M ->
    Forall (fun t => ~ t == 0) b ->
    exists dev ratio lines rmse,
      target_deviations wght M b = Ok (dev, ratio) /\
      target_rmse wght M b = Ok (lines, rmse) /\
      List.length ratio = ncol M /\
      (forall j, (j < ncol M)%nat ->
                 nth j ratio 0 == achieved_ratio wght M b j) /\
      Forall (line_reads (Finite 0.0) ratio) lines /\
      (final_cum 0 lines = ncol M <-> Forall (fun r => 0 <= r) ratio) /\
      (forall l,
          In l lines ->
          line_left l = Finite (1.0 - TARGET_RATIO_TOLERANCE) ->
          line_right l = Finite (1.0 + TARGET_RATIO_TOLERANCE) ->
          exists misses mstr,
            target_misses wght M b = Ok (misses, mstr) /\
            (misses + line_num l)%nat = ncol M).
Proof.
  intros wght M b Hshape Hwght Hb _.
  pose proof (target_deviations_value wght M b Hwght Hb) as Hdev.
  cbv zeta in Hdev.
  set (actual := map (fun j => qsum (zipWith Qmult wght (column2 M j)))
                   (seq 0 (ncol M))) in Hdev.
  assert (Hactual : List.length actual = ncol M)
    by (unfold actual; now rewrite length_map, length_seq).
  set (ratio := zipWith Qdiv actual b) in *.
  assert (Hratio : List.length ratio = ncol M)
    by (unfold ratio; rewrite length_zipWith; lia).
  destruct (ratio_distribution_lines 0.0 (tl TARGET_RATIO_BINS) ratio
              eq_refl eq_refl)
    as (lines & Hrun & Hall & _ & _ & Hfull & _).
  change (Finite 0.0 :: tl TARGET_RATIO_BINS) with TARGET_RATIO_BINS in Hrun.
  exists (zipWith Qminus actual b), ratio, lines,
    (sqrt (Q2R (qmean (map square (zipWith Qminus actual b))))).
  split; [exact Hdev|]. split.
  { unfold target_rmse. rewrite Hdev. cbn [bind]. now rewrite Hrun. }
  split; [exact Hratio|]. split.
  { intros j Hj. unfold ratio.
    rewrite (nth_zipWith Qdiv _ _ j 0 0 0) by lia.
    unfold achieved_ratio. apply Qdiv_comp; [|reflexivity].
    apply (nth_actual wght M b Hshape Hwght Hb j Hj). }
  split; [exact Hall|]. split.
  { rewrite <- Hratio, Hfull. apply Forall_equiv. intros r.
    change (0.0 <= r) with (0 # 10 <= r). split; intros H; lra. }
  intros l Hin Hleft Hright.
  destruct (target_misses_value wght M b Hwght Hb) as [mstr Hmiss].
  cbv zeta in Hmiss. fold actual in Hmiss. fold ratio in Hmiss.
  eexists. exists mstr. split; [exact Hmiss|].
  rewrite Forall_forall in Hall. destruct (Hall l Hin) as (Hnum & _).
  rewrite Hnum, Hleft, Hright, <- Hratio.
  apply misses_and_hits.
  - change (1.0) with (10 # 10). ring.
  - change (1.0) with (10 # 10). ring.
Qed.

Lemma target_rmse_lines_witness :
  exists dev ratio lines rmse,
    target_deviations Sample.wght Sample.target_matrix Sample.target_array
    = Ok (dev, ratio) /\
    target_rmse Sample.wght Sample.target_matrix Sample.target_array
    = Ok (lines, rmse) /\
    List.length ratio = ncol Sample.target_matrix /\
    (forall j, (j < ncol Sample.target_matrix)%nat ->
               nth j ratio 0
               == achieved_ratio Sample.wght Sample.target_matrix
                    Sample.target_array j) /\
    Forall (line_reads (Finite 0.0) ratio) lines /\
    (final_cum 0 lines = ncol Sample.target_matrix
     <-> Forall (fun r => 0 <= r) ratio) /\
    (forall l,
        In l lines ->
        line_left l = Finite (1.0 - TARGET_RATIO_TOLERANCE) ->
        line_right l = Finite (1.0 + TARGET_RATIO_TOLERANCE) ->
        exists misses mstr,
          target_misses Sample.wght Sample.target_matrix Sample.target_array
          = Ok (misses, mstr) /\
          (misses + line_num l)%nat = ncol Sample.target_matrix).
Proof.
  apply (target_rmse_lines Sample.wght Sample.target_matrix
           Sample.target_array).
  - split; [reflexivity|]. repeat constructor.
  - reflexivity.
  - reflexivity.
  - repeat constructor; intros H; vm_compute in H; discriminate H.
Defined.

(** On weights, a matrix with at least one target and nonzero
    targets of matching shapes, the value [target_rmse] returns is not
    negative, its square is the mean over the targets of the squared
    differences between achieved and target value, and it is zero
    exactly when the weights achieve every target; then [target_misses]
    counts no miss and reports none. *)
Theorem target_rmse_zero_iff :
  forall (wght : list Q) (M : ndarray2) (b : list Q),
    well_shaped M ->
    List.length wght = nrow M ->
    List.length b = ncol M ->
    (0 < ncol M)%nat ->
    Forall (fun t => ~ t == 0) b ->
    exists lines rmse,
      target_rmse wght M b = Ok (lines, rmse) /\
      (0 <= rmse)%R /\
      (rmse * rmse)%R = Q2R (mean_squared_deviation wght M b) /\
      (rmse = 0%R
       <-> forall j, (j < ncol M)%nat ->
                     achieved_value wght M j == nth j b 0) /\
      (rmse = 0%R -> target_misses wght M b = Ok (O, [])).
Proof.
  intros wght M b Hshape Hwght Hb Hn Hnz.
  pose proof (target_deviations_value wght M b Hwght Hb) as Hdev.
  pose proof (qmean_squared_deviations wght M b Hshape Hwght Hb) as Hmean.
  pose proof (mean_squared_deviation_nonneg wght M b Hwght Hb) as Hnonneg.
  pose proof (mean_squared_deviation_zero wght M b Hwght Hb Hn) as Hzero.
  cbv zeta in Hdev, Hmean.
  set (actual := map (fun j => qsum (zipWith Qmult wght (column2 M j)))
                   (seq 0 (ncol M))) in *.
  destruct (ratio_distribution_lines 0.0 (tl TARGET_RATIO_BINS)
              (zipWith Qdiv actual b) eq_refl eq_refl)
    as (lines & Hrun & _).
  change (Finite 0.0 :: tl TARGET_RATIO_BINS) with TARGET_RATIO_BINS in Hrun.
  exists lines, (sqrt (Q2R (qmean (map square (zipWith Qminus actual b))))).
  rewrite (Qeq_eqR _ _ Hmean).
  assert (Hiff : sqrt (Q2R (mean_squared_deviation wght M b)) = 0%R
                 <-> forall j, (j < ncol M)%nat ->
                               achieved_value wght M j == nth j b 0)
    by (rewrite (sqrt_Q2R_zero _ Hnonneg); exact Hzero).
  split.
  { unfold target_rmse. rewrite Hdev. cbn [bind]. rewrite Hrun. cbn [bind].
    now rewrite (Qeq_eqR _ _ Hmean). }
  split; [apply sqrt_pos|]. split.
  { apply sqrt_sqrt. rewrite <- Q2R_zero. now apply Qle_Rle. }
  split; [exact Hiff|].
  intros Hrmse. pose proof (proj1 Hiff Hrmse) as Hhit.
  destruct (target_misses_tol_value wght M b Hshape Hwght Hb
              TARGET_RATIO_TOLERANCE) as (mstr & Hmiss & Hlen).
  assert (Hcount : miss_count TARGET_RATIO_TOLERANCE wght M b = O).
  { unfold miss_count. apply bigcount_none. intros j Hj.
    assert (Hbj : ~ nth j b 0 == 0).
    { rewrite Forall_forall in Hnz. apply Hnz. apply nth_In. lia. }
    assert (Hone : achieved_ratio wght M b j == 1).
    { unfold achieved_ratio. fold (achieved_value wght M j).
      rewrite (Hhit j Hj). now field. }
    unfold outside_tolerance.
    change TARGET_RATIO_TOLERANCE with (5 # 10000). q_cases. }
  rewrite Hcount in Hmiss, Hlen.
  destruct mstr; [exact Hmiss|discriminate Hlen].
Qed.

Lemma target_rmse_zero_iff_witness :
  exists lines rmse,
    target_rmse Sample.wght Sample.target_matrix Sample.target_array
    = Ok (lines, rmse) /\
    (0 <= rmse)%R /\
    (rmse * rmse)%R
    = Q2R (mean_squared_deviation Sample.wght Sample.target_matrix
             Sample.target_array) /\
    (rmse = 0%R
     <-> forall j, (j < ncol Sample.target_matrix)%nat ->
                   achieved_value Sample.wght Sample.target_matrix j
                   == nth j Sample.target_array 0) /\
    (rmse = 0%R
     -> target_misses Sample.wght Sample.target_matrix Sample.target_array
        = Ok (O, [])).
Proof.
  apply (target_rmse_zero_iff Sample.wght Sample.target_matrix
           Sample.target_array).
  - split; [reflexivity|]. repeat constructor.
  - reflexivity.
  - reflexivity.
  - vm_compute. lia.
  - repeat constructor; intros H; vm_compute in H; discriminate H.
Defined.

(** The two reports fail only where the calculation they follow
    fails: [target_rmse] returns on exactly the arguments on which
    [target_misses] returns. *)
Theorem target_rmse_returns_iff (wght : list Q) (M : ndarray2) (b : list Q) :
  returns (target_rmse wght M b) <-> returns (target_misses wght M b).
Proof.
  unfold target_rmse, target_deviations, target_misses, target_misses_tol.
  destruct (dot_vm wght M) as [act|e]; cbn [bind].
  2:{ split; intros [v Hv]; discriminate Hv. }
  split.
  - intros [v Hv].
    destruct (broadcast2 ValueError Qminus act b) as [dev|e] eqn:E1;
      [|discriminate Hv].
    destruct (broadcast2_returns_shape ValueError ValueError Qminus Qdiv act b
                (ex_intro _ dev E1)) as [ratio ->].
    cbn [bind]. eexists. reflexivity.
  - intros [v Hv].
    destruct (broadcast2 ValueError Qdiv act b) as [ratio|e] eqn:E1;
      [|discriminate Hv].
    destruct (broadcast2_returns_shape ValueError ValueError Qdiv Qminus act b
                (ex_intro _ ratio E1)) as [dev ->].
    cbn [bind].
    destruct (ratio_distribution_lines 0.0 (tl TARGET_RATIO_BINS) ratio
                eq_refl eq_refl) as (lines & Hrun & _).
    change (Finite 0.0 :: tl TARGET_RATIO_BINS) with TARGET_RATIO_BINS in Hrun.
    rewrite Hrun. cbn [bind]. eexists. reflexivity.
Qed.

(* ================================================================= *)
(** ** The objective and the two reports *)

Section ObjectiveOfAreaWeights.

Variables (x wght_us : list Q) (M : ndarray2) (b : list Q).
Hypothesis Hshape : well_shaped M.
Hypothesis Hwght : List.length wght_us = nrow M.
Hypothesis Hx : List.length x = nrow M.
Hypothesis Hb : List.length b = ncol M.

Let times (r : list Q) (wi : Q) := map (fun v => v * wi) r.
Let scaled := mk_ndarray2 (nrow M) (ncol M) (zipWith times (cells M) wght_us).

Lemma scale_rows_value : scale_rows M wght_us = Ok scaled.
Proof. unfold scale_rows. now rewrite Hwght, Nat.eqb_refl. Qed.

Lemma length_row (i : nat) :
  (i < nrow M)%nat -> List.length (nth i (cells M) []) = ncol M.
Proof.
  intros Hi. destruct Hshape as [Hrows Hwidth].
  rewrite Forall_forall in Hwidth. apply Hwidth. apply nth_In. lia.
Qed.

Lemma scaled_column_dot (j : nat) :
  (j < ncol M)%nat ->
  qsum (zipWith Qmult (map (fun r => nth j r 0) (cells scaled)) x)
  == bigsum (nrow M) (fun i => nth i (zipWith Qmult x wght_us) 0 * get2 M i j).
Proof.
  intros Hj. destruct Hshape as [Hrows Hwidth].
  assert (Hcells : List.length (cells scaled) = nrow M)
    by (simpl; rewrite length_zipWith; lia).
  rewrite qsum_bigsum, length_zipWith, length_map, Hcells, Hx, Nat.min_id.
  apply bigsum_ext. intros i Hi.
  rewrite (nth_zipWith Qmult _ _ i 0 0 0) by (rewrite ?length_map; lia).
  rewrite (nth_map_lt _ _ _ []) by lia.
  simpl cells.
  rewrite (nth_zipWith times _ _ i [] 0 []) by lia.
  rewrite (nth_zipWith Qmult _ _ i 0 0 0) by lia.
  unfold times. rewrite (nth_map_lt _ _ _ 0) by (rewrite length_row; lia).
  unfold get2. ring.
Qed.

Lemma objective_function_value_on_scaled (delta : Q) :
  exists v,
    objective_function x (transpose scaled, b, delta) = Ok v /\
    v == bigsum (ncol M)
           (fun j => square (achieved_value (zipWith Qmult x wght_us) M j
                             - nth j b 0))
         + delta * qsum (map square (map (fun r => r - 1) x)).
Proof.
  unfold objective_function, matvec, broadcast2.
  change (ncol (transpose scaled)) with (nrow M).
  rewrite Hx, Nat.eqb_refl. cbn [bind].
  change (cells (transpose scaled))
    with (map (fun j => map (fun r => nth j r 0) (cells scaled))
            (seq 0 (ncol M))).
  rewrite map_map, length_map, length_seq, Hb, Nat.eqb_refl. cbn [bind].
  eexists. split; [reflexivity|].
  apply Qplus_comp; [|reflexivity].
  rewrite qsum_bigsum, length_map, length_zipWith, length_map, length_seq, Hb,
    Nat.min_id.
  apply bigsum_ext. intros j Hj.
  rewrite (nth_map_lt _ _ _ 0)
    by (rewrite length_zipWith, length_map, length_seq, Hb; lia).
  apply square_compat.
  rewrite (nth_zipWith Qminus _ _ j 0 0 0)
    by (rewrite ?length_map, ?length_seq, ?Hb; lia).
  rewrite (nth_map_lt _ _ _ O) by (now rewrite length_seq).
  rewrite seq_nth by exact Hj. simpl Nat.add.
  now rewrite scaled_column_dot.
Qed.

End ObjectiveOfAreaWeights.

(** The value of the objective at weight ratios [x], for the sparse
    matrix [create_area_weights_file] builds from the target matrix and
    the national weights, is made of what the two reports show for [x]:
    the sum of the squared target deviations [target_rmse] takes the
    mean of, for the area weights [x * wght_us], plus [delta] times the
    sum of squared deviations [weight_ratio_distribution] writes. *)
Theorem objective_function_of_reports :
  forall (x wght_us : list Q) (M : ndarray2) (b : list Q) (delta : Q),
    well_shaped M ->
    List.length wght_us = nrow M ->
    List.length x = nrow M ->
    List.length b = ncol M ->
    exists scaled v wght_area dev ratio lines ssqdev,
      scale_rows M wght_us = Ok scaled /\
      objective_function x (transpose scaled, b, delta) = Ok v /\
      broadcast2 ValueError Qmult x wght_us = Ok wght_area /\
      target_deviations wght_area M b = Ok (dev, ratio) /\
      weight_ratio_distribution x = Ok (lines, ssqdev) /\
      v == qsum (map square dev) + delta * ssqdev.
Proof.
  intros x wght_us M b delta Hshape Hwght Hx Hb.
  destruct (objective_function_value_on_scaled x wght_us M b
              Hshape Hwght Hx Hb delta) as (v & Hv & Hval).
  cbv zeta in Hv.
  assert (Harea : List.length (zipWith Qmult x wght_us) = nrow M)
    by (rewrite length_zipWith; lia).
  pose proof (target_deviations_value (zipWith Qmult x wght_us) M b Harea Hb)
    as Hdev.
  pose proof (squared_deviations_sum (zipWith Qmult x wght_us) M b
                Hshape Harea Hb) as Hsum.
  cbv zeta in Hdev, Hsum.
  destruct (ratio_distribution_lines 0.0 (tl WEIGHT_RATIO_BINS) x
              eq_refl eq_refl) as (lines & Hrun & _).
  change (Finite 0.0 :: tl WEIGHT_RATIO_BINS) with WEIGHT_RATIO_BINS in Hrun.
  eexists. exists v, (zipWith Qmult x wght_us). eexists. eexists.
  exists lines. eexists.
  split; [apply scale_rows_value; assumption|].
  split; [exact Hv|]. split.
  { unfold broadcast2. now rewrite Hx, Hwght, Nat.eqb_refl. }
  split; [exact Hdev|]. split.
  { unfold weight_ratio_distribution. rewrite Hrun. reflexivity. }
  rewrite Hval, Hsum. reflexivity.
Qed.

Lemma objective_function_of_reports_witness :
  exists scaled v wght_area dev ratio lines ssqdev,
    scale_rows Sample.target_matrix (map (fun _ => 1) Sample.wght)
    = Ok scaled /\
    objective_function Sample.wght
      (transpose scaled, Sample.target_array, DELTA_INIT_VALUE) = Ok v /\
    broadcast2 ValueError Qmult Sample.wght (map (fun _ => 1) Sample.wght)
    = Ok wght_area /\
    target_deviations wght_area Sample.target_matrix Sample.target_array
    = Ok (dev, ratio) /\
    weight_ratio_distribution Sample.wght = Ok (lines, ssqdev) /\
    v == qsum (map square dev) + DELTA_INIT_VALUE * ssqdev.
Proof.
  apply (objective_function_of_reports Sample.wght
           (map (fun _ => 1) Sample.wght) Sample.target_matrix
           Sample.target_array DELTA_INIT_VALUE).
  - split; [reflexivity|]. repeat constructor.
  - reflexivity.
  - reflexivity.
  - reflexivity.
Defined.

(* ================================================================= *)
(** ** The script *)

Lemma valid_area_true (area : string) (complaints : list Area.complaint) :
  Area.valid_area area = (complaints, Ok true) ->
  complaints = [] /\
  (Py.len area = 2%Z \/ Py.len area = 4%Z) /\
  Py.islower (Py.slice 0 2 area) = true /\
  Py.contains String.eqb Area.state_info (Py.upper (Py.slice 0 2 area)) = true.
Proof.
  unfold Area.valid_area.
  change (_ <- assert (Z.of_nat (List.length Area.state_info) =? 50 + 3)%Z "" ;;
          ' (t2010, t2020) <- Area.seat_totals Area.state_info 0 0 ;;
          _ <- assert (t2010 =? 435 + 3)%Z "" ;;
          assert (t2020 =? 435 + 3)%Z "") with (Ok tt).
  cbv iota beta.
  destruct (Py.islower (Py.slice 0 2 area)) eqn:Hlower;
    destruct (Py.contains String.eqb Area.state_info
                (Py.upper (Py.slice 0 2 area))) eqn:Hstate;
    destruct (Py.len area =? 4)%Z eqn:H4;
    destruct (Py.len area =? 2)%Z eqn:H2;
    cbn [negb orb app fst snd];
    try (intros H; discriminate H);
    try (intros H; injection H as <-;
         repeat split; try reflexivity; lia).
  all: unfold Area.check_district;
    destruct (s <- Py.getitem String.eqb Area.state_info
                     (Py.upper (Py.slice 0 2 area)) ;;
              Py.getitem Z.eqb s 2010%Z) as [max_cdn|e];
    try (intros H; discriminate H);
    destruct (max_cdn <=? 1)%Z; try (intros H; discriminate H);
    destruct (Py.int (Py.slice 2 4 area)) as [cdn|e];
    try (intros H; discriminate H);
    destruct (cdn <=? 0)%Z; destruct (max_cdn <? cdn)%Z;
    cbn [app]; intros H; try discriminate H;
    injection H as <-; repeat split; try reflexivity; lia.
Qed.

(* ################################################################# *)
(** * [adjust_qbi.py]: properties *)

Lemma round_half_even_near (y : Q) :
  y - (1 # 2) <= inject_Z (round_half_even y) <= y + (1 # 2).
Proof.
  unfold round_half_even.
  pose proof (Qfloor_le y) as Hlo. pose proof (Qlt_floor y) as Hhi.
  rewrite inject_Z_plus in Hhi. change (inject_Z 1) with 1 in Hhi.
  destruct (qltb (y - inject_Z (Qfloor y)) (1 # 2)) eqn:E1.
  - apply qltb_true in E1. lra.
  - apply qltb_false in E1.
    destruct (qltb (1 # 2) (y - inject_Z (Qfloor y))) eqn:E2.
    + rewrite inject_Z_plus. change (inject_Z 1) with 1. lra.
    + apply qltb_false in E2.
      destruct (Z.even (Qfloor y)).
      * lra.
      * rewrite inject_Z_plus. change (inject_Z 1) with 1. lra.
Qed.

Lemma zipWith_map_r {A B C} (f : A -> B -> C) (h : A -> B) (l : list A) :
  zipWith f l (map h l) = map (fun a => f a (h a)) l.
Proof. induction l as [|a l IH]; simpl; [reflexivity|]. now rewrite IH. Qed.

Lemma np_maximum_nonneg (v : Q) : 0 <= np_maximum 0 v.
Proof.
  unfold np_maximum. destruct (qleb 0 v) eqn:E; [|lra].
  now apply qleb_true in E.
Qed.

Lemma qbi_of_Ok (df : DataFrame) (qbi : list Q) :
  qbi_of df = Ok qbi ->
  qbi = map record_qbi (records df) /\
  DF.has_column df "e00900" = true /\ DF.has_column df "e26270" = true /\
  DF.has_column df "e02100" = true /\ DF.has_column df "e27200" = true.
Proof.
  unfold qbi_of. intros H.
  bind_inv H as e1 H1. bind_inv H as e2 H2.
  bind_inv H as e3 H3. bind_inv H as e4 H4.
  apply getattr_Ok in H1 as [-> H1]. apply getattr_Ok in H2 as [-> H2].
  apply getattr_Ok in H3 as [-> H3]. apply getattr_Ok in H4 as [-> H4].
  injection H as <-. unfold DF.column.
  rewrite !zipWith_map, map_map. auto.
Qed.

Lemma qbi_of_columns (df : DataFrame) :
  DF.has_column df "e00900" = true -> DF.has_column df "e26270" = true ->
  DF.has_column df "e02100" = true -> DF.has_column df "e27200" = true ->
  qbi_of df = Ok (map record_qbi (records df)).
Proof.
  intros H1 H2 H3 H4. unfold qbi_of, DF.getattr.
  rewrite H1, H2, H3, H4. cbn [bind]. unfold DF.column.
  now rewrite !zipWith_map, map_map.
Qed.

Lemma qbi_of_raise (df : DataFrame) (e : exn) :
  qbi_of df = Raise e ->
  e = AttributeError /\
  (DF.has_column df "e00900" && DF.has_column df "e26270"
   && DF.has_column df "e02100" && DF.has_column df "e27200") = false.
Proof.
  unfold qbi_of, DF.getattr.
  destruct (DF.has_column df "e00900"), (DF.has_column df "e26270"),
    (DF.has_column df "e02100"), (DF.has_column df "e27200");
    cbn [bind andb]; intros H; try discriminate H;
    injection H as <-; auto.
Qed.

Lemma setitem_scaled (df : DataFrame) (name : string) (g : (string -> Q) -> Q) :
  DF.setitem df name (map g (records df))
  = Ok (mk_DataFrame
          (if DF.has_column df name then columns df
           else (columns df ++ [name])%list)
          (map (fun r k => if String.eqb k name then g r else r k)
             (records df))).
Proof.
  unfold DF.setitem, DF.len. rewrite length_map, Nat.eqb_refl.
  now rewrite zipWith_map_r.
Qed.

Section AddPtW2WagesFacts.

Variable taxcalc_qbided : DataFrame -> result (list Q).
Variable bisect : (Q -> result Q) -> Q -> Q -> result Q.

(** [add_pt_w2_wages] returns exactly when the table has the four
    income columns and the root search returns: a missing column is an
    [AttributeError] raised before Tax-Calculator is run, and the final
    assignment of the column never fails. *)
Theorem add_pt_w2_wages_returns_iff (df : DataFrame) :
  (returns (add_pt_w2_wages taxcalc_qbided bisect df)
   <-> (DF.has_column df "e00900" && DF.has_column df "e26270"
        && DF.has_column df "e02100" && DF.has_column df "e27200") = true
       /\ returns (bisect (deduction_loss taxcalc_qbided df
                             (map record_qbi (records df))) 0.1 0.5))
  /\ ((DF.has_column df "e00900" && DF.has_column df "e26270"
       && DF.has_column df "e02100" && DF.has_column df "e27200") = false ->
      forall taxcalc_qbided' bisect',
        add_pt_w2_wages taxcalc_qbided' bisect' df = Raise AttributeError).
Proof.
  split.
  - unfold add_pt_w2_wages. split.
    + intros [[df' s] H]. bind_inv H as qbi Hqbi. bind_inv H as scale Hscale.
      apply qbi_of_Ok in Hqbi as (-> & H1 & H2 & H3 & H4).
      rewrite H1, H2, H3, H4. split; [reflexivity|].
      exists scale. exact Hscale.
    + intros [Hcols [scale Hscale]].
      apply andb_true_iff in Hcols as [Hcols H4].
      apply andb_true_iff in Hcols as [Hcols H3].
      apply andb_true_iff in Hcols as [H1 H2].
      rewrite (qbi_of_columns df H1 H2 H3 H4). cbn [bind].
      rewrite Hscale. cbn [bind].
      rewrite map_map, setitem_scaled. cbn [bind]. eexists. reflexivity.
  - intros Hcols taxcalc_qbided' bisect'. unfold add_pt_w2_wages.
    destruct (qbi_of df) as [qbi|e] eqn:Hqbi.
    + apply qbi_of_Ok in Hqbi as (_ & H1 & H2 & H3 & H4).
      rewrite H1, H2, H3, H4 in Hcols. discriminate Hcols.
    + apply qbi_of_raise in Hqbi as [-> _]. reflexivity.
Qed.

(** When the root search stays in its bracket from 0.1 to 0.5 and
    [add_pt_w2_wages] returns, the scale returned is a whole number of
    ten-thousandths between 0.1 and 0.5, within half a ten-thousandth of
    the root found; the table returned has the records and the columns
    of the table given, unchanged, and the column [PT_binc_w2_wages],
    which holds for every record the scale times the sum of its four
    incomes, or zero when the sum is negative, and so is never
    negative. *)
Theorem add_pt_w2_wages_column :
  forall (df df' : DataFrame) (rounded_scale : Q),
    (forall f x, bisect f 0.1 0.5 = Ok x -> 0.1 <= x <= 0.5) ->
    add_pt_w2_wages taxcalc_qbided bisect df = Ok (df', rounded_scale) ->
    (exists scale z,
        bisect (deduction_loss taxcalc_qbided df
                  (map record_qbi (records df))) 0.1 0.5 = Ok scale /\
        rounded_scale == inject_Z z / 10000 /\
        (1000 <= z <= 5000)%Z /\
        scale - (1 # 20000) <= rounded_scale <= scale + (1 # 20000)) /\
    DF.len df' = DF.len df /\
    DF.has_column df' "PT_binc_w2_wages" = true /\
    (forall k, String.eqb k "PT_binc_w2_wages" = false ->
               DF.has_column df' k = DF.has_column df k /\
               DF.column df' k = DF.column df k) /\
    Forall2 (fun r' r => r' "PT_binc_w2_wages" == rounded_scale * record_qbi r)
      (records df') (records df) /\
    Forall (fun v => 0 <= v) (DF.column df' "PT_binc_w2_wages").
Proof.
  intros df df' rounded_scale Hbracket H. unfold add_pt_w2_wages in H.
  bind_inv H as qbi Hqbi. bind_inv H as scale Hscale.
  apply qbi_of_Ok in Hqbi as (-> & _).
  rewrite map_map, setitem_scaled in H. cbn [bind] in H.
  injection H as <- <-.
  pose proof (Hbracket _ _ Hscale) as Hin.
  change (0.1 <= scale <= 0.5) with (1 # 10 <= scale <= 5 # 10) in Hin.
  pose proof (round_half_even_near (scale * inject_Z (10 ^ Z.of_nat 4))) as Hr.
  change (inject_Z (10 ^ Z.of_nat 4)) with 10000 in Hr.
  set (z := round_half_even (scale * 10000)) in *.
  assert (Hs : py_round scale 4 == inject_Z z / 10000) by reflexivity.
  assert (Hz : (1000 <= z <= 5000)%Z).
  { assert (H1 : inject_Z 999 < inject_Z z)
      by (change (inject_Z 999) with 999; lra).
    assert (H2 : inject_Z z < inject_Z 5001)
      by (change (inject_Z 5001) with 5001; lra).
    rewrite <- Zlt_Qlt in H1, H2. lia. }
  assert (Hpos : 0 <= py_round scale 4).
  { rewrite Hs. apply Qle_shift_div_l; [lra|].
    assert (H1 : inject_Z 0 <= inject_Z z) by (rewrite <- Zle_Qle; lia).
    change (inject_Z 0) with 0 in H1. lra. }
  split; [|split; [|split; [|split; [|split]]]].
  - exists scale, z. split; [exact Hscale|]. split; [exact Hs|].
    split; [exact Hz|]. rewrite Hs.
    assert (Hdiv : inject_Z z / 10000 == inject_Z z * (1 # 10000))
      by (field).
    rewrite Hdiv. lra.
  - unfold DF.len. cbn [records]. now rewrite length_map.
  - unfold DF.has_column. cbn [columns].
    destruct (existsb (String.eqb "PT_binc_w2_wages") (columns df)) eqn:E;
      [exact E|].
    rewrite existsb_app. cbn [existsb]. rewrite String.eqb_refl.
    now rewrite orb_true_r.
  - intros k Hk. split.
    + unfold DF.has_column. cbn [columns].
      destruct (existsb (String.eqb "PT_binc_w2_wages") (columns df));
        [reflexivity|].
      rewrite existsb_app. cbn [existsb]. rewrite Hk.
      now rewrite !orb_false_r.
    + unfold DF.column. cbn [records]. rewrite map_map.
      apply map_ext. intros r. now rewrite Hk.
  - cbn [records]. generalize (records df) as rs. clear.
    induction rs as [|r rs IH]; cbn [map]; constructor.
    + rewrite String.eqb_refl. ring.
    + exact IH.
  - unfold DF.column. cbn [records]. rewrite map_map. apply Forall_forall.
    intros v Hv. apply in_map_iff in Hv as [r [<- _]].
    rewrite String.eqb_refl.
    apply Qmult_le_0_compat; [|exact Hpos].
    unfold record_qbi. apply np_maximum_nonneg.
Qed.

End AddPtW2WagesFacts.

Lemma sample_bisect_steps_in_bracket (f : Q -> result Q) (fa : Q) (n : nat) :
  forall xa dm x,
    0 <= dm ->
    SampleQbi.bisect_steps n f xa dm fa = Ok x -> xa <= x <= xa + dm.
Proof.
  induction n as [|n IH]; intros xa dm x Hdm H;
    cbn [SampleQbi.bisect_steps] in H.
  - injection H as <-. lra.
  - bind_inv H as fm Hfm. cbv zeta in H.
    match type of H with
    | (if ?c then _ else _) = _ => destruct c
    end.
    + injection H as <-. lra.
    + apply IH in H; [|lra].
      destruct (qleb 0 (fm * fa)); lra.
Qed.

Lemma sample_bisect_in_bracket (f : Q -> result Q) (x : Q) :
  SampleQbi.bisect f 0.1 0.5 = Ok x -> 0.1 <= x <= 0.5.
Proof.
  unfold SampleQbi.bisect. intros H.
  bind_inv H as fa Hfa. bind_inv H as fb Hfb.
  destruct (qltb 0 (fa * fb)); [discriminate H|].
  destruct (qeqb fa 0); [injection H as <-; split; vm_compute; discriminate|].
  destruct (qeqb fb 0); [injection H as <-; split; vm_compute; discriminate|].
  apply sample_bisect_steps_in_bracket in H.
  - change (0.1) with (1 # 10) in *. change (0.5) with (5 # 10) in *. lra.
  - vm_compute. discriminate.
Qed.

Lemma add_pt_w2_wages_column_witness :
  exists df' rounded_scale,
    add_pt_w2_wages SampleQbi.taxcalc_qbided SampleQbi.bisect SampleQbi.df
    = Ok (df', rounded_scale) /\
    (exists scale z,
        SampleQbi.bisect
          (deduction_loss SampleQbi.taxcalc_qbided SampleQbi.df
             (map record_qbi (records SampleQbi.df))) 0.1 0.5 = Ok scale /\
        rounded_scale == inject_Z z / 10000 /\
        (1000 <= z <= 5000)%Z /\
        scale - (1 # 20000) <= rounded_scale <= scale + (1 # 20000)) /\
    DF.len df' = DF.len SampleQbi.df /\
    DF.has_column df' "PT_binc_w2_wages" = true /\
    (forall k, String.eqb k "PT_binc_w2_wages" = false ->
               DF.has_column df' k = DF.has_column SampleQbi.df k /\
               DF.column df' k = DF.column SampleQbi.df k) /\
    Forall2 (fun r' r => r' "PT_binc_w2_wages" == rounded_scale * record_qbi r)
      (records df') (records SampleQbi.df) /\
    Forall (fun v => 0 <= v) (DF.column df' "PT_binc_w2_wages").
Proof.
  destruct (add_pt_w2_wages SampleQbi.taxcalc_qbided SampleQbi.bisect
              SampleQbi.df) as [[df' rounded_scale]|e] eqn:Hrun.
  - exists df', rounded_scale. split; [reflexivity|].
    apply (add_pt_w2_wages_column SampleQbi.taxcalc_qbided SampleQbi.bisect
             SampleQbi.df df' rounded_scale sample_bisect_in_bracket Hrun).
  - vm_compute in Hrun. discriminate Hrun.
Defined.

Example add_pt_w2_wages_of_sample :
  match add_pt_w2_wages SampleQbi.taxcalc_qbided SampleQbi.bisect
          SampleQbi.df with
  | Ok (df', rounded_scale) =>
      Some (columns df', map Qred (DF.column df' "PT_binc_w2_wages"),
            Qred rounded_scale)
  | Raise _ => None
  end
  = Some (["e00900"; "e26270"; "e02100"; "e27200"; "s006"; "PT_binc_w2_wages"],
          [12428; 0; 779857 # 10], 3107 # 10000).
Proof. vm_compute. reflexivity. Qed.

(* ################################################################# *)
(** * [utils/taxcalc_utils.py]: properties *)

Lemma contains_section (md : Metadata) (name variable : string) :
  Py.contains String.eqb (metadata_section md name) variable = true ->
  exists s attributes,
    Py.get String.eqb md name = Some s /\
    Py.get String.eqb s variable = Some attributes /\
    description_in md name variable = Py.getitem String.eqb attributes "desc".
Proof.
  unfold Py.contains, metadata_section, description_in, Py.getitem.
  destruct (Py.get String.eqb md name) as [s|]; [|discriminate].
  destruct (Py.get String.eqb s variable) as [attributes|] eqn:E;
    [|discriminate].
  intros _. exists s, attributes.
  split; [reflexivity|]. split; [exact E|]. cbn [bind]. now rewrite E.
Qed.

(** The two lookups agree on what a Tax-Calculator variable is.
    [get_tc_is_input] is [None] exactly when
    [get_tc_variable_description] returns [None], which is when the
    variable is in neither section; it is [True] exactly for the
    variables of the ["read"] section, also for one that is in both.  A
    description returned is the ["desc"] of the variable in the section
    [get_tc_is_input] points to; and the only failure is the [KeyError]
    of a variable whose entry in that section has no ["desc"]. *)
Theorem taxcalc_metadata_lookup (md : Metadata) (variable : string) :
  (get_tc_is_input md variable = None
   <-> get_tc_variable_description md variable = Ok None) /\
  (get_tc_is_input md variable = None
   <-> Py.contains String.eqb (metadata_section md "read") variable = false /\
       Py.contains String.eqb (metadata_section md "calc") variable = false) /\
  (get_tc_is_input md variable = Some true
   <-> Py.contains String.eqb (metadata_section md "read") variable = true) /\
  (forall desc,
      get_tc_variable_description md variable = Ok (Some desc) ->
      exists is_input,
        get_tc_is_input md variable = Some is_input /\
        description_in md (if is_input then "read" else "calc") variable
        = Ok desc) /\
  (forall e,
      get_tc_variable_description md variable = Raise e ->
      e = KeyError /\
      exists is_input attributes,
        get_tc_is_input md variable = Some is_input /\
        Py.get String.eqb
          (metadata_section md (if is_input then "read" else "calc")) variable
        = Some attributes /\
        Py.get String.eqb attributes "desc" = None).
Proof.
  unfold get_tc_is_input, get_tc_variable_description.
  destruct (Py.contains String.eqb (metadata_section md "read") variable)
    eqn:Hread.
  - destruct (contains_section md "read" variable Hread)
      as (s & attributes & Hs & Hattr & Hdesc).
    rewrite Hdesc. unfold Py.getitem.
    split; [|split; [|split; [|split]]].
    + split; [discriminate|].
      destruct (Py.get String.eqb attributes "desc"); discriminate.
    + split; [discriminate|]. intros [H _]. discriminate H.
    + split; reflexivity.
    + intros desc H. exists true. split; [reflexivity|].
      rewrite Hdesc. unfold Py.getitem.
      destruct (Py.get String.eqb attributes "desc"); [|discriminate H].
      injection H as <-. reflexivity.
    + intros e H. destruct (Py.get String.eqb attributes "desc") eqn:E;
        [discriminate H|]. injection H as <-. split; [reflexivity|].
      exists true, attributes. split; [reflexivity|].
      unfold metadata_section. rewrite Hs. auto.
  - destruct (Py.contains String.eqb (metadata_section md "calc") variable)
      eqn:Hcalc.
    + destruct (contains_section md "calc" variable Hcalc)
        as (s & attributes & Hs & Hattr & Hdesc).
      rewrite Hdesc. unfold Py.getitem.
      split; [|split; [|split; [|split]]].
      * split; [discriminate|].
        destruct (Py.get String.eqb attributes "desc"); discriminate.
      * split; [discriminate|]. intros [_ H]. discriminate H.
      * split; discriminate.
      * intros desc H. exists false. split; [reflexivity|].
        rewrite Hdesc. unfold Py.getitem.
        destruct (Py.get String.eqb attributes "desc"); [|discriminate H].
        injection H as <-. reflexivity.
      * intros e H. destruct (Py.get String.eqb attributes "desc") eqn:E;
          [discriminate H|]. injection H as <-. split; [reflexivity|].
        exists false, attributes. split; [reflexivity|].
        unfold metadata_section. rewrite Hs. auto.
    + split; [|split; [|split; [|split]]].
      * split; reflexivity.
      * split; auto.
      * split; discriminate.
      * intros desc H. discriminate H.
      * intros e H. discriminate H.
Qed.

Lemma allclose_same_length (a b : list Q) :
  List.length a = List.length b ->
  allclose a b = Ok (forallb (fun c => negb (qeqb c 0))
                       (zipWith (fun x y => b2q (isclose x y)) a b)).
Proof.
  intros H. unfold allclose, broadcast2. rewrite H, Nat.eqb_refl. reflexivity.
Qed.

Lemma isclose_flag (x y : Q) :
  negb (qeqb (b2q (isclose x y)) 0) = isclose x y.
Proof. destruct (isclose x y); reflexivity. Qed.

Lemma allclose_columns (name : string) (rs rs' : list (string -> Q)) :
  List.length rs = List.length rs' ->
  forallb (fun c => negb (qeqb c 0))
    (zipWith (fun x y => b2q (isclose x y))
       (map (fun r => r name) rs) (map (fun r => r name) rs')) = true ->
  Forall2 (fun r r' => Qabs (r name - r' name)
                       <= 1e-8 + 1e-5 * Qabs (r' name)) rs rs'.
Proof.
  revert rs'. induction rs as [|r rs IH]; intros [|r' rs'] Hlen H;
    try discriminate Hlen; [constructor|].
  cbn [map zipWith forallb] in H. rewrite isclose_flag in H.
  apply andb_true_iff in H as [Hclose H]. constructor.
  - unfold isclose in Hclose. now apply qleb_true in Hclose.
  - apply IH; [simpl in Hlen; lia|exact H].
Qed.

Section TaxcalcOutputsFacts.

Variables (Weights GrowFactors : Type).
Variable calc_all :
  DataFrame -> Z -> option Reform -> option Weights -> option GrowFactors ->
  result DataFrame.

Lemma add_taxcalc_outputs_Ok (flat_file : DataFrame) (time_period : Z)
      (reform : option Reform) (weights : option Weights)
      (growfactors : option GrowFactors) (output : DataFrame) :
  add_taxcalc_outputs Weights GrowFactors calc_all flat_file time_period
    reform weights growfactors = Ok output ->
  calc_all flat_file time_period (implemented reform) weights growfactors
  = Ok output /\
  DF.has_column output "s006" = true /\
  DF.has_column flat_file "s006" = true /\
  allclose (DF.column output "s006") (DF.column flat_file "s006") = Ok true.
Proof.
  unfold add_taxcalc_outputs. intros H.
  bind_inv H as out Hout. bind_inv H as o Ho. bind_inv H as f Hf.
  bind_inv H as close Hclose. bind_inv H as u Hu.
  injection H as <-.
  apply getattr_Ok in Ho as [-> Ho]. apply getattr_Ok in Hf as [-> Hf].
  apply assert_Ok_inv in Hu. subst close. auto.
Qed.

(** What [add_taxcalc_outputs] returns is what Tax-Calculator made of
    the flat file, under the reform when it is a dictionary that is not
    empty and under current law otherwise (an empty reform is no reform);
    and it is returned only when it kept the weights of the flat file:
    both tables have the column [s006], and when they have the same
    number of records every weight returned is within
    [1e-8 + 1e-5 * |w|] of the weight [w] given. *)
Theorem add_taxcalc_outputs_weights :
  forall (flat_file : DataFrame) (time_period : Z) (reform : option Reform)
         (weights : option Weights) (growfactors : option GrowFactors)
         (output : DataFrame),
    add_taxcalc_outputs Weights GrowFactors calc_all flat_file time_period
      reform weights growfactors = Ok output ->
    calc_all flat_file time_period
      (match reform with Some [] => None | _ => reform end)
      weights growfactors = Ok output /\
    add_taxcalc_outputs Weights GrowFactors calc_all flat_file time_period
      (Some []) weights growfactors
    = add_taxcalc_outputs Weights GrowFactors calc_all flat_file time_period
        None weights growfactors /\
    DF.has_column output "s006" = true /\
    DF.has_column flat_file "s006" = true /\
    (DF.len output = DF.len flat_file ->
     Forall2 (fun r r' => Qabs (r "s006" - r' "s006")
                          <= 1e-8 + 1e-5 * Qabs (r' "s006"))
       (records output) (records flat_file)).
Proof.
  intros flat_file time_period reform weights growfactors output H.
  apply add_taxcalc_outputs_Ok in H as (Hrun & Hout & Hflat & Hclose).
  split.
  { destruct reform as [[|p r]|]; exact Hrun. }
  split; [reflexivity|]. split; [exact Hout|]. split; [exact Hflat|].
  intros Hlen. unfold DF.len in Hlen.
  rewrite allclose_same_length in Hclose
    by (unfold DF.column; now rewrite !length_map).
  injection Hclose as Hclose.
  now apply allclose_columns.
Qed.

End TaxcalcOutputsFacts.

Lemma py_round_tenths (x : Q) :
  exists z,
    py_round x 1 == inject_Z z / 10 /\
    x - (1 # 20) <= py_round x 1 <= x + (1 # 20) /\
    (0 <= x -> 0 <= py_round x 1) /\
    (x <= 0 -> py_round x 1 <= 0).
Proof.
  pose proof (round_half_even_near (x * inject_Z (10 ^ Z.of_nat 1))) as Hr.
  unfold py_round. change (inject_Z (10 ^ Z.of_nat 1)) with 10 in *.
  set (z := round_half_even (x * 10)) in *.
  assert (Hdiv : inject_Z z / 10 == inject_Z z * (1 # 10)) by field.
  exists z. split; [reflexivity|]. rewrite Hdiv.
  split; [lra|]. split; intros Hx.
  - assert (H1 : inject_Z (-1) < inject_Z z)
      by (change (inject_Z (-1)) with (-1 # 1); lra).
    rewrite <- Zlt_Qlt in H1.
    assert (H2 : inject_Z 0 <= inject_Z z) by (rewrite <- Zle_Qle; lia).
    change (inject_Z 0) with 0 in H2. lra.
  - assert (H1 : inject_Z z < inject_Z 1)
      by (change (inject_Z 1) with 1; lra).
    rewrite <- Zlt_Qlt in H1.
    assert (H2 : inject_Z z <= inject_Z 0) by (rewrite <- Zle_Qle; lia).
    change (inject_Z 0) with 0 in H2. lra.
Qed.

Section TaxExpenditures.

Variables (Weights GrowFactors : Type).
Variable calc_all :
  DataFrame -> Z -> option Reform -> option Weights -> option GrowFactors ->
  result DataFrame.
Variables (flat_file : DataFrame) (time_period : Z).

(** What one entry of the results says of one reform, for the revenue
    [base] of the baseline. *)
Let entry_of (base : Q) (result : string * Q) (entry : string * Reform)
  : Prop :=
  fst result = fst entry /\
  exists out rev z,
    add_taxcalc_outputs Weights GrowFactors calc_all flat_file time_period
      (Some (snd entry)) None None = Ok out /\
    tax_revenue out = Ok rev /\
    snd result == inject_Z z / 10 /\
    rev - base - (1 # 20) <= snd result <= rev - base + (1 # 20) /\
    (base <= rev -> 0 <= snd result) /\
    (rev <= base -> snd result <= 0).

Lemma te_loop_Ok (base : Q) (reforms : Py.dict string Reform) :
  forall te_results te_results',
    NoDup (map fst reforms) ->
    (forall k, In k (map fst te_results) -> ~ In k (map fst reforms)) ->
    te_loop Weights GrowFactors calc_all flat_file time_period base reforms
      te_results = Ok te_results' ->
    exists added,
      te_results' = (te_results ++ added)%list /\
      Forall2 (entry_of base) added reforms.
Proof.
  induction reforms as [|[name reform] rest IH];
    intros te_results te_results' Hnodup Hfresh H.
  - injection H as <-. exists []. split; [now rewrite app_nil_r|constructor].
  - cbn [te_loop] in H. bind_inv H as out Hout. bind_inv H as rev Hrev.
    cbn [map fst] in Hnodup, Hfresh. inversion Hnodup as [|? ? Hnotin Hnodup'].
    subst.
    rewrite dict_set_fresh in H
      by (intros Hin; apply (Hfresh name Hin); now left).
    apply IH in H as (added & -> & Hadded); [|exact Hnodup'|].
    + eexists. rewrite <- app_assoc. split; [reflexivity|].
      constructor; [|exact Hadded].
      split; [reflexivity|].
      destruct (py_round_tenths (- (base - rev))) as (z & Hz & Hnear & Hpos & Hneg).
      exists out, rev, z. cbn [fst snd].
      split; [exact Hout|]. split; [exact Hrev|]. split; [exact Hz|].
      split; [lra|]. split; intros Hle; [apply Hpos|apply Hneg]; lra.
    + intros k Hk. rewrite map_app in Hk. apply in_app_or in Hk.
      destruct Hk as [Hk|[<-|[]]].
      * intros Hin. apply (Hfresh k Hk). now right.
      * exact Hnotin.
Qed.

(** When [get_tax_expenditure_results] returns, its dictionary has the
    seven reforms of [te_reforms] as keys, in their order.  The value of
    a reform is a whole number of tenths within 0.05 of the revenue under
    the reform less the revenue of the baseline, both the sum of
    [combined * s006] in billions; it is not negative when the reform
    raises at least the revenue of the baseline and not positive when it
    raises at most that.  The baseline is run with the weights and the
    growth factors of the storage folder and every reform without
    them. *)
Theorem get_tax_expenditure_results_values :
  forall (growfactors : GrowFactors) (weights : Weights)
         (te_results : Py.dict string Q),
    get_tax_expenditure_results Weights GrowFactors calc_all growfactors
      weights flat_file time_period = Ok te_results ->
    exists baseline base,
      add_taxcalc_outputs Weights GrowFactors calc_all flat_file time_period
        None (Some weights) (Some growfactors) = Ok baseline /\
      tax_revenue baseline = Ok base /\
      map fst te_results
      = ["cg_tax_preference"; "ctc"; "eitc"; "niit"; "qbid"; "salt";
         "social_security_partial_taxability"] /\
      Forall2
        (fun result entry =>
           fst result = fst entry /\
           exists out rev z,
             add_taxcalc_outputs Weights GrowFactors calc_all flat_file
               time_period (Some (snd entry)) None None = Ok out /\
             tax_revenue out = Ok rev /\
             snd result == inject_Z z / 10 /\
             rev - base - (1 # 20) <= snd result <= rev - base + (1 # 20) /\
             (base <= rev -> 0 <= snd result) /\
             (rev <= base -> snd result <= 0))
        te_results te_reforms.
Proof.
  intros growfactors weights te_results H.
  unfold get_tax_expenditure_results, get_tax_expenditure_results_of in H.
  bind_inv H as baseline Hbaseline. bind_inv H as base Hbase.
  apply te_loop_Ok in H as (added & -> & Hadded).
  - exists baseline, base. split; [exact Hbaseline|]. split; [exact Hbase|].
    cbn [app]. split; [|exact Hadded].
    assert (Hkeys : map fst added = map fst te_reforms).
    { clear - Hadded. induction Hadded as [|r e l l' [Hre _] _ IH];
        [reflexivity|]. cbn [map]. now rewrite Hre, IH. }
    rewrite Hkeys. reflexivity.
  - repeat constructor; cbn; intuition discriminate.
  - intros k [].
Qed.

End TaxExpenditures.

Lemma add_taxcalc_outputs_weights_witness :
  exists output,
    add_taxcalc_outputs unit unit SampleTaxcalc.calc_all
      SampleTaxcalc.flat_file 2023 (Some []) None None = Ok output /\
    SampleTaxcalc.calc_all SampleTaxcalc.flat_file 2023 None None None
    = Ok output /\
    add_taxcalc_outputs unit unit SampleTaxcalc.calc_all
      SampleTaxcalc.flat_file 2023 (Some []) None None
    = add_taxcalc_outputs unit unit SampleTaxcalc.calc_all
        SampleTaxcalc.flat_file 2023 None None None /\
    DF.has_column output "s006" = true /\
    DF.has_column SampleTaxcalc.flat_file "s006" = true /\
    (DF.len output = DF.len SampleTaxcalc.flat_file ->
     Forall2 (fun r r' => Qabs (r "s006" - r' "s006")
                          <= 1e-8 + 1e-5 * Qabs (r' "s006"))
       (records output) (records SampleTaxcalc.flat_file)).
Proof.
  assert (Hrun : exists output,
             add_taxcalc_outputs unit unit SampleTaxcalc.calc_all
               SampleTaxcalc.flat_file 2023 (Some []) None None = Ok output)
    by (vm_compute; eexists; reflexivity).
  destruct Hrun as [output Hrun].
  exists output. split; [exact Hrun|].
  apply (add_taxcalc_outputs_weights unit unit SampleTaxcalc.calc_all
           SampleTaxcalc.flat_file 2023 (Some []) None None output Hrun).
Defined.

Lemma get_tax_expenditure_results_values_witness :
  exists te_results baseline base,
    get_tax_expenditure_results unit unit SampleTaxcalc.calc_all tt tt
      SampleTaxcalc.flat_file 2023 = Ok te_results /\
    add_taxcalc_outputs unit unit SampleTaxcalc.calc_all
      SampleTaxcalc.flat_file 2023 None (Some tt) (Some tt) = Ok baseline /\
    tax_revenue baseline = Ok base /\
    map fst te_results
    = ["cg_tax_preference"; "ctc"; "eitc"; "niit"; "qbid"; "salt";
       "social_security_partial_taxability"] /\
    Forall2
      (fun result entry =>
         fst result = fst entry /\
         exists out rev z,
           add_taxcalc_outputs unit unit SampleTaxcalc.calc_all
             SampleTaxcalc.flat_file 2023 (Some (snd entry)) None None
           = Ok out /\
           tax_revenue out = Ok rev /\
           snd result == inject_Z z / 10 /\
           rev - base - (1 # 20) <= snd result <= rev - base + (1 # 20) /\
           (base <= rev -> 0 <= snd result) /\
           (rev <= base -> snd result <= 0))
      te_results te_reforms.
Proof.
  destruct (get_tax_expenditure_results unit unit SampleTaxcalc.calc_all tt tt
              SampleTaxcalc.flat_file 2023) as [te_results|e] eqn:Hrun.
  - destruct (get_tax_expenditure_results_values unit unit
                SampleTaxcalc.calc_all SampleTaxcalc.flat_file 2023 tt tt
                te_results Hrun) as (baseline & base & H).
    exists te_results, baseline, base. split; [reflexivity|exact H].
  - vm_compute in Hrun. discriminate Hrun.
Defined.

Example get_tax_expenditure_results_of_sample :
  match get_tax_expenditure_results unit unit SampleTaxcalc.calc_all tt tt
          SampleTaxcalc.flat_file 2023 with
  | Ok te_results => Some (map (fun kv => (fst kv, Qred (snd kv))) te_results)
  | Raise _ => None
  end
  = Some [("cg_tax_preference", 29 # 10); ("ctc", 87 # 10); ("eitc", 29 # 10);
          ("niit", 29 # 10); ("qbid", 29 # 10); ("salt", 29 # 10);
          ("social_security_partial_taxability", 29 # 10)].
Proof. vm_compute. reflexivity. Qed.

(* ################################################################# *)
(** * [tests/test_basic_flat_file.py]: properties *)

Lemma endswith_filter (suffix : string -> bool) (l : list string) (v : string) :
  In v (filter suffix l) <-> In v l /\ suffix v = true.
Proof. apply filter_In. Qed.

Lemma not_in_true (exempted : list string) (v : string) :
  not_in exempted v = true <-> ~ In v exempted.
Proof.
  unfold not_in. rewrite negb_true_iff, <- not_true_iff_false, existsb_exists.
  split; intros H Hin; apply H.
  - exists v. split; [exact Hin|apply String.eqb_refl].
  - destruct Hin as (x & Hx & Heq). apply String.eqb_eq in Heq. now subst.
Qed.

Lemma get_In_keys {V} (d : Py.dict string V) (k : string) :
  Py.get String.eqb d k = None <-> ~ In k (map fst d).
Proof.
  induction d as [|[k' v] d IH]; simpl.
  - split; [intros _ []|reflexivity].
  - destruct (String.eqb k k') eqn:E.
    + apply String.eqb_eq in E. subst. split; [discriminate|].
      intros H. exfalso. apply H. now left.
    + apply String.eqb_neq in E. rewrite IH. split.
      * intros H [Heq|Hin]; [now subst|now apply H].
      * intros H Hin. apply H. now right.
Qed.

(** A total 45 per cent above its reference: the deviation the test
    computes is the double just below [0.45], and the test passes. *)
Example test_tc_variable_totals_boundary :
  float_total (DF.column SampleTaxcalc.flat_file "e00200")
    (DF.column SampleTaxcalc.flat_file "s006") = 290000000000%float /\
  PrimFloat.abs
    (PrimFloat.sub
       (PrimFloat.div 290000000000%float (float_of_Q 200000000000)) 1%float)
  = 0x1.cccccccccccccp-2%float /\
  test_tc_variable_totals SampleTotals.md SampleTotals.tc_variable_totals
    SampleTaxcalc.flat_file "e00200" = Ok tt.
Proof. repeat split; vm_compute; reflexivity. Qed.

(** A total 50 per cent and 100 billion above its reference fails. *)
Example test_tc_variable_totals_fails :
  test_tc_variable_totals SampleTotals.md
    [("e00200", 190000000000)] SampleTaxcalc.flat_file "e00200"
  = Raise (AssertionError "e00200 differs to tax-data").
Proof. vm_compute. reflexivity. Qed.

(** A variable is tested when it has a reference total and is not
    exempted: it is not one of the variables exempted by name, and, when
    it is in the ["read"] section, its name ends neither in [p] nor in
    [s].  The exemption by the last letter looks at the ["read"] section
    only; a tested variable that is not in that section makes its test
    end in a [KeyError], on any flat file, before anything is
    compared. *)
Theorem variables_to_test_exemptions :
  forall (md : Metadata) (tc_variable_totals : Py.dict string Q)
         (variables : list string) (variable : string),
    variables_to_test md tc_variable_totals = Ok variables ->
    In variable variables <->
    In variable (map fst tc_variable_totals) /\
    ~ In variable EXEMPTED_BY_NAME /\
    (Py.contains String.eqb (metadata_section md "read") variable = true ->
     endswith_char variable "p" = false /\
     endswith_char variable "s" = false) /\
    (Py.contains String.eqb (metadata_section md "read") variable = false ->
     forall flat_file,
       test_tc_variable_totals md tc_variable_totals flat_file variable
       = Raise KeyError).
Proof.
  intros md totals variables variable H.
  unfold variables_to_test, EXEMPTED_VARIABLES in H.
  bind_inv H as exempted Hex. bind_inv Hex as read Hread.
  assert (Hexempted :
            exempted
            = (EXEMPTED_BY_NAME
               ++ filter (fun v => endswith_char v "p" || endswith_char v "s")
                    (map fst read))%list) by congruence.
  clear Hex. subst exempted.
  assert (Hvariables :
            variables
            = filter
                (not_in
                   (EXEMPTED_BY_NAME
                    ++ filter (fun v => endswith_char v "p"
                                        || endswith_char v "s")
                         (map fst read))%list)
                (map fst totals)) by congruence.
  clear H. subst variables.
  unfold Py.getitem in Hread.
  destruct (Py.get String.eqb md "read") as [read'|] eqn:Hmd;
    [|discriminate Hread].
  injection Hread as ->.
  unfold Py.contains, metadata_section. rewrite Hmd.
  rewrite filter_In, not_in_true, in_app_iff, filter_In.
  split.
  - intros [Hin Hnot]. split; [exact Hin|]. split; [tauto|]. split.
    + intros Hc.
      destruct (Py.get String.eqb read variable) eqn:E; [|discriminate Hc].
      assert (Hk : In variable (map fst read)).
      { destruct (in_dec string_dec variable (map fst read)) as [Hk|Hk];
          [exact Hk|]. apply (proj2 (get_In_keys read variable)) in Hk.
        rewrite E in Hk. discriminate Hk. }
      destruct (endswith_char variable "p") eqn:Ep;
        [exfalso; apply Hnot; right; split; [exact Hk|reflexivity]|].
      destruct (endswith_char variable "s") eqn:Es;
        [exfalso; apply Hnot; right; split; [exact Hk|reflexivity]|].
      split; reflexivity.
    + intros Hc flat_file.
      destruct (Py.get String.eqb read variable) eqn:E; [discriminate Hc|].
      unfold test_tc_variable_totals, Py.getitem. rewrite Hmd. cbn [bind].
      now rewrite E.
  - intros (Hin & Hname & Hread & _). split; [exact Hin|].
    intros [Hex|[Hk Hsuffix]]; [now apply Hname|].
    destruct (Py.get String.eqb read variable) eqn:E.
    + destruct (Hread eq_refl) as [Hp Hs]. rewrite Hp, Hs in Hsuffix.
      discriminate Hsuffix.
    + apply (proj1 (get_In_keys read variable)) in E. contradiction.
Qed.

Lemma variables_to_test_exemptions_witness :
  In "combined" ["e00200"; "combined"] <->
  In "combined" (map fst SampleTotals.tc_variable_totals) /\
  ~ In "combined" EXEMPTED_BY_NAME /\
  (Py.contains String.eqb (metadata_section SampleTotals.md "read") "combined"
   = true ->
   endswith_char "combined" "p" = false /\
   endswith_char "combined" "s" = false) /\
  (Py.contains String.eqb (metadata_section SampleTotals.md "read") "combined"
   = false ->
   forall flat_file,
     test_tc_variable_totals SampleTotals.md SampleTotals.tc_variable_totals
       flat_file "combined"
     = Raise KeyError).
Proof.
  apply (variables_to_test_exemptions SampleTotals.md
           SampleTotals.tc_variable_totals ["e00200"; "combined"] "combined").
  reflexivity.
Defined.

(* ################################################################# *)
(** * [create_area_weights_file]: between the data and the loop *)

Lemma prepared_data_shapes (vardf : DataFrame) (tdf : list TargetRow)
      (M : ndarray2) (b : list Q) (s : Q) :
  prepared_data vardf tdf = Ok (M, b, s) ->
  well_shaped M /\
  nrow M = DF.len vardf /\
  ncol M = List.length tdf /\
  List.length b = List.length tdf /\
  (0 < List.length tdf)%nat.
Proof.
  intros H.
  apply prepared_data_Ok in H
    as (np & row & rest & cols & _ & Htdf & _ & Hcols & -> & -> & _).
  assert (Hlen : List.length cols = List.length tdf)
    by (symmetry; eapply Forall2_length; exact Hcols).
  split; [|split; [|split; [|split]]].
  - split.
    + cbn [scale2 transpose cells nrow ncol].
      now rewrite !length_map, length_seq.
    + cbn [scale2 transpose cells nrow ncol]. apply Forall_forall.
      intros r Hr. apply in_map_iff in Hr as (r' & <- & Hr').
      apply in_map_iff in Hr' as (j & <- & _).
      now rewrite !length_map.
  - reflexivity.
  - cbn [scale2 transpose ncol nrow]. exact Hlen.
  - now rewrite !length_map.
  - rewrite Htdf. simpl. lia.
Qed.

Lemma ones_deviation (n : nat) :
  qsum (map square (map (fun r => r - 1) (repeat 1 n))) == 0.
Proof.
  induction n as [|n IH]; [reflexivity|].
  cbn [repeat map qsum fold_right]. fold (qsum (map square
    (map (fun r => r - 1) (repeat 1 n)))).
  rewrite IH. unfold square. ring.
Qed.

Lemma achieved_value_ones (w : list Q) (M : ndarray2) (j : nat) :
  List.length w = nrow M ->
  achieved_value (zipWith Qmult (repeat 1 (List.length w)) w) M j
  == achieved_value w M j.
Proof.
  intros Hw. unfold achieved_value. apply bigsum_ext. intros i Hi.
  rewrite (nth_zipWith Qmult _ _ i 0 0 0)
    by (rewrite ?repeat_length; lia).
  rewrite nth_repeat_lt by lia. ring.
Qed.

(** On what [prepared_data] returns for a table with the column [s006],
    the steps of [create_area_weights_file] before the loop cannot fail:
    the national weights scaled to the area fit the target matrix, the
    first [target_rmse] returns, and the matrix of the problem is
    defined.  At the initial guess of all ones the objective is, for
    every [delta], the sum of the squared target deviations of these
    weights, the ones the first [target_rmse] takes the mean of. *)
Theorem initial_guess_objective :
  forall (vardf : DataFrame) (tdf : list TargetRow)
         (target_matrix : ndarray2) (target_array : list Q)
         (weights_scale : Q) (s006 : list Q) (delta : Q),
    prepared_data vardf tdf = Ok (target_matrix, target_array, weights_scale) ->
    DF.getattr vardf "s006" = Ok s006 ->
    let wght_us := map (fun w => w * weights_scale) s006 in
    let wght0 := repeat 1 (List.length wght_us) in
    exists scaled v dev ratio lines rmse,
      List.length wght_us = nrow target_matrix /\
      scale_rows target_matrix wght_us = Ok scaled /\
      objective_function wght0 (transpose scaled, target_array, delta) = Ok v /\
      target_deviations wght_us target_matrix target_array = Ok (dev, ratio) /\
      target_rmse wght_us target_matrix target_array = Ok (lines, rmse) /\
      v == qsum (map square dev) /\
      (rmse * rmse)%R = Q2R (v / inject_Z (Z.of_nat (ncol target_matrix))).
Proof.
  intros vardf tdf M b s s006 delta Hdata Hs006 wght_us wght0.
  apply prepared_data_shapes in Hdata as (Hshape & Hrows & Hcols & Hb & Hpos).
  apply getattr_Ok in Hs006 as [-> _].
  assert (Hw : List.length wght_us = nrow M)
    by (unfold wght_us, DF.column; now rewrite !length_map, Hrows).
  assert (Hx : List.length wght0 = nrow M)
    by (unfold wght0; now rewrite repeat_length).
  assert (Hb' : List.length b = ncol M) by lia.
  destruct (objective_function_value_on_scaled wght0 wght_us M b
              Hshape Hw Hx Hb' delta) as (v & Hv & Hval).
  cbv zeta in Hv.
  pose proof (target_deviations_value wght_us M b Hw Hb') as Hdev.
  pose proof (squared_deviations_sum wght_us M b Hshape Hw Hb') as Hsum.
  pose proof (qmean_squared_deviations wght_us M b Hshape Hw Hb') as Hmean.
  pose proof (mean_squared_deviation_nonneg wght_us M b Hw Hb') as Hnonneg.
  cbv zeta in Hdev, Hsum, Hmean.
  set (actual := map (fun j => qsum (zipWith Qmult wght_us (column2 M j)))
                   (seq 0 (ncol M))) in *.
  destruct (ratio_distribution_lines 0.0 (tl TARGET_RATIO_BINS)
              (zipWith Qdiv actual b) eq_refl eq_refl)
    as (lines & Hrun & _).
  change (Finite 0.0 :: tl TARGET_RATIO_BINS) with TARGET_RATIO_BINS in Hrun.
  assert (Hvsum : v == qsum (map square (zipWith Qminus actual b))).
  { rewrite Hval, Hsum. unfold wght0. rewrite ones_deviation.
    assert (Hext : bigsum (ncol M)
                     (fun j => square
                        (achieved_value
                           (zipWith Qmult (repeat 1 (List.length wght_us))
                              wght_us) M j - nth j b 0))
                   == bigsum (ncol M)
                        (fun j => square (achieved_value wght_us M j
                                          - nth j b 0))).
    { apply bigsum_ext. intros j _. apply square_compat.
      now rewrite achieved_value_ones. }
    rewrite Hext. ring. }
  eexists. exists v, (zipWith Qminus actual b), (zipWith Qdiv actual b), lines.
  eexists.
  split; [exact Hw|]. split; [apply scale_rows_value; exact Hw|].
  split; [exact Hv|]. split; [exact Hdev|]. split.
  { unfold target_rmse. rewrite Hdev. cbn [bind]. rewrite Hrun. reflexivity. }
  split; [exact Hvsum|].
  rewrite sqrt_sqrt.
  - apply Qeq_eqR. rewrite Hvsum. unfold qmean.
    rewrite length_map, length_zipWith.
    unfold actual at 2. rewrite length_map, length_seq, Hb', Nat.min_id.
    reflexivity.
  - rewrite <- Q2R_zero. apply Qle_Rle. rewrite Hmean. exact Hnonneg.
Qed.

Lemma initial_guess_objective_witness :
  let wght_us := map (fun w => w * Sample.weights_scale)
                   (DF.column Sample.vardf "s006") in
  let wght0 := repeat 1 (List.length wght_us) in
  exists scaled v dev ratio lines rmse,
    List.length wght_us = nrow Sample.target_matrix /\
    scale_rows Sample.target_matrix wght_us = Ok scaled /\
    objective_function wght0
      (transpose scaled, Sample.target_array, DELTA_INIT_VALUE) = Ok v /\
    target_deviations wght_us Sample.target_matrix Sample.target_array
    = Ok (dev, ratio) /\
    target_rmse wght_us Sample.target_matrix Sample.target_array
    = Ok (lines, rmse) /\
    v == qsum (map square dev) /\
    (rmse * rmse)%R
    = Q2R (v / inject_Z (Z.of_nat (ncol Sample.target_matrix))).
Proof.
  apply (initial_guess_objective Sample.vardf Sample.tdf Sample.target_matrix
           Sample.target_array Sample.weights_scale
           (DF.column Sample.vardf "s006") DELTA_INIT_VALUE).
  - vm_compute. reflexivity.
  - reflexivity.
Defined.

(* ################################################################# *)
(** * [create_area_weights_file]: the area weights of a run *)

Lemma pass_Ok
      (minimize :
         (list Q -> ndarray2 * list Q * Q -> result Q) ->
         list Q -> ndarray2 * list Q * Q -> result OptimizeResult)
      (A : ndarray2) (b wght_us : list Q) (M : ndarray2)
      (target_array wght0 : list Q) (delta : Q)
      (res : OptimizeResult) (wght_area : list Q) (misses : nat) :
  pass minimize A b wght_us M target_array wght0 delta
  = Ok (res, wght_area, misses) ->
  minimize objective_function wght0 (A, b, delta) = Ok res /\
  broadcast2 ValueError Qmult (res_x res) wght_us = Ok wght_area /\
  exists minfo, target_misses wght_area M target_array = Ok (misses, minfo).
Proof.
  unfold pass. intros H.
  bind_inv H as res' Hres. bind_inv H as wa Hwa. bind_inv H as counted Hc.
  injection H as <- <- <-. destruct counted as [misses minfo].
  split; [exact Hres|]. split; [exact Hwa|]. exists minfo. exact Hc.
Qed.

Lemma target_misses_length (wght : list Q) (M : ndarray2) (b : list Q)
      (counted : nat * list MissLine) :
  target_misses wght M b = Ok counted -> List.length wght = nrow M.
Proof.
  unfold target_misses, target_misses_tol, dot_vm.
  destruct (List.length wght =? nrow M)%nat eqn:E; [|discriminate].
  intros _. now apply Nat.eqb_eq.
Qed.

Lemma yearly_weights_key_list (first last : Z) (pop : Py.dict Z Q)
      (wght_area : list Q) (wdict : Py.dict string (list Q)) :
  yearly_weights first last pop wght_area = Ok wdict ->
  map fst wdict = wt_key first :: map wt_key (range (first + 1) (last + 1)).
Proof.
  intros H. unfold yearly_weights in H.
  apply years_loop_keys in H; [exact H|].
  intros k y [<-|[]] Hy Hkey. apply wt_key_inj in Hkey.
  apply in_range_from in Hy. lia.
Qed.

Section RunFacts.

Variable taxcalc_agi : DataFrame -> result (list Q).
Variable minimize :
  (list Q -> ndarray2 * list Q * Q -> result Q) ->
  list Q -> ndarray2 * list Q * Q -> result OptimizeResult.
Variables (infile : DataFrame) (cache : option (list Q)).
Variables (tdf : list TargetRow) (pop : Py.dict Z Q).

(** A run that ends normally: the table it loaded, the data it
    prepared, the last trial of its loop, and the area weights it made
    of the result of that trial. *)
Lemma create_area_weights_file_run (write_file write_cache : bool)
      (o : Outcome) (w : option (Py.dict string (list Q))) :
  create_area_weights_file taxcalc_agi minimize infile cache tdf pop
    write_file write_cache = Some o ->
  out_weights o = Ok w ->
  exists vdf M b weights_scale scaled t wght_area,
    snd (all_taxcalc_variables taxcalc_agi infile cache write_cache) = Ok vdf /\
    prepared_data vdf tdf = Ok (M, b, weights_scale) /\
    scale_rows M (map (fun w => w * weights_scale) (DF.column vdf "s006"))
    = Ok scaled /\
    nth_error (out_trials o) (List.length (out_trials o) - 1) = Some t /\
    trial_of_pass minimize (transpose scaled) b
      (map (fun w => w * weights_scale) (DF.column vdf "s006")) M b
      t wght_area /\
    broadcast2 ValueError Qmult (res_x (trial_res t))
      (map (fun w => w * weights_scale) (DF.column vdf "s006"))
    = Ok wght_area /\
    List.length wght_area = DF.len infile /\
    (if write_file
     then exists wdict,
         w = Some wdict /\
         yearly_weights FIRST_YEAR LAST_YEAR pop wght_area = Ok wdict
     else w = None).
Proof.
  unfold create_area_weights_file.
  destruct (all_taxcalc_variables taxcalc_agi infile cache write_cache)
    as [cache' loaded] eqn:Hload.
  destruct loaded as [vdf|e]; cbn [bind];
    [|intros H; injection H as <-; intros H; discriminate H].
  destruct (prepared_data vdf tdf) as [[[M b] weights_scale]|e] eqn:Hdata;
    cbn [bind]; [|intros H; injection H as <-; intros H; discriminate H].
  destruct (DF.getattr vdf "s006") as [s006|e] eqn:Hs006;
    cbn [bind]; [|intros H; injection H as <-; intros H; discriminate H].
  apply getattr_Ok in Hs006 as [-> _].
  destruct (density_defined (fst (fst (M, b, weights_scale)))) as [u|e];
    cbn [bind]; [|intros H; injection H as <-; intros H; discriminate H].
  set (wght_us := map (fun w => w * weights_scale) (DF.column vdf "s006")).
  destruct (regularization_loop_as_specified minimize wght_us M b 0)
    as (trials & r & Hloop & _ & _ & _ & Hend).
  rewrite Nat.add_0_r in Hloop. rewrite Hloop.
  pose proof (regularization_loop_ran minimize _ _ _ _ _ _ Hloop) as Hran.
  destruct r as [ex|e];
    [|intros H; injection H as <-; intros H; discriminate H].
  intros H. injection H as <-. cbn [out_weights out_trials].
  destruct Hend as (t & Hlast & Hres & _).
  destruct (scale_rows M wght_us) as [scaled|e] eqn:Hscaled;
    [|destruct Hran as [_ Hr]; discriminate Hr].
  destruct Hran as [Hall _].
  destruct (Hall _ _ Hlast) as (_ & _ & wght_area & Hpass).
  pose proof Hpass as Hpass'. unfold trial_of_pass in Hpass'.
  apply pass_Ok in Hpass' as (_ & Hmul & minfo & Hmiss).
  rewrite Hres, Hmul. cbn [bind]. intros Hw.
  assert (Hlen : List.length wght_area = DF.len infile).
  { apply target_misses_length in Hmiss. rewrite Hmiss.
    apply prepared_data_shapes in Hdata as (_ & -> & _).
    assert (Hv : snd (all_taxcalc_variables taxcalc_agi infile cache
                        write_cache) = Ok vdf) by now rewrite Hload.
    apply all_taxcalc_variables_Ok in Hv as [_ Hcol].
    now rewrite <- (length_column vdf "s006"), Hcol, length_column. }
  exists vdf, M, b, weights_scale, scaled, t, wght_area.
  split; [reflexivity|]. split; [exact Hdata|].
  split; [exact Hscaled|].
  split; [exact Hlast|]. split; [exact Hpass|]. split; [exact Hmul|].
  split; [exact Hlen|].
  destruct write_file; cbn [negb] in Hw.
  - destruct (yearly_weights FIRST_YEAR LAST_YEAR pop wght_area)
      as [wdict|e] eqn:Hy; [|discriminate Hw].
    cbn [bind] in Hw. injection Hw as <-. exists wdict. auto.
  - now injection Hw as <-.
Qed.

(** C7: in the yearly weights a run of [create_area_weights_file]
    writes, the column of [FIRST_YEAR] is the calibrated area weights
    times 100, and the column of every later year [t] up to [LAST_YEAR]
    is that column times the product of the population growth ratios
    [pop[k] / pop[k - 1]] for [k] from [FIRST_YEAR + 1] to [t], one
    factor for all records.  The calibrated area weights are
    [res.x * wght_us], for the result [res] the solver returned in the
    last trial of the loop and the national weights [wght_us] of the
    table loaded, scaled by the scale [prepared_data] returned; there is
    one of them for every record of the table.  The series has the
    columns [WT2021] to [WT2034], in this order, and no other. *)
Theorem create_area_weights_file_series :
  forall (write_cache : bool) (o : Outcome)
         (wdict : Py.dict string (list Q)),
    create_area_weights_file taxcalc_agi minimize infile cache tdf pop
      true write_cache = Some o ->
    out_weights o = Ok (Some wdict) ->
    exists vdf M b weights_scale scaled t wght_area,
      snd (all_taxcalc_variables taxcalc_agi infile cache write_cache)
      = Ok vdf /\
      prepared_data vdf tdf = Ok (M, b, weights_scale) /\
      scale_rows M (map (fun w => w * weights_scale) (DF.column vdf "s006"))
      = Ok scaled /\
      nth_error (out_trials o) (List.length (out_trials o) - 1) = Some t /\
      trial_of_pass minimize (transpose scaled) b
        (map (fun w => w * weights_scale) (DF.column vdf "s006")) M b
        t wght_area /\
      broadcast2 ValueError Qmult (res_x (trial_res t))
        (map (fun w => w * weights_scale) (DF.column vdf "s006"))
      = Ok wght_area /\
      List.length wght_area = DF.len infile /\
      map fst wdict
      = wt_key FIRST_YEAR
        :: map wt_key (range (FIRST_YEAR + 1) (LAST_YEAR + 1)) /\
      Py.get String.eqb wdict (wt_key FIRST_YEAR)
      = Some (map (fun w => w * 100) wght_area) /\
      forall y,
        (FIRST_YEAR < y <= LAST_YEAR)%Z ->
        exists v,
          Py.get String.eqb wdict (wt_key y) = Some v /\
          Forall2 Qeq v
            (map (fun w => w * 100 * growth_product pop FIRST_YEAR y)
               wght_area).
Proof.
  intros write_cache o wdict Hrun Hw.
  destruct (create_area_weights_file_run true write_cache o (Some wdict)
              Hrun Hw)
    as (vdf & M & b & weights_scale & scaled & t & wght_area
        & Hload & Hdata & Hscaled & Hlast & Hpass & Hmul & Hlen
        & wdict' & Heq & Hyears).
  injection Heq as <-.
  exists vdf, M, b, weights_scale, scaled, t, wght_area.
  split; [exact Hload|]. split; [exact Hdata|]. split; [exact Hscaled|].
  split; [exact Hlast|]. split; [exact Hpass|]. split; [exact Hmul|].
  split; [exact Hlen|].
  split; [exact (yearly_weights_key_list _ _ _ _ _ Hyears)|].
  exact (yearly_weights_Ok FIRST_YEAR LAST_YEAR pop wght_area wdict Hyears).
Qed.

(** With [write_file] off the population forecast is never read: the
    run is the same whatever the forecast holds, and it leaves no
    weights.  The flag changes nothing before the forecast is read: both
    runs leave the same cache and go through the same trials, and an
    exception of the run that does not write is raised by the one that
    writes as well.  When the run that writes ends normally so does the
    other, and the weights written are the yearly weights of the area
    weights [res.x * wght_us] of the last trial, the trial both runs
    ended on. *)
Theorem create_area_weights_file_write_file :
  forall (write_cache : bool) (pop' : Py.dict Z Q),
    create_area_weights_file taxcalc_agi minimize infile cache tdf pop
      false write_cache
    = create_area_weights_file taxcalc_agi minimize infile cache tdf pop'
        false write_cache /\
    exists o o',
      create_area_weights_file taxcalc_agi minimize infile cache tdf pop
        true write_cache = Some o /\
      create_area_weights_file taxcalc_agi minimize infile cache tdf pop
        false write_cache = Some o' /\
      out_cache o = out_cache o' /\
      out_trials o = out_trials o' /\
      (forall w, out_weights o' = Ok w -> w = None) /\
      (forall e, out_weights o' = Raise e -> out_weights o = Raise e) /\
      (forall w,
          out_weights o = Ok w ->
          out_weights o' = Ok None /\
          exists vdf M b weights_scale t wght_area wdict,
            snd (all_taxcalc_variables taxcalc_agi infile cache write_cache)
            = Ok vdf /\
            prepared_data vdf tdf = Ok (M, b, weights_scale) /\
            nth_error (out_trials o') (List.length (out_trials o') - 1)
            = Some t /\
            broadcast2 ValueError Qmult (res_x (trial_res t))
              (map (fun w => w * weights_scale) (DF.column vdf "s006"))
            = Ok wght_area /\
            w = Some wdict /\
            yearly_weights FIRST_YEAR LAST_YEAR pop wght_area = Ok wdict).
Proof.
  intros write_cache pop'.
  destruct (create_area_weights_file_finishes taxcalc_agi minimize infile
              cache tdf pop true write_cache) as (o & Ho & _).
  destruct (create_area_weights_file_finishes taxcalc_agi minimize infile
              cache tdf pop false write_cache) as (o' & Ho' & _).
  pose proof (fun w => create_area_weights_file_run true write_cache o w Ho)
    as Hrun.
  revert Hrun Ho Ho'. unfold create_area_weights_file.
  destruct (all_taxcalc_variables taxcalc_agi infile cache write_cache)
    as [cache' loaded].
  destruct (vdf <- loaded ;;
            prepared <- prepared_data vdf tdf ;;
            s006 <- DF.getattr vdf "s006" ;;
            _ <- density_defined (fst (fst prepared)) ;;
            Ok (prepared, s006))
    as [[[[target_matrix target_array] weights_scale] s006]|e].
  2:{ intros _ Ho Ho'. injection Ho as <-. injection Ho' as <-.
      split; [reflexivity|]. eexists. eexists.
      split; [reflexivity|]. split; [reflexivity|]. cbn.
      split; [reflexivity|]. split; [reflexivity|].
      split; [intros w H; discriminate H|].
      split; [intros e' H; exact H|]. intros w H. discriminate H. }
  destruct (regularization_loop minimize (Z.to_nat DELTA_MAX_LOOPS)
              (map (fun w => w * weights_scale) s006)
              target_matrix target_array) as [[trials [ex|e]]|].
  3:{ intros _ Ho. discriminate Ho. }
  2:{ intros _ Ho Ho'. injection Ho as <-. injection Ho' as <-.
      split; [reflexivity|]. eexists. eexists.
      split; [reflexivity|]. split; [reflexivity|]. cbn.
      split; [reflexivity|]. split; [reflexivity|].
      split; [intros w H; discriminate H|].
      split; [intros e' H; exact H|]. intros w H. discriminate H. }
  intros Hrun Ho Ho'. injection Ho as <-. injection Ho' as <-.
  cbn [out_weights out_trials] in Hrun.
  assert (Hsame :
    forall p : Py.dict Z Q,
      match exit_res ex with
      | Some res =>
          wght_area <- broadcast2 ValueError Qmult (res_x res)
                         (map (fun w => w * weights_scale) s006) ;;
          (if negb false then Ok None
           else wdict <- yearly_weights FIRST_YEAR LAST_YEAR p wght_area ;;
                Ok (Some wdict))
      | None => Raise UnboundLocalError
      end
      = match exit_res ex with
        | Some res =>
            wght_area <- broadcast2 ValueError Qmult (res_x res)
                           (map (fun w => w * weights_scale) s006) ;;
            Ok None
        | None => Raise UnboundLocalError
        end) by reflexivity.
  split; [now rewrite !Hsame|].
  eexists. eexists. split; [reflexivity|]. split; [reflexivity|].
  cbn [out_cache out_trials out_weights].
  split; [reflexivity|]. split; [reflexivity|].
  destruct (exit_res ex) as [res|].
  2:{ split; [intros w H; discriminate H|].
      split; [intros e' H; exact H|]. intros w H. discriminate H. }
  destruct (broadcast2 ValueError Qmult (res_x res)
              (map (fun w => w * weights_scale) s006)) as [wght_area|e];
    cbn [bind negb] in *.
  2:{ split; [intros w H; discriminate H|].
      split; [intros e' H; exact H|]. intros w H. discriminate H. }
  split; [intros w H; now injection H as <-|].
  split; [intros e' H; discriminate H|].
  intros w H. split; [reflexivity|].
  destruct (Hrun w H)
    as (vdf & M & b & scale' & scaled & t & wght_area'
        & Hload & Hdata & _ & Hlast & _ & Hmul & _ & wdict & -> & Hyears).
  exists vdf, M, b, scale', t, wght_area', wdict.
  split; [exact Hload|]. split; [exact Hdata|]. split; [exact Hlast|].
  split; [exact Hmul|]. split; [reflexivity|exact Hyears].
Qed.

End RunFacts.

(** The sample run writes weights: the table is loaded from the cache
    and the solver returns its initial guess. *)
Lemma create_area_weights_file_series_witness :
  exists (o : Outcome) (wdict : Py.dict string (list Q)),
    create_area_weights_file (fun _ => Raise ValueError)
      SampleRuns.solver_guess Sample.vardf (Some [50000; 15000; -200])
      Sample.tdf SampleForecast.pop true false = Some o /\
    out_weights o = Ok (Some wdict) /\
    exists vdf M b weights_scale scaled t wght_area,
      snd (all_taxcalc_variables (fun _ => Raise ValueError) Sample.vardf
             (Some [50000; 15000; -200]) false) = Ok vdf /\
      prepared_data vdf Sample.tdf = Ok (M, b, weights_scale) /\
      scale_rows M (map (fun w => w * weights_scale) (DF.column vdf "s006"))
      = Ok scaled /\
      nth_error (out_trials o) (List.length (out_trials o) - 1) = Some t /\
      trial_of_pass SampleRuns.solver_guess (transpose scaled) b
        (map (fun w => w * weights_scale) (DF.column vdf "s006")) M b
        t wght_area /\
      broadcast2 ValueError Qmult (res_x (trial_res t))
        (map (fun w => w * weights_scale) (DF.column vdf "s006"))
      = Ok wght_area /\
      List.length wght_area = DF.len Sample.vardf /\
      map fst wdict
      = wt_key FIRST_YEAR
        :: map wt_key (range (FIRST_YEAR + 1) (LAST_YEAR + 1)) /\
      Py.get String.eqb wdict (wt_key FIRST_YEAR)
      = Some (map (fun w => w * 100) wght_area) /\
      forall y,
        (FIRST_YEAR < y <= LAST_YEAR)%Z ->
        exists v,
          Py.get String.eqb wdict (wt_key y) = Some v /\
          Forall2 Qeq v
            (map (fun w => w * 100 * growth_product SampleForecast.pop
                                       FIRST_YEAR y)
               wght_area).
Proof.
  assert (exists (o : Outcome) (wdict : Py.dict string (list Q)),
             create_area_weights_file (fun _ => Raise ValueError)
               SampleRuns.solver_guess Sample.vardf
               (Some [50000; 15000; -200])
               Sample.tdf SampleForecast.pop true false = Some o /\
             out_weights o = Ok (Some wdict))
    as (o & wdict & Ho & Hw)
    by (vm_compute; eexists; eexists; split; reflexivity).
  exists o, wdict. split; [exact Ho|]. split; [exact Hw|].
  exact (create_area_weights_file_series (fun _ => Raise ValueError)
           SampleRuns.solver_guess Sample.vardf (Some [50000; 15000; -200])
           Sample.tdf SampleForecast.pop false o wdict Ho Hw).
Defined.

(* ################################################################# *)
(** * The script: exit status and weights file *)

Section MainFacts.

Variable taxcalc_agi : DataFrame -> result (list Q).
Variable minimize :
  (list Q -> ndarray2 * list Q * Q -> result Q) ->
  list Q -> ndarray2 * list Q * Q -> result OptimizeResult.
Variables (infile : DataFrame) (cache : option (list Q)) (pop : Py.dict Z Q).
Variable targets_folder : Py.dict string (list TargetRow).

(** The script always comes to an end, with status 0 or 1.  Status 1
    comes in two ways.  Either the script wrote one error of its own:
    then nothing was raised, the weights file of the area is as it was,
    and the error is that of the arguments, of the area [valid_area]
    turned down, or of the targets file that is missing.  Or an
    exception nothing caught ended it: then the script wrote no error of
    its own, and the exception was raised either by [valid_area], with
    the weights file as it was, or by the run of
    [create_area_weights_file], with the weights file removed.  Status 0
    comes only when the script was given exactly one argument, an area
    [valid_area] accepts without a complaint (two or four characters,
    the first two in lower case and the code of a state), whose targets
    file is in the targets folder, and when the run on these targets
    ended normally.  The weights file then holds the yearly weights of
    the area weights [res.x * wght_us] of the last trial of that run:
    the columns [WT2021] to [WT2034] in this order, each with one weight
    for every record of the table of the nation. *)
Theorem main_exit_status :
  forall (argv : list string) (weights_file : option (Py.dict string (list Q))),
  exists fin,
    main taxcalc_agi minimize infile cache pop targets_folder argv weights_file
    = Some fin /\
    (fin_status fin = 0 \/ fin_status fin = 1)%Z /\
    (fin_status fin = 1%Z -> fin_uncaught fin = None ->
     fin_weights_file fin = weights_file /\
     exists err,
       fin_errors fin = [err] /\
       ((List.length argv <> 2%nat /\ err = OneArgumentRequired)
        \/ (exists script area,
               argv = [script; area] /\
               snd (Area.valid_area area) = Ok false /\
               fin_complaints fin = fst (Area.valid_area area) /\
               err = AreaNotValid area)
        \/ (exists script area,
               argv = [script; area] /\
               Area.valid_area area = ([], Ok true) /\
               Py.get String.eqb targets_folder (area ++ "_targets.csv")%string
               = None /\
               err = NoTargetsFile (area ++ "_targets.csv")%string))) /\
    (forall e,
        fin_uncaught fin = Some e ->
        fin_status fin = 1%Z /\
        fin_errors fin = [] /\
        exists script area,
          argv = [script; area] /\
          ((snd (Area.valid_area area) = Raise e /\
            fin_weights_file fin = weights_file)
           \/ (Area.valid_area area = ([], Ok true) /\
               exists tdf o,
                 Py.get String.eqb targets_folder
                   (area ++ "_targets.csv")%string = Some tdf /\
                 create_area_weights_file taxcalc_agi minimize infile cache
                   tdf pop true false = Some o /\
                 out_weights o = Raise e /\
                 fin_weights_file fin = None))) /\
    (fin_status fin = 0%Z ->
     fin_uncaught fin = None /\
     exists script area tdf o vdf M b weights_scale t (wght_area : list Q)
            wdict,
       argv = [script; area] /\
       Area.valid_area area = ([], Ok true) /\
       (Py.len area = 2%Z \/ Py.len area = 4%Z) /\
       Py.islower (Py.slice 0 2 area) = true /\
       Py.contains String.eqb Area.state_info (Py.upper (Py.slice 0 2 area))
       = true /\
       Py.get String.eqb targets_folder (area ++ "_targets.csv")%string
       = Some tdf /\
       fin_complaints fin = [] /\ fin_errors fin = [] /\
       create_area_weights_file taxcalc_agi minimize infile cache tdf pop
         true false = Some o /\
       out_weights o = Ok (Some wdict) /\
       snd (all_taxcalc_variables taxcalc_agi infile cache false) = Ok vdf /\
       prepared_data vdf tdf = Ok (M, b, weights_scale) /\
       nth_error (out_trials o) (List.length (out_trials o) - 1) = Some t /\
       broadcast2 ValueError Qmult (res_x (trial_res t))
         (map (fun w => w * weights_scale) (DF.column vdf "s006"))
       = Ok wght_area /\
       List.length wght_area = DF.len infile /\
       yearly_weights FIRST_YEAR LAST_YEAR pop wght_area = Ok wdict /\
       fin_weights_file fin = Some wdict /\
       map fst wdict
       = wt_key FIRST_YEAR :: map wt_key (range (FIRST_YEAR + 1) (LAST_YEAR + 1)) /\
       Forall (fun kv => List.length (snd kv) = DF.len infile) wdict).
Proof.
  intros argv weights_file. unfold main.
  destruct (Z.of_nat (List.length argv) =? 2)%Z eqn:Hargs; cbn [negb].
  2:{ eexists. split; [reflexivity|].
      cbn [fin_status fin_uncaught fin_errors fin_weights_file fin_complaints].
      split; [now right|]. split; [|split].
      - intros _ _. split; [reflexivity|]. eexists. split; [reflexivity|].
        left. split; [|reflexivity]. apply Z.eqb_neq in Hargs. lia.
      - intros e H. discriminate H.
      - intros H. discriminate H. }
  destruct argv as [|script [|area [|extra argv]]]; try discriminate Hargs.
  2:{ exfalso. apply Z.eqb_eq in Hargs. cbn [List.length] in Hargs. lia. }
  cbn [nth].
  destruct (Area.valid_area area) as [complaints [valid|e]] eqn:Hvalid.
  2:{ eexists. split; [reflexivity|].
      cbn [fin_status fin_uncaught fin_errors fin_weights_file fin_complaints].
      split; [now right|]. split; [|split].
      - intros _ H. discriminate H.
      - intros e' H. injection H as <-.
        split; [reflexivity|]. split; [reflexivity|].
        exists script, area. split; [reflexivity|].
        left. rewrite Hvalid. split; reflexivity.
      - intros H. discriminate H. }
  destruct valid; cbn [negb].
  2:{ eexists. split; [reflexivity|].
      cbn [fin_status fin_uncaught fin_errors fin_weights_file fin_complaints].
      split; [now right|]. split; [|split].
      - intros _ _. split; [reflexivity|]. eexists. split; [reflexivity|].
        right. left. exists script, area. rewrite Hvalid.
        split; [reflexivity|]. split; [reflexivity|].
        split; reflexivity.
      - intros e H. discriminate H.
      - intros H. discriminate H. }
  destruct (valid_area_true area complaints Hvalid)
    as (-> & Hlen & Hlower & Hstate).
  destruct (Py.get String.eqb targets_folder (area ++ "_targets.csv"))
    as [tdf|] eqn:Hfile.
  2:{ eexists. split; [reflexivity|].
      cbn [fin_status fin_uncaught fin_errors fin_weights_file fin_complaints].
      split; [now right|]. split; [|split].
      - intros _ _. split; [reflexivity|]. eexists. split; [reflexivity|].
        right. right. exists script, area.
        split; [reflexivity|]. split; [exact Hvalid|].
        split; [exact Hfile|reflexivity].
      - intros e H. discriminate H.
      - intros H. discriminate H. }
  destruct (create_area_weights_file_finishes taxcalc_agi minimize infile cache
              tdf pop true false) as (o & Hrun & _).
  rewrite Hrun.
  destruct (out_weights o) as [written|e] eqn:Hout.
  2:{ eexists. split; [reflexivity|].
      cbn [fin_status fin_uncaught fin_errors fin_weights_file fin_complaints].
      split; [now right|]. split; [|split].
      - intros _ H. discriminate H.
      - intros e' H. injection H as <-.
        split; [reflexivity|]. split; [reflexivity|].
        exists script, area. split; [reflexivity|].
        right. split; [exact Hvalid|]. exists tdf, o.
        split; [exact Hfile|]. split; [exact Hrun|].
        split; [exact Hout|reflexivity].
      - intros H. discriminate H. }
  destruct (create_area_weights_file_run taxcalc_agi minimize infile cache
              tdf pop true false o written Hrun Hout)
    as (vdf & M & b & weights_scale & scaled & t & wght_area
        & Hload & Hdata & _ & Hlast & _ & Hmul & Hlength
        & wdict & -> & Hyears).
  eexists. split; [reflexivity|].
      cbn [fin_status fin_uncaught fin_errors fin_weights_file fin_complaints].
  split; [now left|]. split; [|split].
  - intros H. discriminate H.
  - intros e H. discriminate H.
  - intros _. split; [reflexivity|].
    exists script, area, tdf, o, vdf, M, b, weights_scale, t, wght_area, wdict.
    split; [reflexivity|]. split; [exact Hvalid|].
    split; [exact Hlen|]. split; [exact Hlower|]. split; [exact Hstate|].
    split; [exact Hfile|]. split; [reflexivity|]. split; [reflexivity|].
    split; [exact Hrun|]. split; [exact Hout|].
    split; [exact Hload|]. split; [exact Hdata|]. split; [exact Hlast|].
    split; [exact Hmul|]. split; [exact Hlength|]. split; [exact Hyears|].
    split; [reflexivity|].
    split.
    + exact (yearly_weights_key_list _ _ _ _ _ Hyears).
    + rewrite <- Hlength. unfold yearly_weights in Hyears.
      eapply (years_loop_shape pop _
                (fun v => List.length v = List.length wght_area));
        [| |exact Hyears].
      * intros c. now rewrite !length_map.
      * repeat constructor. simpl. now rewrite length_map.
Qed.

End MainFacts.
